(** * Resume parsing pipeline, record lifecycle, profile completion and
    match scoring of the job-board application.

    The development embeds

    - [resumes/schemas.py]   (module [Schemas]),
    - [resumes/models.py] and [accounts/models.py] (module [Models]),
    - [resumes/services/resume_parser.py] (module [Parser]),
    - the functions [_process_resume], [_update_user_profile],
      [_calculate_profile_completion] and [apply_job] of
      [resumes/views.py] (module [Views]),

    and proves or refutes the specified properties about them.

    Python strings are modelled as [string]; a character is a code point
    below 256, for which [str.isspace], [str.isdigit] and [str.lower] are
    tabulated below exactly as CPython computes them. *)

From Stdlib Require Import Ascii String Floats Uint63.
From stdpp Require Import base gmap sets list strings.
From stdpp Require Import pretty.

Local Open Scope string_scope.
Local Open Scope list_scope.
Local Set Warnings "-register-all,-inexact-float".

(** ** Python built-ins used by the code *)

Module Py.

Definition code (c : ascii) : N := N_of_ascii c.

(** [str.isspace] on one character. *)
Definition isspace (c : ascii) : bool :=
  let n := code c in
  ((9 <=? n) && (n <=? 13) || (28 <=? n) && (n <=? 32)
   || (n =? 133) || (n =? 160))%N.

(** [str.isdigit] on one character. *)
Definition isdigit (c : ascii) : bool :=
  let n := code c in
  ((48 <=? n) && (n <=? 57) || (n =? 178) || (n =? 179) || (n =? 185))%N.

(** [str.lower] on one character. *)
Definition lower_char (c : ascii) : ascii :=
  let n := code c in
  if ((65 <=? n) && (n <=? 90)
      || (192 <=? n) && (n <=? 222) && negb (n =? 215))%N
  then ascii_of_N (n + 32) else c.

(** [s.lower()] *)
Fixpoint lower (s : string) : string :=
  match s with
  | EmptyString => EmptyString
  | String c s' => String (lower_char c) (lower s')
  end.

(** [s.lstrip()] *)
Fixpoint lstrip (s : string) : string :=
  match s with
  | EmptyString => EmptyString
  | String c s' => if isspace c then lstrip s' else s
  end.

(** [s.rstrip()]: the inner result is the stripped tail. *)
Fixpoint rstrip (s : string) : string :=
  match s with
  | EmptyString => EmptyString
  | String c s' =>
      match rstrip s' with
      | EmptyString => if isspace c then EmptyString else String c EmptyString
      | t => String c t
      end
  end.

(** [s.strip()] *)
Definition strip (s : string) : string := rstrip (lstrip s).

(** [''.join(filter(p, s))] *)
Fixpoint filter_chars (p : ascii → bool) (s : string) : string :=
  match s with
  | EmptyString => EmptyString
  | String c s' => if p c then String c (filter_chars p s') else filter_chars p s'
  end.

(** [s.split()]: the maximal runs of characters that are not whitespace.
    [cur] is the run being read, in reverse. *)
Fixpoint split_go (cur : list ascii) (s : string) : list string :=
  let flush := match cur with
               | [] => []
               | _ => [string_of_list_ascii (reverse cur)]
               end in
  match s with
  | EmptyString => flush
  | String c s' =>
      if isspace c then flush ++ split_go [] s' else split_go (c :: cur) s'
  end.

Definition split (s : string) : list string := split_go [] s.

(** [' '.join(l)] *)
Fixpoint join_space (l : list string) : string :=
  match l with
  | [] => ""
  | [x] => x
  | x :: rest => x +:+ " " +:+ join_space rest
  end.

(** The newline character and ['\n'.join(l)]. *)
Definition nl : string := String (ascii_of_N 10) EmptyString.

Fixpoint join_nl (l : list string) : string :=
  match l with
  | [] => ""
  | [x] => x
  | x :: rest => x +:+ nl +:+ join_nl rest
  end.

(** [s[:n]] *)
Definition prefix (n : nat) (s : string) : string := substring 0 n s.

(** [s.split('.')[-1]]: [cur] is the component being read. *)
Fixpoint last_component (cur : string) (s : string) : string :=
  match s with
  | EmptyString => cur
  | String c s' =>
      if bool_decide (c = "."%char) then last_component "" s'
      else last_component (cur +:+ String c EmptyString) s'
  end.

(** Truth value of a string, of a list and of an optional value. *)
Definition truthy_str (s : string) : bool := bool_decide (s ≠ "").

Definition truthy_list {A} (l : list A) : bool :=
  match l with [] => false | _ => true end.

Definition truthy_opt_str (o : option string) : bool :=
  match o with Some s => truthy_str s | None => false end.

(** Exceptions.  [str(e)] is the message the exception carries. *)
Inductive exn :=
  | ValueError (msg : string)
  | Exception (msg : string)
  | ValidationError (msg : string)  (* pydantic / output-parser rejection *)
  | LibraryError (msg : string)     (* file readers, model client, database *)
  | Http404.

Definition str_exn (e : exn) : string :=
  match e with
  | ValueError m | Exception m | ValidationError m | LibraryError m => m
  | Http404 => "Not found"
  end.

(** Outcome of a call: a value or a raised exception. *)
Inductive result (A : Type) :=
  | Ok (a : A)
  | Raise (e : exn).
Global Arguments Ok {A} a.
Global Arguments Raise {A} e.

Definition rbind {A B} (r : result A) (k : A → result B) : result B :=
  match r with Ok a => k a | Raise e => Raise e end.

Global Instance result_bind : MBind result := λ A B k r, rbind r k.
Global Instance result_ret : MRet result := @Ok.

Fixpoint rmapM {A B} (f : A → result B) (l : list A) : result (list B) :=
  match l with
  | [] => Ok []
  | x :: rest =>
      y ← f x; ys ← rmapM f rest; mret (y :: ys)
  end.

(** Python values found in the dictionaries the parser returns. *)
Inductive pyval :=
  | PNone
  | PInt (n : Z)
  | PStr (s : string)
  | PList (l : list pyval)
  | PDict (items : list (string * pyval)).

(** A [dict] keeps its items in insertion order. *)
Definition dict := list (string * pyval).

Fixpoint dict_lookup (d : dict) (key : string) : option pyval :=
  match d with
  | [] => None
  | (k, v) :: rest => if bool_decide (k = key) then Some v else dict_lookup rest key
  end.

(** [d.get(key, default)] *)
Definition dict_get (d : dict) (key : string) (default : pyval) : pyval :=
  match dict_lookup d key with Some v => v | None => default end.

(** [bool(v)] *)
Definition truthy (v : pyval) : bool :=
  match v with
  | PNone => false
  | PInt n => bool_decide (n ≠ 0%Z)
  | PStr s => truthy_str s
  | PList l => truthy_list l
  | PDict items => truthy_list items
  end.

(** The strings of a list value, and the string of a string value. *)
Definition str_items (v : pyval) : list string :=
  match v with
  | PList l => omap (λ x, match x with PStr s => Some s | _ => None end) l
  | _ => []
  end.

Definition int_or_null (v : pyval) : option Z :=
  match v with PInt n => Some n | _ => None end.

Definition as_str (v : pyval) : string :=
  match v with PStr s => s | _ => "" end.

Definition of_opt_str (o : option string) : pyval :=
  match o with Some s => PStr s | None => PNone end.

Definition of_opt_int (o : option Z) : pyval :=
  match o with Some n => PInt n | None => PNone end.

Definition of_str_list (l : list string) : pyval := PList (PStr <$> l).

(** *** Floating point: Python's [float] is IEEE binary64, as [float] is. *)

(** [float(n)] for the length of a list (exact below 2^53). *)
Definition float_of_nat (n : nat) : float :=
  PrimFloat.of_uint63 (Uint63.of_Z (Z.of_nat n)).

(** [a / b] rounded to the nearest integer, ties to the even one ([0 < b]). *)
Definition div_half_even (a b : Z) : Z :=
  let q := (a `div` b)%Z in
  let r := (a `mod` b)%Z in
  if (2 * r <? b)%Z then q
  else if (b <? 2 * r)%Z then (q + 1)%Z
  else if Z.even q then q else (q + 1)%Z.

(** [round(x, 2)]: CPython rounds the exact binary value of [x] to two
    decimals, ties to even, and returns the closest float to that
    decimal.  With [x = m * 2^e] the decimal is [n / 100] for
    [n = round (m * 100 / 2^(-e))]; [n] is converted exactly as long as
    [|x| < 2^46], which covers every percentage. *)
Definition round2 (x : float) : float :=
  match Prim2SF x with
  | S754_finite sign m e =>
      if (0 <=? e)%Z then x
      else
        let n := div_half_even (Z.pos m * 100) (2 ^ (- e)) in
        let r := (PrimFloat.of_uint63 (Uint63.of_Z n) / 100)%float in
        if sign then (- r)%float else r
  | _ => x
  end.

End Py.

(** ** [resumes/schemas.py] *)

Module Schemas.

(** *** Input of validation

    The model's answer, once read as JSON, gives for every declared field
    one of: no such key, [null], a value of the declared type, or a value
    the type check rejects (wrong JSON type, malformed e-mail address). *)
Inductive raw (A : Type) :=
  | Absent
  | Null
  | Value (a : A)
  | Invalid.
Global Arguments Absent {A}.
Global Arguments Null {A}.
Global Arguments Value {A} a.
Global Arguments Invalid {A}.

Definition field_required (name : string) : Py.exn :=
  Py.ValidationError (name +:+ ": Field required").
Definition field_invalid (name : string) : Py.exn :=
  Py.ValidationError (name +:+ ": Input is not valid").

(** [x: T = Field(description=...)]: a required field. *)
Definition required {A} (name : string) (r : raw A) : Py.result A :=
  match r with
  | Value a => Py.Ok a
  | Absent => Py.Raise (field_required name)
  | Null | Invalid => Py.Raise (field_invalid name)
  end.

(** [x: Optional[T] = Field(None, ...)] *)
Definition optional {A} (name : string) (r : raw A) : Py.result (option A) :=
  match r with
  | Value a => Py.Ok (Some a)
  | Absent | Null => Py.Ok None
  | Invalid => Py.Raise (field_invalid name)
  end.

(** [x: List[T] = Field(default_factory=list, ...)]; [post] is the field
    validator, which runs on supplied values only. *)
Definition list_field {A} (name : string) (post : list A → list A)
    (r : raw (list A)) : Py.result (list A) :=
  match r with
  | Value l => Py.Ok (post l)
  | Absent => Py.Ok []
  | Null | Invalid => Py.Raise (field_invalid name)
  end.

(** *** [class WorkExperience] *)
Module WorkExperience.

Record raw_t := {
  raw_company : raw string;
  raw_position : raw string;
  raw_location : raw string;
  raw_start_date : raw string;
  raw_end_date : raw string;
  raw_description : raw string;
  raw_achievements : raw (list string) }.

Record t := {
  company : string;
  position : string;
  location : option string;
  start_date : string;
  end_date : string;
  description : option string;
  achievements : list string }.

(** [validate_end_date]: [if not v: return 'Present']. *)
Definition validate_end_date (v : string) : string :=
  if negb (Py.truthy_str v) then "Present" else v.

(** Validation of one entry: every field is type-checked, then the field
    validator of [end_date] runs on the value that passed. *)
Definition validate (r : raw_t) : Py.result t :=
  c ← required "company" (raw_company r);
  p ← required "position" (raw_position r);
  l ← optional "location" (raw_location r);
  sd ← required "start_date" (raw_start_date r);
  ed ← required "end_date" (raw_end_date r);
  d ← optional "description" (raw_description r);
  a ← list_field "achievements" id (raw_achievements r);
  mret {| company := c; position := p; location := l; start_date := sd;
          end_date := validate_end_date ed; description := d;
          achievements := a |}.

Definition to_dict (x : t) : Py.dict :=
  [("company", Py.PStr (company x)); ("position", Py.PStr (position x));
   ("location", Py.of_opt_str (location x));
   ("start_date", Py.PStr (start_date x)); ("end_date", Py.PStr (end_date x));
   ("description", Py.of_opt_str (description x));
   ("achievements", Py.of_str_list (achievements x))].

End WorkExperience.

(** *** [class Education] *)
Module Education.

Record raw_t := {
  raw_institution : raw string;
  raw_degree : raw string;
  raw_field_of_study : raw string;
  raw_location : raw string;
  raw_start_date : raw string;
  raw_end_date : raw string;
  raw_gpa : raw string;
  raw_honors : raw (list string) }.

Record t := {
  institution : string;
  degree : string;
  field_of_study : option string;
  location : option string;
  start_date : option string;
  end_date : option string;
  gpa : option string;
  honors : list string }.

Definition validate (r : raw_t) : Py.result t :=
  i ← required "institution" (raw_institution r);
  d ← required "degree" (raw_degree r);
  f ← optional "field_of_study" (raw_field_of_study r);
  l ← optional "location" (raw_location r);
  sd ← optional "start_date" (raw_start_date r);
  ed ← optional "end_date" (raw_end_date r);
  g ← optional "gpa" (raw_gpa r);
  h ← list_field "honors" id (raw_honors r);
  mret {| institution := i; degree := d; field_of_study := f; location := l;
          start_date := sd; end_date := ed; gpa := g; honors := h |}.

Definition to_dict (x : t) : Py.dict :=
  [("institution", Py.PStr (institution x)); ("degree", Py.PStr (degree x));
   ("field_of_study", Py.of_opt_str (field_of_study x));
   ("location", Py.of_opt_str (location x));
   ("start_date", Py.of_opt_str (start_date x));
   ("end_date", Py.of_opt_str (end_date x));
   ("gpa", Py.of_opt_str (gpa x)); ("honors", Py.of_str_list (honors x))].

End Education.

(** *** [class Certification] *)
Module Certification.

Record raw_t := {
  raw_name : raw string;
  raw_issuing_organization : raw string;
  raw_issue_date : raw string;
  raw_expiry_date : raw string;
  raw_credential_id : raw string }.

Record t := {
  name : string;
  issuing_organization : option string;
  issue_date : option string;
  expiry_date : option string;
  credential_id : option string }.

Definition validate (r : raw_t) : Py.result t :=
  n ← required "name" (raw_name r);
  o ← optional "issuing_organization" (raw_issuing_organization r);
  i ← optional "issue_date" (raw_issue_date r);
  e ← optional "expiry_date" (raw_expiry_date r);
  c ← optional "credential_id" (raw_credential_id r);
  mret {| name := n; issuing_organization := o; issue_date := i;
          expiry_date := e; credential_id := c |}.

Definition to_dict (x : t) : Py.dict :=
  [("name", Py.PStr (name x));
   ("issuing_organization", Py.of_opt_str (issuing_organization x));
   ("issue_date", Py.of_opt_str (issue_date x));
   ("expiry_date", Py.of_opt_str (expiry_date x));
   ("credential_id", Py.of_opt_str (credential_id x))].

End Certification.

(** *** [class Project] *)
Module Project.

Record raw_t := {
  raw_name : raw string;
  raw_description : raw string;
  raw_technologies : raw (list string);
  raw_url : raw string;
  raw_date : raw string }.

Record t := {
  name : string;
  description : option string;
  technologies : list string;
  url : option string;
  date : option string }.

Definition validate (r : raw_t) : Py.result t :=
  n ← required "name" (raw_name r);
  d ← optional "description" (raw_description r);
  t ← list_field "technologies" id (raw_technologies r);
  u ← optional "url" (raw_url r);
  dt ← optional "date" (raw_date r);
  mret {| name := n; description := d; technologies := t; url := u;
          date := dt |}.

Definition to_dict (x : t) : Py.dict :=
  [("name", Py.PStr (name x)); ("description", Py.of_opt_str (description x));
   ("technologies", Py.of_str_list (technologies x));
   ("url", Py.of_opt_str (url x)); ("date", Py.of_opt_str (date x))].

End Project.

(** [x: List[M] = Field(default_factory=list)] for a nested model [M]. *)
Definition model_list {R A} (name : string) (validate : R → Py.result A)
    (r : raw (list R)) : Py.result (list A) :=
  match r with
  | Value l => Py.rmapM validate l
  | Absent => Py.Ok []
  | Null | Invalid => Py.Raise (field_invalid name)
  end.

(** *** [class ResumeParsedSchema] *)
Module ResumeParsedSchema.

Record raw_t := {
  raw_name : raw string;
  raw_email : raw string;
  raw_phone : raw string;
  raw_location : raw string;
  raw_linkedin : raw string;
  raw_github : raw string;
  raw_portfolio : raw string;
  raw_summary : raw string;
  raw_skills : raw (list string);
  raw_technical_skills : raw (list string);
  raw_soft_skills : raw (list string);
  raw_experience : raw (list WorkExperience.raw_t);
  raw_total_experience_years : raw Z;
  raw_education : raw (list Education.raw_t);
  raw_highest_education : raw string;
  raw_certifications : raw (list Certification.raw_t);
  raw_projects : raw (list Project.raw_t);
  raw_languages : raw (list string);
  raw_awards : raw (list string);
  raw_publications : raw (list string);
  raw_volunteer_work : raw (list string) }.

Record t := {
  name : string;
  email : option string;
  phone : option string;
  location : option string;
  linkedin : option string;
  github : option string;
  portfolio : option string;
  summary : option string;
  skills : list string;
  technical_skills : list string;
  soft_skills : list string;
  experience : list WorkExperience.t;
  total_experience_years : option Z;
  education : list Education.t;
  highest_education : option string;
  certifications : list Certification.t;
  projects : list Project.t;
  languages : list string;
  awards : list string;
  publications : list string;
  volunteer_work : list string }.

(** [clean_phone] *)
Definition clean_phone (v : option string) : option string :=
  if Py.truthy_opt_str v
  then Py.filter_chars Py.isdigit <$> v
  else v.

(** The loop of [clean_skills]: [seen] is the set of lower-cased skills
    met so far, [cleaned] the output list built so far. *)
Fixpoint clean_skills_loop (v : list string) (seen : gset string)
    (cleaned : list string) : list string :=
  match v with
  | [] => cleaned
  | skill :: rest =>
      let skill_clean := Py.strip skill in
      if Py.truthy_str skill_clean
         && bool_decide (Py.lower skill_clean ∉ seen)
      then clean_skills_loop rest ({[Py.lower skill_clean]} ∪ seen)
             (cleaned ++ [skill_clean])
      else clean_skills_loop rest seen cleaned
  end.

(** [ResumeParsedSchema.clean_skills] *)
Definition clean_skills (v : list string) : list string :=
  if Py.truthy_list v then clean_skills_loop v ∅ [] else [].

Definition validate (r : raw_t) : Py.result t :=
  n ← required "name" (raw_name r);
  e ← optional "email" (raw_email r);
  ph ← optional "phone" (raw_phone r);
  lo ← optional "location" (raw_location r);
  li ← optional "linkedin" (raw_linkedin r);
  gh ← optional "github" (raw_github r);
  po ← optional "portfolio" (raw_portfolio r);
  su ← optional "summary" (raw_summary r);
  sk ← list_field "skills" clean_skills (raw_skills r);
  ts ← list_field "technical_skills" clean_skills (raw_technical_skills r);
  ss ← list_field "soft_skills" clean_skills (raw_soft_skills r);
  ex ← model_list "experience" WorkExperience.validate (raw_experience r);
  ty ← optional "total_experience_years" (raw_total_experience_years r);
  ed ← model_list "education" Education.validate (raw_education r);
  he ← optional "highest_education" (raw_highest_education r);
  ce ← model_list "certifications" Certification.validate (raw_certifications r);
  pr ← model_list "projects" Project.validate (raw_projects r);
  la ← list_field "languages" id (raw_languages r);
  aw ← list_field "awards" id (raw_awards r);
  pu ← list_field "publications" id (raw_publications r);
  vw ← list_field "volunteer_work" id (raw_volunteer_work r);
  mret {| name := n; email := e; phone := clean_phone ph; location := lo;
          linkedin := li; github := gh; portfolio := po; summary := su;
          skills := sk; technical_skills := ts; soft_skills := ss;
          experience := ex; total_experience_years := ty; education := ed;
          highest_education := he; certifications := ce; projects := pr;
          languages := la; awards := aw; publications := pu;
          volunteer_work := vw |}.

(** [parsed_data.dict()] *)
Definition to_dict (x : t) : Py.dict :=
  [("name", Py.PStr (name x)); ("email", Py.of_opt_str (email x));
   ("phone", Py.of_opt_str (phone x));
   ("location", Py.of_opt_str (location x));
   ("linkedin", Py.of_opt_str (linkedin x));
   ("github", Py.of_opt_str (github x));
   ("portfolio", Py.of_opt_str (portfolio x));
   ("summary", Py.of_opt_str (summary x));
   ("skills", Py.of_str_list (skills x));
   ("technical_skills", Py.of_str_list (technical_skills x));
   ("soft_skills", Py.of_str_list (soft_skills x));
   ("experience",
     Py.PList ((λ e, Py.PDict (WorkExperience.to_dict e)) <$> experience x));
   ("total_experience_years", Py.of_opt_int (total_experience_years x));
   ("education",
     Py.PList ((λ e, Py.PDict (Education.to_dict e)) <$> education x));
   ("highest_education", Py.of_opt_str (highest_education x));
   ("certifications",
     Py.PList ((λ c, Py.PDict (Certification.to_dict c)) <$> certifications x));
   ("projects", Py.PList ((λ q, Py.PDict (Project.to_dict q)) <$> projects x));
   ("languages", Py.of_str_list (languages x));
   ("awards", Py.of_str_list (awards x));
   ("publications", Py.of_str_list (publications x));
   ("volunteer_work", Py.of_str_list (volunteer_work x))].

End ResumeParsedSchema.

(** *** [class SimpleResumeParsedSchema]: no field validators. *)
Module SimpleResumeParsedSchema.

Record raw_t := {
  raw_name : raw string;
  raw_email : raw string;
  raw_phone : raw string;
  raw_location : raw string;
  raw_summary : raw string;
  raw_skills : raw (list string);
  raw_experience : raw (list string);
  raw_education : raw (list string);
  raw_total_experience_years : raw Z }.

Record t := {
  name : string;
  email : option string;
  phone : option string;
  location : option string;
  summary : option string;
  skills : list string;
  experience : list string;
  education : list string;
  total_experience_years : option Z }.

Definition validate (r : raw_t) : Py.result t :=
  n ← required "name" (raw_name r);
  e ← optional "email" (raw_email r);
  ph ← optional "phone" (raw_phone r);
  lo ← optional "location" (raw_location r);
  su ← optional "summary" (raw_summary r);
  sk ← list_field "skills" id (raw_skills r);
  ex ← list_field "experience" id (raw_experience r);
  ed ← list_field "education" id (raw_education r);
  ty ← optional "total_experience_years" (raw_total_experience_years r);
  mret {| name := n; email := e; phone := ph; location := lo; summary := su;
          skills := sk; experience := ex; education := ed;
          total_experience_years := ty |}.

(** [parsed_data.dict()] *)
Definition to_dict (x : t) : Py.dict :=
  [("name", Py.PStr (name x)); ("email", Py.of_opt_str (email x));
   ("phone", Py.of_opt_str (phone x));
   ("location", Py.of_opt_str (location x));
   ("summary", Py.of_opt_str (summary x));
   ("skills", Py.of_str_list (skills x));
   ("experience", Py.of_str_list (experience x));
   ("education", Py.of_str_list (education x));
   ("total_experience_years", Py.of_opt_int (total_experience_years x))].

End SimpleResumeParsedSchema.

End Schemas.

(** ** [resumes/models.py] and [accounts/models.py]

    Only the columns the embedded functions read or write are kept.
    Timestamps are left out: [created_at] is represented by the position
    of a row in its table (rows are kept oldest first), [updated_at] and
    [last_calculated] are not read by any function below. *)

Module Models.

(** [accounts.User] *)
Record User := {
  user_id : nat;
  first_name : string;
  last_name : string;
  email : string;
  role : string }.

(** [ParsedResume.STATUS_CHOICES] *)
Inductive Status := pending | processing | completed | failed.

Global Instance Status_eq_dec : EqDecision Status.
Proof. solve_decision. Defined.

(** [ParsedResume]; [user] is the foreign key. *)
Record ParsedResume := {
  pk : nat;
  user : nat;
  file_path : string;
  original_filename : string;
  parsed_data : Py.dict;
  skills : list string;
  experience_years : option Z;
  education_level : option string;
  status : Status;
  error_message : option string }.

(** [ParsedResume.file_extension] *)
Definition file_extension (r : ParsedResume) : string :=
  if Py.truthy_str (original_filename r)
  then Py.lower (Py.last_component "" (original_filename r))
  else "".

(** [ParsedResume.is_completed] *)
Definition is_completed (r : ParsedResume) : bool :=
  bool_decide (status r = completed).

(** [ParsedResume.skill_count] *)
Definition skill_count (r : ParsedResume) : nat :=
  if Py.truthy_list (skills r) then length (skills r) else 0.

(** Attribute assignments on a [ParsedResume]. *)
Definition set_status (s : Status) (r : ParsedResume) : ParsedResume :=
  {| pk := pk r; user := user r; file_path := file_path r;
     original_filename := original_filename r; parsed_data := parsed_data r;
     skills := skills r; experience_years := experience_years r;
     education_level := education_level r; status := s;
     error_message := error_message r |}.

Definition set_error_message (m : option string) (r : ParsedResume) : ParsedResume :=
  {| pk := pk r; user := user r; file_path := file_path r;
     original_filename := original_filename r; parsed_data := parsed_data r;
     skills := skills r; experience_years := experience_years r;
     education_level := education_level r; status := status r;
     error_message := m |}.

Definition set_parsed_data (d : Py.dict) (r : ParsedResume) : ParsedResume :=
  {| pk := pk r; user := user r; file_path := file_path r;
     original_filename := original_filename r; parsed_data := d;
     skills := skills r; experience_years := experience_years r;
     education_level := education_level r; status := status r;
     error_message := error_message r |}.

Definition set_skills (l : list string) (r : ParsedResume) : ParsedResume :=
  {| pk := pk r; user := user r; file_path := file_path r;
     original_filename := original_filename r; parsed_data := parsed_data r;
     skills := l; experience_years := experience_years r;
     education_level := education_level r; status := status r;
     error_message := error_message r |}.

Definition set_experience_years (y : option Z) (r : ParsedResume) : ParsedResume :=
  {| pk := pk r; user := user r; file_path := file_path r;
     original_filename := original_filename r; parsed_data := parsed_data r;
     skills := skills r; experience_years := y;
     education_level := education_level r; status := status r;
     error_message := error_message r |}.

Definition set_education_level (l : option string) (r : ParsedResume) : ParsedResume :=
  {| pk := pk r; user := user r; file_path := file_path r;
     original_filename := original_filename r; parsed_data := parsed_data r;
     skills := skills r; experience_years := experience_years r;
     education_level := l; status := status r;
     error_message := error_message r |}.

(** [ProfileCompletion], one row per user. *)
Record ProfileCompletion := {
  completion_score : Z;
  missing_fields : list string;
  suggestions : list string }.

(** [Job] *)
Record Job := {
  job_id : nat;
  slug : string;
  required_skills : list string;
  applications_count : Z }.

(** [JobApplication] *)
Record JobApplication := {
  application_id : nat;
  job : nat;
  applicant : nat;
  resume : option nat;
  cover_letter : string;
  application_status : string;
  match_score : option float;
  matching_skills : list string;
  missing_skills : list string }.

End Models.

(** ** The environment and the program state

    The collaborators of the code are the settings, the file readers, the
    language-model client, the JSON reader of the output parser and the
    database.  Their answers are given by an environment [env]; what the
    program does to them is recorded in the state [world]. *)

Module Sys.
Import Models.

(** A write sent to the database. *)
Inductive db_action :=
  | SaveResume (r : ParsedResume)
  | SaveUser (u : User)
  | UpsertCompletion (uid : nat) (c : ProfileCompletion)
  | CreateApplication (a : JobApplication)
  | SaveApplication (a : JobApplication)
  | SaveJob (j : Job).

Inductive event :=
  | FileRead (path : string)
  | LlmInvoke (use_simple : bool) (resume_text : string)
  | DbWrite (a : db_action).

Record env := {
  (** [settings.GROQ_API_KEY], [None] when the setting is missing *)
  GROQ_API_KEY : option string;
  (** PyPDF2: the text of every page, or the error of the reader *)
  read_pdf : string → Py.result (list string);
  (** python-docx: the text of every paragraph, or the error *)
  read_docx : string → Py.result (list string);
  (** the model's answer to the prompt built for a schema and a text *)
  llm_answer : bool → string → Py.result string;
  (** the answer read as JSON against either schema, [None] when it is
      not a JSON object *)
  json_simple : string → option Schemas.SimpleResumeParsedSchema.raw_t;
  json_rich : string → option Schemas.ResumeParsedSchema.raw_t;
  (** the error with which the database rejects a write, if it does *)
  db_reject : db_action → option Py.exn }.

(** Tables keep their rows oldest first. *)
Record world := {
  resumes : list ParsedResume;
  users : list User;
  completions : gmap nat ProfileCompletion;
  jobs : list Job;
  applications : list JobApplication;
  log : list event }.

Definition add_log (e : event) (w : world) : world :=
  {| resumes := resumes w; users := users w; completions := completions w;
     jobs := jobs w; applications := applications w; log := log w ++ [e] |}.

(** Insert-or-update of a row, by primary key. *)
Definition upsert_row {A} (key : A → nat) (x : A) (rows : list A) : list A :=
  if bool_decide (key x ∈ key <$> rows)
  then (λ y, if bool_decide (key y = key x) then x else y) <$> rows
  else rows ++ [x].

Definition apply_write (a : db_action) (w : world) : world :=
  match a with
  | SaveResume r =>
      {| resumes := upsert_row pk r (resumes w); users := users w;
         completions := completions w; jobs := jobs w;
         applications := applications w; log := log w |}
  | SaveUser u =>
      {| resumes := resumes w; users := upsert_row user_id u (users w);
         completions := completions w; jobs := jobs w;
         applications := applications w; log := log w |}
  | UpsertCompletion uid c =>
      {| resumes := resumes w; users := users w;
         completions := <[uid := c]> (completions w); jobs := jobs w;
         applications := applications w; log := log w |}
  | CreateApplication a | SaveApplication a =>
      {| resumes := resumes w; users := users w;
         completions := completions w; jobs := jobs w;
         applications := upsert_row application_id a (applications w);
         log := log w |}
  | SaveJob j =>
      {| resumes := resumes w; users := users w;
         completions := completions w;
         jobs := upsert_row job_id j (jobs w);
         applications := applications w; log := log w |}
  end.

(** *** Computations: state passing with exceptions.

    [St S A] runs on a state [S] and returns a value or raises; the state
    reached is kept in both cases, as Python keeps every effect made
    before an exception. *)
Definition St (S A : Type) : Type := S → Py.result A * S.

Definition ret {S A} (a : A) : St S A := λ s, (Py.Ok a, s).

Definition bind {S A B} (m : St S A) (k : A → St S B) : St S B :=
  λ s, match m s with
       | (Py.Ok a, s') => k a s'
       | (Py.Raise e, s') => (Py.Raise e, s')
       end.

Definition raise {S A} (e : Py.exn) : St S A := λ s, (Py.Raise e, s).

(** [try: body except Exception as e: handler(e)] *)
Definition try_except {S A} (body : St S A) (handler : Py.exn → St S A) : St S A :=
  λ s, match body s with
       | (Py.Ok a, s') => (Py.Ok a, s')
       | (Py.Raise e, s') => handler e s'
       end.

Definition modify {S} (f : S → S) : St S unit := λ s, (Py.Ok (), f s).

(** Outcome of a call that has no effect. *)
Definition of_result {S A} (r : Py.result A) : St S A := λ s, (r, s).

Abbreviation M := (St world).

End Sys.

Declare Scope st_scope.
Delimit Scope st_scope with st.
Notation "'let*' x := m 'in' k" := (Sys.bind m (λ x, k))
  (at level 10, x name, m at level 100, k at level 200) : st_scope.
Notation "m ;; k" := (Sys.bind m (λ _, k))
  (at level 100, k at level 200, right associativity) : st_scope.
Local Open Scope st_scope.

(** ** [resumes/services/resume_parser.py] *)

Module Parser.
Import Models Sys.

Section WithEnv.
Context (E : env).

(** The parser object; [self.llm] is fixed by the key (model
    [llama-3.1-8b-instant], temperature 0). *)
Record ResumeParser := { api_key : option string }.

(** [ResumeParser.__init__] *)
Definition init (key : option string) : M ResumeParser :=
  let self_api_key :=
    if Py.truthy_opt_str key then key else GROQ_API_KEY E in
  if negb (Py.truthy_opt_str self_api_key)
  then raise (Py.ValueError
         "OpenAI API key not found. Please set GROQ_API_KEY in settings or .env")
  else ret {| api_key := self_api_key |}.

(** [extract_text_from_pdf] *)
Definition extract_text_from_pdf (file_path : string) : M string :=
  modify (add_log (FileRead file_path));;
  match read_pdf E file_path with
  | Py.Ok pages =>
      ret (Py.strip (fold_left (λ text page, text +:+ page +:+ Py.nl) pages ""))
  | Py.Raise e => raise (Py.Exception ("Error reading PDF: " +:+ Py.str_exn e))
  end.

(** [extract_text_from_docx] *)
Definition extract_text_from_docx (file_path : string) : M string :=
  modify (add_log (FileRead file_path));;
  match read_docx E file_path with
  | Py.Ok paragraphs => ret (Py.strip (Py.join_nl paragraphs))
  | Py.Raise e => raise (Py.Exception ("Error reading DOCX: " +:+ Py.str_exn e))
  end.

(** [extract_text] *)
Definition extract_text (file_path file_type : string) : M string :=
  if bool_decide (Py.lower file_type = "pdf")
  then extract_text_from_pdf file_path
  else if bool_decide (Py.lower file_type ∈ ["docx"; "doc"])
  then extract_text_from_docx file_path
  else raise (Py.ValueError ("Unsupported file type: " +:+ file_type)).

(** [parser.parse(content)] followed by [.dict()], for the chosen schema. *)
Definition parse_output (use_simple : bool) (content : string) : Py.result Py.dict :=
  if use_simple then
    match json_simple E content with
    | Some r =>
        x ← Schemas.SimpleResumeParsedSchema.validate r;
        mret (Schemas.SimpleResumeParsedSchema.to_dict x)
    | None => Py.Raise (Py.ValidationError "Invalid json output")
    end
  else
    match json_rich E content with
    | Some r =>
        x ← Schemas.ResumeParsedSchema.validate r;
        mret (Schemas.ResumeParsedSchema.to_dict x)
    | None => Py.Raise (Py.ValidationError "Invalid json output")
    end.

(** [parse_resume].  The prompt is a fixed function of the schema and of
    the extracted text, which are what the model's answer depends on. *)
Definition parse_resume (self : ResumeParser) (file_path file_type : string)
    (use_simple : bool) : M Py.dict :=
  let* resume_text := extract_text file_path file_type in
  if negb (Py.truthy_str (Py.strip resume_text))
  then raise (Py.ValueError "No text could be extracted from the resume")
  else
    modify (add_log (LlmInvoke use_simple resume_text));;
    let* content := of_result (llm_answer E use_simple resume_text) in
    try_except (of_result (parse_output use_simple content))
      (λ e, raise (Py.Exception
         ("Error parsing LLM response: " +:+ Py.str_exn e +:+ Py.nl +:+ Py.nl
          +:+ "Response: " +:+ Py.prefix 500 content))).

End WithEnv.

End Parser.

(** ** [resumes/views.py] *)

Module Views.
Import Models Sys.

Section WithEnv.
Context (E : env).

(** A write to the database: rejected with the database's error, or
    applied and logged. *)
Definition db_write (a : db_action) : M unit :=
  λ w, match db_reject E a with
       | Some e => (Py.Raise e, w)
       | None => (Py.Ok (), add_log (DbWrite a) (apply_write a w))
       end.

(** A query: reads the tables. *)
Definition query {A} (f : world → A) : M A := λ w, (Py.Ok (f w), w).

(** *** [_update_user_profile]; the result is the [user] object after the
    call. *)
Definition _update_user_profile (user : User) (resume_data : Py.dict) : M User :=
  if Py.truthy (Py.dict_get resume_data "name" Py.PNone)
     && negb (Py.truthy_str (first_name user) || Py.truthy_str (last_name user))
  then
    let name_parts := Py.split (Py.as_str (Py.dict_get resume_data "name" Py.PNone)) in
    match name_parts with
    | first :: others =>
        let user' :=
          {| user_id := user_id user;
             first_name := first;
             last_name := if bool_decide (1 < length name_parts)
                          then Py.join_space others else "";
             email := email user; role := role user |} in
        db_write (SaveUser user');;
        ret user'
    | [] => ret user
    end
  else ret user.

(** [user.resumes.filter(status='completed')], in the order of
    [Meta.ordering = ['-created_at']]: newest first. *)
Definition completed_resumes (uid : nat) (w : world) : list ParsedResume :=
  filter (λ r, user r = uid ∧ status r = completed) (reverse (resumes w)).

(** The local variables [score], [missing] and [suggestions]. *)
Record acc := {
  score : Z;
  missing : list string;
  suggestions : list string }.

Definition add_score (n : Z) (a : acc) : acc :=
  {| score := score a + n; missing := missing a; suggestions := suggestions a |}.
Definition append_missing (label : string) (a : acc) : acc :=
  {| score := score a; missing := missing a ++ [label];
     suggestions := suggestions a |}.
Definition append_suggestion (text : string) (a : acc) : acc :=
  {| score := score a; missing := missing a;
     suggestions := suggestions a ++ [text] |}.

(** *** [_calculate_profile_completion] *)
Definition _calculate_profile_completion (user : User) : M unit :=
  let a := {| score := 0; missing := []; suggestions := [] |} in
  let a :=
    if Py.truthy_str (first_name user) && Py.truthy_str (last_name user)
    then add_score 20 a
    else append_suggestion "Complete your name" (append_missing "name" a) in
  let a :=
    if Py.truthy_str (email user)
    then add_score 20 a
    else append_suggestion "Add your email address" (append_missing "email" a) in
  let* has_resume :=
    query (λ w, Py.truthy_list (completed_resumes (user_id user) w)) in
  let* a :=
    if has_resume : bool then
      let a := add_score 30 a in
      let* latest_resume := query (λ w, head (completed_resumes (user_id user) w)) in
      match latest_resume with
      | Some r =>
          if bool_decide (0 < skill_count r)
          then ret (add_score 15 a)
          else ret (append_suggestion "Add more skills to your resume" a)
      | None => ret (append_suggestion "Add more skills to your resume" a)
      end
    else
      ret (append_suggestion "Upload your resume to boost your profile"
             (append_missing "resume" a)) in
  let a :=
    if Py.truthy_str (role user)
    then add_score 15 a
    else append_suggestion "Select your role (Candidate/Recruiter)"
           (append_missing "role" a) in
  db_write (UpsertCompletion (user_id user)
              {| completion_score := score a; missing_fields := missing a;
                 Models.suggestions := suggestions a |}).

(** *** [_process_resume]

    The function works on the object [parsed_resume] it is given: the
    state of the computation is that object together with the world, so
    that the handler of [except] sees the attributes the body has set. *)
Abbreviation P := (St (ParsedResume * world)).

Definition lift {A} (m : M A) : P A :=
  λ '(r, w), let '(x, w') := m w in (x, (r, w')).

(** [parsed_resume.attr = value] *)
Definition setattr (f : ParsedResume → ParsedResume) : P unit :=
  modify (λ '(r, w), (f r, w)).

Definition self : P ParsedResume := λ s, (Py.Ok (fst s), s).

(** [parsed_resume.save()] *)
Definition save_self : P unit :=
  let* r := self in lift (db_write (SaveResume r)).

(** [parsed_resume.user]: the row the foreign key points to. *)
Definition related_user (uid : nat) : M User :=
  λ w, match filter (λ u, user_id u = uid) (users w) with
       | u :: _ => (Py.Ok u, w)
       | [] => (Py.Raise (Py.LibraryError "User matching query does not exist."), w)
       end.

(** [education[0] if isinstance(education[0], str) else 'Not specified'] *)
Definition education_label (education : Py.pyval) : string :=
  match education with
  | Py.PList (Py.PStr s :: _) => s
  | _ => "Not specified"
  end.

Definition _process_resume : P unit :=
  try_except
    (setattr (set_status processing);;
     save_self;;
     let* parser := lift (Parser.init E None) in
     let* r := self in
     let* resume_data :=
       lift (Parser.parse_resume E parser (file_path r) (file_extension r) true) in
     setattr (set_parsed_data resume_data);;
     setattr (set_skills
                (Py.str_items (Py.dict_get resume_data "skills" (Py.PList []))));;
     setattr (set_experience_years
                (Py.int_or_null
                   (Py.dict_get resume_data "total_experience_years" (Py.PInt 0))));;
     let education := Py.dict_get resume_data "education" (Py.PList []) in
     (if Py.truthy education
      then setattr (set_education_level (Some (education_label education)))
      else ret ());;
     setattr (set_status completed);;
     save_self;;
     let* u := lift (related_user (user r)) in
     let* u := lift (_update_user_profile u resume_data) in
     lift (_calculate_profile_completion u))
    (λ e,
       setattr (set_status failed);;
       setattr (set_error_message (Some (Py.str_exn e)));;
       save_self;;
       raise e).

(** *** [apply_job] *)

Inductive method := GET | POST.

(** [request]: the logged-in user, the method and the two form fields
    the view reads ([None]: not sent or empty). *)
Record request := {
  req_user : User;
  req_method : method;
  post_cover_letter : option string;
  post_resume_id : option nat }.

Inductive response :=
  | Redirect (to : string)
  | Render (template : string).

(** [get_object_or_404(Job, slug=slug)] *)
Definition get_job_or_404 (s : string) : M Job :=
  λ w, match filter (λ j, slug j = s) (jobs w) with
       | j :: _ => (Py.Ok j, w)
       | [] => (Py.Raise Py.Http404, w)
       end.

(** [get_object_or_404(ParsedResume, id=..., user=..., status='completed')] *)
Definition get_resume_or_404 (id uid : nat) : M ParsedResume :=
  λ w, match filter (λ r, pk r = id ∧ user r = uid ∧ status r = completed)
               (resumes w) with
       | r :: _ => (Py.Ok r, w)
       | [] => (Py.Raise Py.Http404, w)
       end.

(** The primary key the database gives to a new application. *)
Definition fresh_application_id (w : world) : nat :=
  S (foldr Nat.max 0 (application_id <$> applications w)).

(** The branch [if resume and resume.skills:] of [apply_job]: the match
    data written on the application.  [list(set(...))] lists a set in an
    order Python does not fix; [elements] stands for it. *)
Definition with_match_data (resume_skills required : list string)
    (a : JobApplication) : JobApplication :=
  let matching : list string :=
    elements ((list_to_set resume_skills : gset string) ∩ list_to_set required) in
  let missing_ : list string :=
    elements ((list_to_set required : gset string) ∖ list_to_set resume_skills) in
  let match_score_ : float :=
    if Py.truthy_list required
    then (Py.float_of_nat (length matching) / Py.float_of_nat (length required)
          * 100)%float
    else 0%float in
  {| application_id := application_id a; job := job a;
     applicant := applicant a; resume := resume a;
     cover_letter := cover_letter a;
     application_status := application_status a;
     match_score := Some (Py.round2 match_score_);
     matching_skills := matching;
     missing_skills := missing_ |}.

Definition apply_job (request : request) (slug_ : string) : M response :=
  let* job_ := get_job_or_404 slug_ in
  if bool_decide (role (req_user request) ≠ "candidate")
  then ret (Redirect "resumes:job_detail")
  else
    let* applied :=
      query (λ w, Py.truthy_list
                    (filter (λ a, job a = job_id job_
                                  ∧ applicant a = user_id (req_user request))
                       (applications w))) in
    if applied : bool then ret (Redirect "resumes:job_detail")
    else
      match req_method request with
      | POST =>
          let cover := default "" (post_cover_letter request) in
          let* resume_ :=
            match post_resume_id request with
            | Some id =>
                let* r := get_resume_or_404 id (user_id (req_user request)) in
                ret (Some r)
            | None => ret None
            end in
          let* new_id := query fresh_application_id in
          let application :=
            {| application_id := new_id; job := job_id job_;
               applicant := user_id (req_user request);
               resume := pk <$> resume_;
               cover_letter := cover; application_status := "pending";
               match_score := None; matching_skills := [];
               missing_skills := [] |} in
          db_write (CreateApplication application);;
          match resume_ with
          | Some r =>
              if Py.truthy_list (skills r)
              then db_write (SaveApplication
                     (with_match_data (skills r) (required_skills job_) application))
              else ret ()
          | None => ret ()
          end;;
          db_write (SaveJob
            {| job_id := job_id job_; slug := slug job_;
               required_skills := required_skills job_;
               applications_count := applications_count job_ + 1 |});;
          ret (Redirect "resumes:my_applications")
      | GET => ret (Render "resumes/apply_job.html")
      end.

End WithEnv.

End Views.

(** ** Vocabulary of the specification *)

Module Spec.
Import Models Sys.

(** A string made of whitespace only. *)
Fixpoint all_space (s : string) : bool :=
  match s with
  | EmptyString => true
  | String c s' => Py.isspace c && all_space s'
  end.

Definition first_char (s : string) : option ascii :=
  match s with
  | EmptyString => None
  | String c _ => Some c
  end.

Fixpoint last_char (s : string) : option ascii :=
  match s with
  | EmptyString => None
  | String c EmptyString => Some c
  | String _ s' => last_char s'
  end.

(** [t] is [s] without its surrounding whitespace. *)
Definition trimmed_of (s t : string) : Prop :=
  (∃ pre post, s = pre +:+ t +:+ post
               ∧ all_space pre = true ∧ all_space post = true)
  ∧ (∀ c, first_char t = Some c → Py.isspace c = false)
  ∧ (∀ c, last_char t = Some c → Py.isspace c = false).

(** Two skills are the same skill when they agree up to letter case. *)
Definition same_skill (x y : string) : Prop := Py.lower x = Py.lower y.

Global Instance same_skill_dec x y : Decision (same_skill x y).
Proof. unfold same_skill. apply _. Defined.

(** First-seen order: every entry of [l] is kept where its skill occurs
    first, in the casing it has there; a later entry of the same skill is
    dropped. *)
Fixpoint first_seen (l : list string) : list string :=
  match l with
  | [] => []
  | x :: rest => x :: filter (λ y, ¬ same_skill x y) (first_seen rest)
  end.

(** The three steps of the specification, one after the other: trim every
    entry, drop the empty ones, de-duplicate in first-seen order. *)
Definition trimmed_first_seen (v : list string) : list string :=
  first_seen (filter (λ s, s ≠ "") (Py.strip <$> v)).

(** [out] is the cleaned form of the skills list [v]: every entry is a
    trimmed, non-empty entry of [v]; no two entries are the same skill;
    the entries come in the order of [v]; an entry is kept exactly
    when it is the first of its skill among the trimmed entries, in the
    casing it has there; and the entries stand in first-seen order, which
    makes [out] the one list [trimmed_first_seen v]. *)
Definition cleaned_from (v out : list string) : Prop :=
  (∀ e, e ∈ out → e ≠ "" ∧ ∃ x, x ∈ v ∧ trimmed_of x e)
  ∧ NoDup (Py.lower <$> out)
  ∧ (out `sublist_of` (Py.strip <$> v))
  ∧ (∀ e, e ∈ out ↔
       e ≠ "" ∧ ∃ l1 l2, Py.strip <$> v = l1 ++ e :: l2
                         ∧ ∀ y, y ∈ l1 → ¬ same_skill y e)
  ∧ out = trimmed_first_seen v.

(** What the loop appends to [cleaned], given the skills [seen] so far. *)
Definition appended (v : list string) (seen : gset string) (out : list string) : Prop :=
  NoDup (Py.lower <$> out)
  ∧ (out `sublist_of` (Py.strip <$> v))
  ∧ (∀ e, e ∈ out ↔
       e ≠ "" ∧ (Py.lower e ∉ seen)
       ∧ ∃ l1 l2, Py.strip <$> v = l1 ++ e :: l2
                  ∧ ∀ y, y ∈ l1 → ¬ same_skill y e).

(** *** What the log of a run shows *)

Definition is_llm_call (e : event) : bool :=
  match e with LlmInvoke _ _ => true | _ => false end.

(** Number of calls made to the language-model service. *)
Definition llm_calls (l : list event) : nat := length (filter is_llm_call l).

(** The statuses persisted for the record [id], in order. *)
Definition status_history (id : nat) (l : list event) : list Status :=
  omap (λ e, match e with
             | DbWrite (SaveResume r) =>
                 if bool_decide (pk r = id) then Some (status r) else None
             | _ => None
             end) l.

(** The state machine of the record lifecycle. *)
Inductive transition : Status → Status → Prop :=
  | t_begin : transition pending processing
  | t_success : transition processing completed
  | t_failure : transition processing failed.

(** Every step of a sequence of statuses, started at [s], is permitted. *)
Fixpoint follows (s : Status) (l : list Status) : Prop :=
  match l with
  | [] => True
  | s' :: rest => transition s s' ∧ follows s' rest
  end.

(** The stored row of a record. *)
Definition stored_resume (id : nat) (w : world) : option ParsedResume :=
  head (filter (λ r, pk r = id) (resumes w)).

(** A computation that stores no status of the record [id]. *)
Definition quiet {A} (id : nat) (m : St world A) : Prop :=
  ∀ w res w', m w = (res, w') →
    status_history id (log w') = status_history id (log w).

(** The sequences of statuses a run of [_process_resume] can store. *)
Definition process_histories : list (list Status) :=
  [ []; [failed]; [processing]; [processing; failed];
    [processing; completed]; [processing; completed; failed] ].

(** No credential: the value is missing or empty. *)
Definition no_credential (o : option string) : Prop := o = None ∨ o = Some "".

(** *** Profile completion, in the words of the specification *)

(** The five signals of the scoring table. *)
Record signals := {
  name_complete : bool;
  email_present : bool;
  has_completed_resume : bool;
  resume_has_skills : bool;
  role_selected : bool }.

(** The most recent completed resume of a user (rows are oldest first). *)
Definition most_recent_completed (uid : nat) (w : world) : option ParsedResume :=
  last (filter (λ r, user r = uid ∧ status r = completed) (resumes w)).

Definition signals_of (u : User) (w : world) : signals :=
  {| name_complete := bool_decide (first_name u ≠ "" ∧ last_name u ≠ "");
     email_present := bool_decide (email u ≠ "");
     has_completed_resume :=
       bool_decide (Exists (λ r, user r = user_id u ∧ status r = completed)
                      (resumes w));
     resume_has_skills :=
       match most_recent_completed (user_id u) w with
       | Some r => bool_decide (skills r ≠ [])
       | None => false
       end;
     role_selected := bool_decide (role u ≠ "") |}.

Definition weight (n : Z) (b : bool) : Z := if b then n else 0%Z.

(** The sum of the weights of the table. *)
Definition expected_score (s : signals) : Z :=
  (weight 20 (name_complete s) + weight 20 (email_present s)
   + weight 30 (has_completed_resume s)
   + weight 15 (has_completed_resume s && resume_has_skills s)
   + weight 15 (role_selected s))%Z.

Definition unless (b : bool) (text : string) : list string :=
  if b then [] else [text].

(** The number of conditions of the table that are false. *)
Definition false_conditions (s : signals) : nat :=
  length (filter (λ b : bool, b = false)
            [name_complete s; email_present s; has_completed_resume s;
             has_completed_resume s && resume_has_skills s; role_selected s]).

(** The labels the code gives: one for each of name, email, resume and
    role that is missing; none for the skills signal. *)
Definition expected_missing (s : signals) : list string :=
  unless (name_complete s) "name" ++ unless (email_present s) "email"
  ++ unless (has_completed_resume s) "resume"
  ++ unless (role_selected s) "role".

(** The suggestions the code gives: one for each of name, email, resume
    and role that is missing, and the skills suggestion when a completed
    resume exists whose latest instance lists no skill. *)
Definition expected_suggestions (s : signals) : list string :=
  unless (name_complete s) "Complete your name"
  ++ unless (email_present s) "Add your email address"
  ++ (if has_completed_resume s
      then unless (resume_has_skills s) "Add more skills to your resume"
      else ["Upload your resume to boost your profile"])
  ++ unless (role_selected s) "Select your role (Candidate/Recruiter)".

Definition expected_completion (u : User) (w : world) : ProfileCompletion :=
  let s := signals_of u w in
  {| completion_score := expected_score s;
     missing_fields := expected_missing s;
     Models.suggestions := expected_suggestions s |}.

(** *** Rounding to two decimals *)

(** [n / 100] is [100 * m / r] rounded to two decimals: no other number
    of hundredths is closer (on a tie both neighbours qualify). *)
Definition hundredths_of_ratio (m r : nat) (n : Z) : Prop :=
  (2 * Z.abs (n * Z.of_nat r - 10000 * Z.of_nat m) ≤ Z.of_nat r)%Z.

Global Instance hundredths_of_ratio_dec m r n :
  Decision (hundredths_of_ratio m r n).
Proof. unfold hundredths_of_ratio. apply _. Defined.

(** The float score of [m] matching among [r] required skills is the
    float nearest to such a number of hundredths. *)
Definition score_is_rounded (m r : nat) : bool :=
  let x := (Py.float_of_nat m / Py.float_of_nat r * 100)%float in
  match Prim2SF x with
  | S754_finite false mant e =>
      let n := Py.div_half_even (Z.pos mant * 100) (2 ^ (- e)) in
      bool_decide (hundredths_of_ratio m r n)
      && PrimFloat.eqb (Py.round2 x)
           (PrimFloat.of_uint63 (Uint63.of_Z n) / 100)%float
  | S754_zero _ => bool_decide (m = 0%nat)
  | _ => false
  end.

(** The float [n / 100] of a whole number [n] of hundredths. *)
Definition of_hundredths (n : Z) : float :=
  (PrimFloat.of_uint63 (Uint63.of_Z n) / 100)%float.

(** [s] is a score for [m] matching among [r] required skills: the float
    of a whole number of hundredths nearest to [100 * m / r]. *)
Definition nearest_score (m r : nat) (s : float) : Prop :=
  ∃ n : Z, hundredths_of_ratio m r n ∧ s = of_hundredths n.

(** [100 * m / r], as an exact ratio, rounded to a whole number of
    hundredths: with ties to the even hundredth, and with ties upwards. *)
Definition exact_half_even (m r : nat) : Z :=
  Py.div_half_even (10000 * Z.of_nat m) (Z.of_nat r).

Definition exact_half_up (m r : nat) : Z :=
  ((2 * 10000 * Z.of_nat m + Z.of_nat r) `div` (2 * Z.of_nat r))%Z.

(** The score the code computes for [m] among [r] is a [nearest_score]:
    checked against the two hundredths around the exact ratio. *)
Definition score_is_nearest (m r : nat) : bool :=
  let s := Py.round2 (Py.float_of_nat m / Py.float_of_nat r * 100)%float in
  let q := ((10000 * Z.of_nat m) `div` Z.of_nat r)%Z in
  existsb (λ n, bool_decide (hundredths_of_ratio m r n)
                && PrimFloat.Leibniz.eqb s (of_hundredths n))
    [q; (q + 1)%Z].

(** *** Applications *)

(** The row [apply_job] creates, before any match data is written. *)
Definition new_application (w : world) (j : Job) (req : Views.request)
    (resume_ : option ParsedResume) : JobApplication :=
  {| application_id := Views.fresh_application_id w;
     job := job_id j;
     applicant := user_id (Views.req_user req);
     resume := pk <$> resume_;
     cover_letter := default "" (Views.post_cover_letter req);
     application_status := "pending";
     match_score := None;
     matching_skills := [];
     missing_skills := [] |}.

(** The application stored by a filed form. *)
Definition filed (w : world) (j : Job) (req : Views.request) (r : ParsedResume)
    : JobApplication :=
  if Py.truthy_list (skills r)
  then Views.with_match_data (skills r) (required_skills j)
         (new_application w j req (Some r))
  else new_application w j req (Some r).

(** The conditions under which [apply_job] files the form [req] for the
    job [j] with the completed resume [r]: the job is found under the
    slug, the user is a candidate who has not applied yet, the form is
    posted with the id of [r], and the database accepts the writes. *)
Record files_application (E : env) (req : Views.request) (slug_ : string)
    (w : world) (j : Job) (r : ParsedResume) : Prop := {
  fa_job : Views.get_job_or_404 slug_ w = (Py.Ok j, w);
  fa_candidate : role (Views.req_user req) = "candidate";
  fa_first : filter (λ a, job a = job_id j
                          ∧ applicant a = user_id (Views.req_user req))
               (applications w) = [];
  fa_post : Views.req_method req = Views.POST;
  fa_resume : ∃ id, Views.post_resume_id req = Some id
                    ∧ Views.get_resume_or_404 id (user_id (Views.req_user req)) w
                      = (Py.Ok r, w);
  fa_db : ∀ a, db_reject E a = None }.

(** What a list field holds before its validator runs. *)
Definition supplied {A} (r : Schemas.raw (list A)) : list A :=
  match r with Schemas.Value l => l | _ => [] end.

End Spec.

(** ** Scenarios: concrete environments and states *)

Module Scenario.
Import Models Sys Schemas.

(** A model answer for the simple schema with a name, a skills list and
    an experience figure; nothing else was extracted. *)
Definition simple_answer (name : string) (skills_ : raw (list string))
    (years : raw Z) : SimpleResumeParsedSchema.raw_t :=
  {| SimpleResumeParsedSchema.raw_name := Value name;
     SimpleResumeParsedSchema.raw_email := Absent;
     SimpleResumeParsedSchema.raw_phone := Absent;
     SimpleResumeParsedSchema.raw_location := Absent;
     SimpleResumeParsedSchema.raw_summary := Null;
     SimpleResumeParsedSchema.raw_skills := skills_;
     SimpleResumeParsedSchema.raw_experience := Absent;
     SimpleResumeParsedSchema.raw_education := Absent;
     SimpleResumeParsedSchema.raw_total_experience_years := years |}.

(** One work-experience entry with the given end date. *)
Definition job_entry (end_date_ : raw string) : WorkExperience.raw_t :=
  {| WorkExperience.raw_company := Value "Analytical Engines Ltd";
     WorkExperience.raw_position := Value "Programmer";
     WorkExperience.raw_location := Absent;
     WorkExperience.raw_start_date := Value "Jan 2020";
     WorkExperience.raw_end_date := end_date_;
     WorkExperience.raw_description := Absent;
     WorkExperience.raw_achievements := Absent |}.

(** A model answer for the rich schema. *)
Definition rich_answer (skills_ : raw (list string))
    (experience_ : raw (list WorkExperience.raw_t)) : ResumeParsedSchema.raw_t :=
  {| ResumeParsedSchema.raw_name := Value "Ada Lovelace";
     ResumeParsedSchema.raw_email := Absent;
     ResumeParsedSchema.raw_phone := Value "+44 (0)20 7946-0000";
     ResumeParsedSchema.raw_location := Absent;
     ResumeParsedSchema.raw_linkedin := Absent;
     ResumeParsedSchema.raw_github := Absent;
     ResumeParsedSchema.raw_portfolio := Absent;
     ResumeParsedSchema.raw_summary := Null;
     ResumeParsedSchema.raw_skills := skills_;
     ResumeParsedSchema.raw_technical_skills := Value ["SQL"; " sql"];
     ResumeParsedSchema.raw_soft_skills := Absent;
     ResumeParsedSchema.raw_experience := experience_;
     ResumeParsedSchema.raw_total_experience_years := Absent;
     ResumeParsedSchema.raw_education := Absent;
     ResumeParsedSchema.raw_highest_education := Absent;
     ResumeParsedSchema.raw_certifications := Absent;
     ResumeParsedSchema.raw_projects := Absent;
     ResumeParsedSchema.raw_languages := Absent;
     ResumeParsedSchema.raw_awards := Absent;
     ResumeParsedSchema.raw_publications := Absent;
     ResumeParsedSchema.raw_volunteer_work := Absent |}.

(** An environment with a configured key, a two-page PDF behind every
    path, a model that answers, and a database given by [reject]. *)
Definition env_of (simple_ : SimpleResumeParsedSchema.raw_t)
    (rich_ : ResumeParsedSchema.raw_t)
    (reject : db_action → option Py.exn) : env :=
  {| GROQ_API_KEY := Some "gsk_configured";
     read_pdf := λ _, Py.Ok ["Ada Lovelace"; "Python, python, SQL"];
     read_docx := λ _, Py.Raise (Py.LibraryError "Package not found");
     llm_answer := λ _ _, Py.Ok "{...}";
     json_simple := λ _, Some simple_;
     json_rich := λ _, Some rich_;
     db_reject := reject |}.

Definition accept_all : db_action → option Py.exn := λ _, None.

(** A database that enforces [max_length=255] of [User.first_name]. *)
Definition enforce_name_length : db_action → option Py.exn :=
  λ a, match a with
       | SaveUser u =>
           if bool_decide (255 < String.length (first_name u))
           then Some (Py.LibraryError
                        "value too long for type character varying(255)")
           else None
       | _ => None
       end.

(** An environment whose PDF reader finds blank pages only. *)
Definition blank_pdf_env : env :=
  {| GROQ_API_KEY := Some "gsk_configured";
     read_pdf := λ _, Py.Ok ["   "; ""];
     read_docx := λ _, Py.Raise (Py.LibraryError "Package not found");
     llm_answer := λ _ _, Py.Ok "{...}";
     json_simple := λ _, None;
     json_rich := λ _, None;
     db_reject := accept_all |}.

(** An environment without a configured key. *)
Definition no_key_env : env :=
  {| GROQ_API_KEY := None;
     read_pdf := λ _, Py.Ok ["Ada Lovelace"];
     read_docx := λ _, Py.Raise (Py.LibraryError "Package not found");
     llm_answer := λ _ _, Py.Ok "{...}";
     json_simple := λ _, None;
     json_rich := λ _, None;
     db_reject := accept_all |}.

Definition ada : User :=
  {| user_id := 7; first_name := "Ada"; last_name := "Lovelace";
     email := "ada@example.org"; role := "candidate" |}.

(** A user who registered without a name. *)
Definition anonymous : User :=
  {| user_id := 7; first_name := ""; last_name := "";
     email := "ada@example.org"; role := "candidate" |}.

(** The record [upload_resume] creates. *)
Definition uploaded : ParsedResume :=
  {| pk := 1; user := 7; file_path := "/media/resumes/2026/11/cv.pdf";
     original_filename := "cv.pdf"; parsed_data := []; skills := [];
     experience_years := None; education_level := None;
     status := pending; error_message := None |}.

(** A completed resume of user 7 with the given skills. *)
Definition completed_resume (id : nat) (skills_ : list string) : ParsedResume :=
  {| pk := id; user := 7; file_path := "/media/resumes/2026/11/cv.pdf";
     original_filename := "cv.pdf"; parsed_data := []; skills := skills_;
     experience_years := None; education_level := None;
     status := completed; error_message := None |}.

Definition world_with (rs : list ParsedResume) : world :=
  {| resumes := rs; users := [ada]; completions := ∅; jobs := [];
     applications := []; log := [] |}.

(** A job posting and an application form sent for it. *)
Definition posting (required : list string) : Job :=
  {| job_id := 3; slug := "programmer-analytical-engines";
     required_skills := required; applications_count := 0 |}.

Definition world_applying (rs : list ParsedResume) (j : Job) : world :=
  {| resumes := rs; users := [ada]; completions := ∅; jobs := [j];
     applications := []; log := [] |}.

Definition form (resume_id : option nat) : Views.request :=
  {| Views.req_user := ada; Views.req_method := Views.POST;
     Views.post_cover_letter := Some "Dear Sir or Madam";
     Views.post_resume_id := resume_id |}.

(** Ada without a role. *)
Definition ada_no_role : User :=
  {| user_id := 7; first_name := "Ada"; last_name := "Lovelace";
     email := "ada@example.org"; role := "" |}.

Definition world_of (u : User) : world :=
  {| resumes := [uploaded]; users := [u]; completions := ∅; jobs := [];
     applications := []; log := [] |}.

(** A string of [n] letters. *)
Fixpoint letters (n : nat) : string :=
  match n with O => "" | S n' => String "A" (letters n') end.

End Scenario.

(** ** The other views of [resumes/views.py], and [Job.save] *)

Module Pages.
Import Models Sys.

(** What a view answers: a redirect, a page, a page showing a
    profile-completion row or a resume, or a JSON document. *)
Inductive page :=
  | Redirect (to : string)
  | Render (template : string)
  | RenderCompletion (completion : ProfileCompletion)
  | RenderResume (template : string) (resume_ : ParsedResume)
  | JsonStatus (status_ : Status) (error_message_ : option string)
      (is_completed_ : bool)
  | JsonScore (completion_score_ : Z) (missing_fields_ suggestions_ : list string)
  | JsonSaved (saved_ : bool) (message : string).

(** [request.FILES.get('resume')]: the name and the size, in bytes, of
    the uploaded file. *)
Record uploaded_file := {
  upload_name : string;
  upload_size : N }.

Record upload_request := {
  up_user : User;
  up_method : Views.method;
  up_file : option uploaded_file }.

(** The request of the profile-completion page, with its [refresh]
    parameter. *)
Record completion_request := {
  pc_user : User;
  pc_refresh : option string }.

(** The primary key the database gives to a new resume. *)
Definition fresh_resume_pk (w : world) : nat :=
  S (foldr Nat.max 0 (pk <$> resumes w)).

(** [get_object_or_404(ParsedResume, pk=pk, user=request.user)] *)
Definition get_own_resume_or_404 (id uid : nat) : M ParsedResume :=
  λ w, match filter (λ r, pk r = id ∧ user r = uid) (resumes w) with
       | r :: _ => (Py.Ok r, w)
       | [] => (Py.Raise Py.Http404, w)
       end.

(** [get_object_or_404(JobApplication, id=..., applicant=request.user)] *)
Definition get_own_application_or_404 (id uid : nat) : M JobApplication :=
  λ w, match filter (λ a, application_id a = id ∧ applicant a = uid)
               (applications w) with
       | a :: _ => (Py.Ok a, w)
       | [] => (Py.Raise Py.Http404, w)
       end.

(** [application.job]: the row the foreign key points to. *)
Definition related_job (id : nat) : M Job :=
  λ w, match filter (λ j, job_id j = id) (jobs w) with
       | j :: _ => (Py.Ok j, w)
       | [] => (Py.Raise (Py.LibraryError "Job matching query does not exist."), w)
       end.

(** *** [Job.save]: the search for a free slug.

    [slug_loop] is the [while] loop, [counter] and [slug] its variables;
    [fuel] bounds the number of iterations ([None]: still searching). *)
Fixpoint slug_loop (fuel : nat) (taken : list string) (base_slug slug_ : string)
    (counter : nat) : option string :=
  if bool_decide (slug_ ∈ taken)
  then match fuel with
       | O => None
       | S fuel' =>
           slug_loop fuel' taken base_slug
             (base_slug +:+ "-" +:+ pretty counter) (S counter)
       end
  else Some slug_.

(** The [n]-th slug the loop tries. *)
Definition candidate (base_slug : string) (n : nat) : string :=
  match n with
  | O => base_slug
  | S _ => base_slug +:+ "-" +:+ pretty n
  end.

Section WithEnv.
Context (E : env).

(** [Job.save], for a job whose title and company slugify to
    [base_slug].  One iteration more than there are jobs always ends the
    search (lemma [slug_loop_finds]). *)
Definition job_save (base_slug : string) (j : Job) : M Job :=
  let* j' :=
    if negb (Py.truthy_str (slug j))
    then
      let* taken := Views.query (λ w, slug <$> jobs w) in
      match slug_loop (length taken) taken base_slug base_slug 1 with
      | Some s =>
          ret {| job_id := job_id j; slug := s;
                 required_skills := required_skills j;
                 applications_count := applications_count j |}
      | None => ret j
      end
    else ret j in
  Views.db_write E (SaveJob j');;
  ret j'.

(** *** [upload_resume]; [storage] is the path under which the storage
    keeps an uploaded file of a given name. *)
Definition upload_resume (storage : string → string) (request : upload_request)
    : M page :=
  match up_method request with
  | Views.POST =>
      match up_file request with
      | None => ret (Redirect "resumes:upload_resume")
      | Some resume_file =>
          (* an uploaded file without a name is falsy *)
          if negb (Py.truthy_str (upload_name resume_file))
          then ret (Redirect "resumes:upload_resume")
          else
            let file_extension_ :=
              Py.lower (Py.last_component "" (upload_name resume_file)) in
            if negb (bool_decide (file_extension_ ∈ ["pdf"; "docx"; "doc"]))
            then ret (Redirect "resumes:upload_resume")
            else if bool_decide (5 * 1024 * 1024 < upload_size resume_file)%N
            then ret (Redirect "resumes:upload_resume")
            else
              let* new_pk := Views.query fresh_resume_pk in
              let parsed_resume :=
                {| pk := new_pk; user := user_id (up_user request);
                   file_path := storage (upload_name resume_file);
                   original_filename := upload_name resume_file;
                   parsed_data := []; skills := [];
                   experience_years := None; education_level := None;
                   status := pending; error_message := None |} in
              Views.db_write E (SaveResume parsed_resume);;
              (λ w, match Views._process_resume E (parsed_resume, w) with
                    | (Py.Ok _, (_, w')) =>
                        (Py.Ok (Redirect "resumes:resume_detail"), w')
                    | (Py.Raise _, (_, w')) =>
                        (Py.Ok (Redirect "resumes:upload_resume"), w')
                    end)
      end
  | Views.GET => ret (Render "upload_resume.html")
  end.

(** *** [resume_detail] *)
Definition resume_detail (request : Views.request) (id : nat) : M page :=
  let* resume_ :=
    get_own_resume_or_404 id (user_id (Views.req_user request)) in
  ret (RenderResume "resume_detail.html" resume_).

(** *** [api_resume_status] *)
Definition api_resume_status (request : Views.request) (id : nat) : M page :=
  let* resume_ :=
    get_own_resume_or_404 id (user_id (Views.req_user request)) in
  ret (JsonStatus (status resume_) (error_message resume_)
         (is_completed resume_)).

(** [ProfileCompletion.objects.get_or_create(user=...,
    defaults={'completion_score': 0})] *)
Definition get_or_create_completion (uid : nat) : M (ProfileCompletion * bool) :=
  let* found := Views.query (λ w, completions w !! uid) in
  match found with
  | Some c => ret (c, false)
  | None =>
      let c := {| completion_score := 0; missing_fields := [];
                  Models.suggestions := [] |} in
      Views.db_write E (UpsertCompletion uid c);;
      ret (c, true)
  end.

(** [completion.refresh_from_db()] *)
Definition refresh_completion (uid : nat) : M ProfileCompletion :=
  λ w, match completions w !! uid with
       | Some c => (Py.Ok c, w)
       | None =>
           (Py.Raise (Py.LibraryError
                        "ProfileCompletion matching query does not exist."), w)
       end.

(** *** [profile_completion] *)
Definition profile_completion (request : completion_request) : M page :=
  let* got := get_or_create_completion (user_id (pc_user request)) in
  let* completion :=
    if snd got || Py.truthy_opt_str (pc_refresh request)
    then
      Views._calculate_profile_completion E (pc_user request);;
      refresh_completion (user_id (pc_user request))
    else ret (fst got) in
  ret (RenderCompletion completion).

(** *** [api_profile_score] *)
Definition api_profile_score (request : Views.request) : M page :=
  let* got := get_or_create_completion (user_id (Views.req_user request)) in
  ret (JsonScore (completion_score (fst got)) (missing_fields (fst got))
         (Models.suggestions (fst got))).

(** *** [withdraw_application] *)
Definition withdraw_application (request : Views.request) (id : nat) : M page :=
  let* application :=
    get_own_application_or_404 id (user_id (Views.req_user request)) in
  match Views.req_method request with
  | Views.POST =>
      let application' :=
        {| application_id := application_id application;
           job := job application; applicant := applicant application;
           resume := resume application;
           cover_letter := cover_letter application;
           application_status := "withdrawn";
           match_score := match_score application;
           matching_skills := matching_skills application;
           missing_skills := missing_skills application |} in
      Views.db_write E (SaveApplication application');;
      let* job_ := related_job (job application') in
      Views.db_write E
        (SaveJob {| job_id := job_id job_; slug := slug job_;
                    required_skills := required_skills job_;
                    applications_count :=
                      Z.max 0 (applications_count job_ - 1) |});;
      ret (Redirect "resumes:my_applications")
  | Views.GET => ret (Render "resumes/withdraw_application.html")
  end.

End WithEnv.

(** *** [save_job]

    The rows of [SavedJob], oldest first, are kept beside the world, which
    is only read; the writes to this table are taken to succeed. *)
Record SavedJob := {
  saved_user : nat;
  saved_job : nat }.

Global Instance SavedJob_eq_dec : EqDecision SavedJob.
Proof. solve_decision. Defined.

Definition on_world {A} (m : M A) : St (world * list SavedJob) A :=
  λ '(w, b), let '(x, w') := m w in (x, (w', b)).

(** [SavedJob.objects.get_or_create(user=..., job=...)]: the row and
    whether it was created; [get] raises when several rows match. *)
Definition get_or_create_saved (key : SavedJob)
    : St (world * list SavedJob) (SavedJob * bool) :=
  λ '(w, b), match filter (λ s, s = key) b with
             | [] => (Py.Ok (key, true), (w, b ++ [key]))
             | [s] => (Py.Ok (s, false), (w, b))
             | _ => (Py.Raise (Py.LibraryError
                       "get() returned more than one SavedJob"), (w, b))
             end.

Definition save_job (request : Views.request) (slug_ : string)
    : St (world * list SavedJob) page :=
  let* job_ := on_world (Views.get_job_or_404 slug_) in
  let* got := get_or_create_saved
                {| saved_user := user_id (Views.req_user request);
                   saved_job := job_id job_ |} in
  if negb (snd got)
  then
    modify (λ '(w, b), (w, filter (λ s, s ≠ fst got) b));;
    ret (JsonSaved false "Job removed from saved")
  else ret (JsonSaved true "Job saved successfully").

(** *** [delete_resume]

    Beside the environment, the view depends on the file system
    ([os.path.exists], and the error of [os.remove] if it fails) and on
    whether the database refuses to delete the row. *)
Section Deleting.
Context (E : env).
Context (path_exists : string → bool).
Context (os_remove : string → option Py.exn).
Context (reject_delete : ParsedResume → option Py.exn).

(** [on_delete=models.SET_NULL] of [JobApplication.resume] *)
Definition set_resume_null (id : nat) (a : JobApplication) : JobApplication :=
  if bool_decide (resume a = Some id)
  then {| application_id := application_id a; job := job a;
          applicant := applicant a; resume := None;
          cover_letter := cover_letter a;
          application_status := application_status a;
          match_score := match_score a;
          matching_skills := matching_skills a;
          missing_skills := missing_skills a |}
  else a.

Definition delete_rows (id : nat) (w : world) : world :=
  {| resumes := filter (λ r, pk r ≠ id) (resumes w); users := users w;
     completions := completions w; jobs := jobs w;
     applications := set_resume_null id <$> applications w;
     log := log w |}.

(** [resume.delete()] *)
Definition resume_delete (r : ParsedResume) : M unit :=
  λ w, match reject_delete r with
       | Some e => (Py.Raise e, w)
       | None => (Py.Ok (), delete_rows (pk r) w)
       end.

Definition delete_resume (request : Views.request) (id : nat) : M page :=
  let* resume_ :=
    get_own_resume_or_404 id (user_id (Views.req_user request)) in
  match Views.req_method request with
  | Views.POST =>
      (if Py.truthy_str (file_path resume_) && path_exists (file_path resume_)
       then match os_remove (file_path resume_) with
            | Some e => raise e
            | None => ret ()
            end
       else ret ());;
      resume_delete resume_;;
      Views._calculate_profile_completion E (Views.req_user request);;
      ret (Redirect "resumes:resume_list")
  | Views.GET => ret (RenderResume "confirm_delete.html" resume_)
  end.

End Deleting.

End Pages.

(** ** Vocabulary of the further properties *)

Module Facts.
Import Models Sys.

(** The tables of the database, without the log. *)
Definition tables (w : world) :=
  (resumes w, users w, completions w, jobs w, applications w).

(** The world with further events in its log. *)
Definition logged (l : list event) (w : world) : world :=
  {| resumes := resumes w; users := users w; completions := completions w;
     jobs := jobs w; applications := applications w; log := log w ++ l |}.

(** A computation that leaves the observation [f] of the world as it was,
    however it ends. *)
Definition preserves {X A} (f : world → X) (m : M A) : Prop :=
  ∀ w res w', m w = (res, w') → f w' = f w.

(** The characters of a string. *)
Definition chars (s : string) : list ascii := list_ascii_of_string s.

(** The record a run of [_process_resume] builds from the dictionary [d]
    of the parser, before it sets the status. *)
Definition filled (d : Py.dict) (r : ParsedResume) : ParsedResume :=
  let r1 :=
    set_experience_years
      (Py.int_or_null (Py.dict_get d "total_experience_years" (Py.PInt 0)))
      (set_skills (Py.str_items (Py.dict_get d "skills" (Py.PList [])))
         (set_parsed_data d r)) in
  if Py.truthy (Py.dict_get d "education" (Py.PList []))
  then set_education_level
         (Some (Views.education_label (Py.dict_get d "education" (Py.PList []))))
         r1
  else r1.

(** The record as the handler of [_process_resume] leaves it. *)
Definition marked_failed (e : Py.exn) (r : ParsedResume) : ParsedResume :=
  set_error_message (Some (Py.str_exn e)) (set_status failed r).

(** The world after the record [r] was saved. *)
Definition saved (r : ParsedResume) (w : world) : world :=
  add_log (DbWrite (SaveResume r)) (apply_write (SaveResume r) w).

(** The steps of [_process_resume] that follow the completion of the
    record of the user [uid]. *)
Definition post_steps (E : env) (uid : nat) (d : Py.dict) : M unit :=
  let* u := Views.related_user uid in
  let* u := Views._update_user_profile E u d in
  Views._calculate_profile_completion E u.

(** How [_process_resume] ends when its [try] block raised [e] with the
    record [rb] in the world [wb]: the handler marks the record, saves it
    and raises [e] again, unless the save itself raises. *)
Definition handled (E : env) (e : Py.exn) (rb : ParsedResume) (wb : world)
    : Py.result unit * (ParsedResume * world) :=
  match db_reject E (SaveResume (marked_failed e rb)) with
  | Some e' => (Py.Raise e', (marked_failed e rb, wb))
  | None => (Py.Raise e, (marked_failed e rb, saved (marked_failed e rb) wb))
  end.

(** A word: a string that is not empty and holds no whitespace. *)
Definition word (s : string) : Prop :=
  s ≠ "" ∧ Forall (λ c, Py.isspace c = false) (chars s).

(** The world after the user [u] was saved. *)
Definition saved_user (u : User) (w : world) : world :=
  add_log (DbWrite (SaveUser u)) (apply_write (SaveUser u) w).

(** The uploads that pass the three checks of [upload_resume]: a named
    file, of a listed extension, of at most 5 MiB. *)
Definition accepted_upload (f : Pages.uploaded_file) : Prop :=
  Pages.upload_name f ≠ ""
  ∧ Py.lower (Py.last_component "" (Pages.upload_name f)) ∈ ["pdf"; "docx"; "doc"]
  ∧ (Pages.upload_size f ≤ 5 * 1024 * 1024)%N.

Global Instance accepted_upload_dec f : Decision (accepted_upload f).
Proof. unfold accepted_upload. apply _. Defined.

(** The record [upload_resume] creates for the file [f] of the user [u]. *)
Definition created_record (storage : string → string) (u : User)
    (f : Pages.uploaded_file) (w : world) : ParsedResume :=
  {| pk := Pages.fresh_resume_pk w; user := user_id u;
     file_path := storage (Pages.upload_name f);
     original_filename := Pages.upload_name f;
     parsed_data := []; skills := [];
     experience_years := None; education_level := None;
     status := pending; error_message := None |}.

(** The row [get_or_create] inserts for a user who has none. *)
Definition zero_completion : ProfileCompletion :=
  {| completion_score := 0; missing_fields := []; Models.suggestions := [] |}.

(** The world after the completion row [c] of the user [uid] was written. *)
Definition with_completion (uid : nat) (c : ProfileCompletion) (w : world)
    : world :=
  add_log (DbWrite (UpsertCompletion uid c))
    (apply_write (UpsertCompletion uid c) w).

(** An application with its status set to withdrawn, and a job with its
    count of applications set to [n]. *)
Definition withdrawn (a : JobApplication) : JobApplication :=
  {| application_id := application_id a; job := job a;
     applicant := applicant a; resume := resume a;
     cover_letter := cover_letter a; application_status := "withdrawn";
     match_score := match_score a; matching_skills := matching_skills a;
     missing_skills := missing_skills a |}.

Definition with_count (n : Z) (j : Job) : Job :=
  {| job_id := job_id j; slug := slug j;
     required_skills := required_skills j; applications_count := n |}.

(** A table of applications with at most one row per job and applicant
    ([unique_together]). *)
Definition one_application_each (l : list JobApplication) : Prop :=
  NoDup ((λ a, (job a, applicant a)) <$> l).

End Facts.

(** ** Further scenarios *)

Module Cases.
Import Models Sys Schemas.

(** An environment whose model service cannot be reached. *)
Definition llm_down_env : env :=
  {| GROQ_API_KEY := Some "gsk_configured";
     read_pdf := λ _, Py.Ok ["Ada Lovelace"];
     read_docx := λ _, Py.Raise (Py.LibraryError "Package not found");
     llm_answer := λ _ _, Py.Raise (Py.LibraryError "Connection error.");
     json_simple := λ _, None;
     json_rich := λ _, None;
     db_reject := Scenario.accept_all |}.

(** An environment whose model answers with prose instead of JSON. *)
Definition prose_env : env :=
  {| GROQ_API_KEY := Some "gsk_configured";
     read_pdf := λ _, Py.Ok ["Ada Lovelace"];
     read_docx := λ _, Py.Raise (Py.LibraryError "Package not found");
     llm_answer := λ _ _, Py.Ok "Here is the parsed resume you asked for.";
     json_simple := λ _, None;
     json_rich := λ _, None;
     db_reject := Scenario.accept_all |}.

(** The usual environment: key configured, PDF readable, model answering
    with a name and three skills, database accepting every write. *)
Definition usual_env : env :=
  Scenario.env_of
    (Scenario.simple_answer "Ada Lovelace" (Value ["Python"; "SQL"; "Go"])
       (Value 7%Z))
    (Scenario.rich_answer Absent Absent) Scenario.accept_all.

(** The skills skill-0, skill-1, ... *)
Definition numbered_skills (n : nat) : list string :=
  (λ i, "skill-" +:+ pretty i) <$> seq 0 n.

(** Where the storage keeps an uploaded file. *)
Definition media (name : string) : string := "/media/resumes/2026/11/" +:+ name.

(** Upload forms of Ada. *)
Definition upload_form (f : option Pages.uploaded_file) : Pages.upload_request :=
  {| Pages.up_user := Scenario.ada; Pages.up_method := Views.POST;
     Pages.up_file := f |}.

Definition cv_pdf : Pages.uploaded_file :=
  {| Pages.upload_name := "cv.final.PDF"; Pages.upload_size := 204800 |}.

Definition cv_txt : Pages.uploaded_file :=
  {| Pages.upload_name := "cv.txt"; Pages.upload_size := 2048 |}.

(** Ada looking at the application form, and Ada posting it without a
    resume. *)
Definition form_get : Views.request :=
  {| Views.req_user := Scenario.ada; Views.req_method := Views.GET;
     Views.post_cover_letter := None; Views.post_resume_id := None |}.

(** A database in which Ada has applied for the posting. *)
Definition ada_application : JobApplication :=
  {| application_id := 5; job := 3; applicant := 7; resume := None;
     cover_letter := "Dear Sir or Madam"; application_status := "pending";
     match_score := None; matching_skills := []; missing_skills := [] |}.

Definition applied_world : world :=
  {| resumes := []; users := [Scenario.ada]; completions := ∅;
     jobs := [{| job_id := 3; slug := "programmer-analytical-engines";
                 required_skills := ["Python"]; applications_count := 1 |}];
     applications := [ada_application]; log := [] |}.

(** Ada asking for her profile-completion page, without [refresh]. *)
Definition completion_page : Pages.completion_request :=
  {| Pages.pc_user := Scenario.ada; Pages.pc_refresh := None |}.

(** A database in which Ada has one completed resume, named in her
    application, and a stored completion row. *)
Definition library_world : world :=
  {| resumes := [Scenario.completed_resume 1 ["Python"]];
     users := [Scenario.ada];
     completions := {[ 7 := {| completion_score := 100; missing_fields := [];
                               Models.suggestions := [] |} ]};
     jobs := [Scenario.posting ["Python"]];
     applications :=
       [{| application_id := 5; job := 3; applicant := 7; resume := Some 1;
           cover_letter := ""; application_status := "pending";
           match_score := None; matching_skills := []; missing_skills := [] |}];
     log := [] |}.

(** A file system that holds every file and removes what it is asked to. *)
Definition every_path : string → bool := λ _, true.
Definition removes : string → option Py.exn := λ _, None.
Definition deletes : ParsedResume → option Py.exn := λ _, None.

(** An empty database with Ada registered. *)
Definition fresh_world : world :=
  {| resumes := []; users := [Scenario.ada]; completions := ∅; jobs := [];
     applications := []; log := [] |}.

End Cases.

(** * Properties *)

(** ** The built-ins on examples *)

Example strip_example : Py.strip "  C++ / Rust  " = "C++ / Rust".
Proof. reflexivity. Qed.

Example lower_example : Py.lower "PostgreSQL" = "postgresql".
Proof. reflexivity. Qed.

Example split_example :
  Py.split "  Ada   Lovelace King " = ["Ada"; "Lovelace"; "King"].
Proof. reflexivity. Qed.

Example file_extension_example :
  Models.file_extension Scenario.uploaded = "pdf"
  ∧ Py.last_component "" "my.resume.final.DOCX" = "DOCX".
Proof. split; reflexivity. Qed.

Example clean_phone_example :
  Schemas.ResumeParsedSchema.clean_phone (Some "+44 (0)20 7946-0000")
  = Some "4402079460000".
Proof. reflexivity. Qed.

Example clean_skills_example :
  Schemas.ResumeParsedSchema.clean_skills
    [" Python "; "python"; ""; "SQL"; "  "; "PYTHON"; "sql "]
  = ["Python"; "SQL"].
Proof. vm_compute. reflexivity. Qed.

(** [round(x, 2)] on percentages, two of them on a tie of the decimal
    expansion (23/160 = 14.375 and 49/160 = 30.625 exactly), where the
    binary value of the product decides. *)
Example round2_examples :
  Py.round2 (Py.float_of_nat 2 / Py.float_of_nat 3 * 100)%float = 66.67%float
  ∧ Py.round2 (Py.float_of_nat 23 / Py.float_of_nat 160 * 100)%float = 14.37%float
  ∧ Py.round2 (Py.float_of_nat 49 / Py.float_of_nat 160 * 100)%float = 30.63%float
  ∧ Py.round2 (Py.float_of_nat 1 / Py.float_of_nat 32 * 100)%float = 3.12%float
  ∧ Py.round2 (Py.float_of_nat 3 / Py.float_of_nat 3 * 100)%float = 100%float
  ∧ Py.round2 (Py.float_of_nat 0 / Py.float_of_nat 3 * 100)%float = 0%float.
Proof. repeat split; vm_compute; reflexivity. Qed.

(** For every ratio with at most 64 required skills the float score is
    the float nearest to the ratio rounded to two decimals. *)
Lemma score_is_rounded_upto_64 :
  forallb (λ r, forallb (λ m, Spec.score_is_rounded m r) (seq 0 (S r)))
    (seq 1 64) = true.
Proof. vm_compute. reflexivity. Qed.

(** ** Strings *)

Section Strings.
Import Spec.

Lemma append_cons (c : ascii) (s t : string) :
  String c s +:+ t = String c (s +:+ t).
Proof. reflexivity. Qed.

Lemma append_nil_l (t : string) : "" +:+ t = t.
Proof. reflexivity. Qed.

Lemma append_nil_r (s : string) : s +:+ "" = s.
Proof.
  induction s as [|c s IH]; [done|]. by rewrite append_cons, IH.
Qed.

Lemma append_assoc (s t u : string) : (s +:+ t) +:+ u = s +:+ (t +:+ u).
Proof.
  induction s as [|c s IH]; [done|]. by rewrite !append_cons, IH.
Qed.

Lemma all_space_app (s t : string) :
  all_space (s +:+ t) = all_space s && all_space t.
Proof.
  induction s as [|c s IH]; [done|].
  rewrite append_cons. simpl. rewrite IH. by rewrite andb_assoc.
Qed.

Lemma lstrip_decomp (s : string) :
  ∃ pre, s = pre +:+ Py.lstrip s ∧ all_space pre = true.
Proof.
  induction s as [|c s [pre [Hs Hpre]]]; simpl.
  - by exists "".
  - destruct (Py.isspace c) eqn:Hc.
    + exists (String c pre). rewrite append_cons. simpl. rewrite Hc, Hpre.
      split; [by f_equal|done].
    + by exists "".
Qed.

Lemma lstrip_first (s : string) (c : ascii) :
  first_char (Py.lstrip s) = Some c → Py.isspace c = false.
Proof.
  induction s as [|d s IH]; simpl; [done|].
  destruct (Py.isspace d) eqn:Hd; [done|].
  simpl. by intros [= <-].
Qed.

Lemma rstrip_decomp (s : string) :
  ∃ post, s = Py.rstrip s +:+ post ∧ all_space post = true.
Proof.
  induction s as [|c s [post [Hs Hpost]]]; simpl.
  - by exists "".
  - destruct (Py.rstrip s) as [|d t] eqn:Hr.
    + rewrite append_nil_l in Hs. subst post.
      destruct (Py.isspace c) eqn:Hc.
      * exists (String c s). rewrite append_nil_l. simpl. by rewrite Hc, Hpost.
      * exists s. by rewrite append_cons, append_nil_l.
    + exists post. split; [|done]. rewrite append_cons. by f_equal.
Qed.

Lemma rstrip_last (s : string) (c : ascii) :
  last_char (Py.rstrip s) = Some c → Py.isspace c = false.
Proof.
  induction s as [|d s IH]; simpl; [done|].
  destruct (Py.rstrip s) as [|d' t] eqn:Hr.
  - destruct (Py.isspace d) eqn:Hd; simpl; [done|]. by intros [= <-].
  - intros H. apply IH. exact H.
Qed.

Lemma rstrip_first (s : string) (c : ascii) :
  first_char (Py.rstrip s) = Some c → first_char s = Some c.
Proof.
  destruct s as [|d s]; simpl; [done|].
  destruct (Py.rstrip s); [destruct (Py.isspace d)|]; simpl; done.
Qed.

(** [strip] removes exactly the surrounding whitespace. *)
Lemma strip_trimmed (s : string) : trimmed_of s (Py.strip s).
Proof.
  unfold Py.strip. split; [|split].
  - destruct (lstrip_decomp s) as [pre [Hs Hpre]].
    destruct (rstrip_decomp (Py.lstrip s)) as [post [Hl Hpost]].
    exists pre, post. split; [|done].
    rewrite <- Hl. exact Hs.
  - intros c Hc. apply rstrip_first in Hc. by eapply lstrip_first.
  - apply rstrip_last.
Qed.

Lemma lower_nonempty (s : string) : s ≠ "" → Py.lower s ≠ "".
Proof. by destruct s. Qed.

Lemma lower_empty_inv (s : string) : Py.lower s = "" → s = "".
Proof. by destruct s. Qed.

End Strings.

(** ** [clean_skills] *)

Section CleanSkills.
Import Spec Schemas.ResumeParsedSchema.

Lemma clean_skills_loop_spec (v : list string) :
  ∀ seen cleaned, ∃ out,
    clean_skills_loop v seen cleaned = cleaned ++ out ∧ appended v seen out.
Proof.
  unfold appended.
  induction v as [|x rest IH]; intros seen cleaned; simpl.
  - exists []. rewrite app_nil_r. split; [done|].
    split; [constructor|]. split; [done|].
    intros e. split; [by intros ?%elem_of_nil|].
    intros (_ & _ & l1 & l2 & Hl & _). by destruct l1.
  - change (list_fmap _ _ Py.strip rest) with (Py.strip <$> rest).
    set (s := Py.strip x).
    destruct (Py.truthy_str s && bool_decide (Py.lower s ∉ seen)) eqn:Hkeep.
    + apply andb_true_iff in Hkeep as [Hne Hnew].
      apply bool_decide_eq_true in Hne, Hnew.
      destruct (IH ({[Py.lower s]} ∪ seen) (cleaned ++ [s]))
        as (out & Heq & Hnd & Hsub & Hiff).
      exists (s :: out). split; [by rewrite Heq, <- app_assoc|].
      split; [|split].
      * rewrite fmap_cons. constructor; [|done].
        intros (e & He & Hin)%list_elem_of_fmap.
        apply Hiff in Hin as (_ & Hout & _).
        apply Hout, elem_of_union_l, elem_of_singleton. done.
      * by apply sublist_skip.
      * intros e. rewrite elem_of_cons, Hiff. split.
        -- intros [-> | (He & Hout & l1 & l2 & Hl & Hfirst)].
           ++ split; [done|]. split; [done|].
              exists [], (Py.strip <$> rest). split; [done|].
              by intros y ?%elem_of_nil.
           ++ rewrite not_elem_of_union, not_elem_of_singleton in Hout.
              destruct Hout as [Hes Hout].
              split; [done|]. split; [done|].
              exists (s :: l1), l2. split; [by rewrite Hl|].
              intros y [-> | Hy]%elem_of_cons; [|by apply Hfirst].
              unfold same_skill. congruence.
        -- intros (He & Hout & l1 & l2 & Hl & Hfirst).
           destruct l1 as [|y l1]; simpl in Hl.
           ++ left. by injection Hl.
           ++ right. injection Hl as Hy Hl. subst y.
              split; [done|]. split.
              ** assert (¬ same_skill s e) as Hs by (apply Hfirst; left).
                 unfold same_skill in Hs.
                 rewrite not_elem_of_union, not_elem_of_singleton.
                 split; [congruence|done].
              ** exists l1, l2. split; [done|].
                 intros z Hz. apply Hfirst. by right.
    + apply andb_false_iff in Hkeep.
      assert (∀ e, e ≠ "" → Py.lower e ∉ seen → ¬ same_skill s e) as Hdrop.
      { intros e He Hout Hs. unfold same_skill in Hs.
        destruct Hkeep as [Hempty | Hseen].
        - apply bool_decide_eq_false in Hempty.
          assert (s = "") as Hs0 by (by destruct (decide (s = ""))).
          rewrite Hs0 in Hs. symmetry in Hs.
          by apply lower_empty_inv in Hs.
        - apply bool_decide_eq_false in Hseen.
          apply Hseen. by rewrite Hs. }
      destruct (IH seen cleaned) as (out & Heq & Hnd & Hsub & Hiff).
      exists out. split; [done|]. split; [done|]. split.
      * by apply sublist_cons.
      * intros e. rewrite Hiff. split.
        -- intros (He & Hout & l1 & l2 & Hl & Hfirst).
           split; [done|]. split; [done|].
           exists (s :: l1), l2. split; [by rewrite Hl|].
           intros y [-> | Hy]%elem_of_cons; [by apply Hdrop|by apply Hfirst].
        -- intros (He & Hout & l1 & l2 & Hl & Hfirst).
           split; [done|]. split; [done|].
           destruct l1 as [|y l1]; simpl in Hl.
           ++ injection Hl as Hs _. exfalso.
              apply (Hdrop e He Hout). by rewrite <- Hs.
           ++ injection Hl as Hy Hl. subst y. exists l1, l2. split; [done|].
              intros z Hz. apply Hfirst. by right.
Qed.

(** The loop, with its set of skills seen, appends the first-seen entries
    that are not in the set. *)
Lemma clean_skills_loop_first_seen (v : list string) (seen : gset string)
    (cleaned : list string) :
  clean_skills_loop v seen cleaned
  = cleaned ++ filter (λ y, Py.lower y ∉ seen) (trimmed_first_seen v).
Proof.
  unfold trimmed_first_seen. revert seen cleaned.
  induction v as [|skill rest IH]; intros seen cleaned.
  - simpl. by rewrite app_nil_r.
  - rewrite fmap_cons, filter_cons. cbn [clean_skills_loop].
    unfold Py.truthy_str.
    destruct (decide (Py.strip skill ≠ "")) as [Hne|Hempty].
    + rewrite (bool_decide_eq_true_2 _ Hne). cbn [andb first_seen].
      rewrite filter_cons.
      destruct (decide (Py.lower (Py.strip skill) ∉ seen)) as [Hnew|Hold].
      * rewrite (bool_decide_eq_true_2 _ Hnew), IH, <- app_assoc. simpl.
        do 2 f_equal. rewrite list_filter_filter. apply list_filter_iff.
        intros y. unfold same_skill.
        rewrite not_elem_of_union, not_elem_of_singleton. split.
        -- intros [H1 H2]. split; [done|]. by intros H.
        -- intros [H1 H2]. split; [|done]. by intros H.
      * rewrite (bool_decide_eq_false_2 _ Hold), IH. f_equal.
        rewrite list_filter_filter. apply list_filter_iff.
        intros y. unfold same_skill. split; [|tauto].
        intros Hy. split; [done|]. intros Heq. apply Hold. by rewrite Heq.
    + rewrite (bool_decide_eq_false_2 _ Hempty). cbn [andb]. apply IH.
Qed.

(** [clean_skills] computes the three steps of the specification. *)
Lemma clean_skills_first_seen (v : list string) :
  clean_skills v = trimmed_first_seen v.
Proof.
  assert (clean_skills v = clean_skills_loop v ∅ []) as ->.
  { unfold clean_skills. by destruct v. }
  rewrite clean_skills_loop_first_seen. simpl.
  generalize (trimmed_first_seen v). intros l.
  induction l as [|x l IHl]; [done|].
  rewrite filter_cons, decide_True by apply not_elem_of_empty.
  by rewrite IHl.
Qed.

Lemma clean_skills_cleaned (v : list string) : cleaned_from v (clean_skills v).
Proof.
  pose proof (clean_skills_first_seen v) as Hfirst.
  assert (∃ out, clean_skills v = out ∧ appended v ∅ out)
    as (out & Hout & Hnd & Hsub & Hiff).
  { unfold clean_skills. destruct v as [|x rest].
    - simpl. destruct (clean_skills_loop_spec [] ∅ []) as (out & Heq & H).
      simpl in Heq. by exists out.
    - change (Py.truthy_list (x :: rest)) with true. cbv iota.
      destruct (clean_skills_loop_spec (x :: rest) ∅ []) as (out & Heq & H).
      by exists out. }
  rewrite Hout in Hfirst |- *.
  split; [|split; [done|split; [done|split; [|done]]]].
  - intros e He. split; [by apply Hiff in He as [? _]|].
    assert (e ∈ Py.strip <$> v) as (x & -> & Hx)%list_elem_of_fmap.
    { eapply elem_of_sublist; [exact He|exact Hsub]. }
    exists x. split; [done|apply strip_trimmed].
  - intros e. rewrite Hiff. split.
    + intros (? & _ & ?). done.
    + intros (? & ?). split; [done|]. split; [apply not_elem_of_empty|done].
Qed.

(** The cleaned form of a list is one list. *)
Lemma cleaned_from_unique (v out1 out2 : list string) :
  cleaned_from v out1 → cleaned_from v out2 → out1 = out2.
Proof. intros (_ & _ & _ & _ & ->) (_ & _ & _ & _ & ->). done. Qed.

(** First-seen order: a skill that recurs stays where it came first. *)
Example cleaned_from_first_seen_order :
  cleaned_from ["Python"; "SQL"; "Python"] ["Python"; "SQL"]
  ∧ ¬ cleaned_from ["Python"; "SQL"; "Python"] ["SQL"; "Python"].
Proof.
  split.
  - apply (clean_skills_cleaned ["Python"; "SQL"; "Python"]).
  - intros H.
    pose proof (cleaned_from_unique _ _ _ H
                  (clean_skills_cleaned ["Python"; "SQL"; "Python"])) as Heq.
    vm_compute in Heq. discriminate Heq.
Qed.

End CleanSkills.

(** ** Schema validation *)

Section Validation.
Import Spec Schemas.

Lemma rmapM_Forall2 {A B} (f : A → Py.result B) (l : list A) (ys : list B) :
  Py.rmapM f l = Py.Ok ys → Forall2 (λ a b, f a = Py.Ok b) l ys.
Proof.
  revert ys. induction l as [|a l IH]; intros ys; simpl.
  - intros [= <-]. constructor.
  - destruct (f a) as [b|e] eqn:Hfa; [|done]. simpl.
    destruct (Py.rmapM f l) as [bs|e] eqn:Hl; [|done]. simpl.
    intros [= <-]. constructor; [done|]. by apply IH.
Qed.

Lemma model_list_Forall2 {R A} name (f : R → Py.result A) r (ys : list A) :
  model_list name f r = Py.Ok ys → Forall2 (λ a b, f a = Py.Ok b) (supplied r) ys.
Proof.
  destruct r as [| |l|]; simpl; try done.
  - intros [= <-]. constructor.
  - apply rmapM_Forall2.
Qed.

Lemma list_field_supplied {A} name (post : list A → list A) r (ys : list A) :
  list_field name post r = Py.Ok ys → ys = post (supplied r) ∨ (r = Absent ∧ ys = []).
Proof.
  destruct r as [| |l|]; simpl; try done.
  - intros [= <-]. by right.
  - intros [= <-]. by left.
Qed.

End Validation.

(** Inversion of a successful chain of field validations. *)
Ltac bind_inv H :=
  repeat match type of H with
  | mbind _ ?r = Py.Ok _ =>
      let E := fresh "E" in
      destruct r eqn:E; [|discriminate H];
      cbn [mbind Py.result_bind Py.rbind] in H
  | mret _ = Py.Ok _ => injection H as H
  end.

Section ValidationClaims.
Import Spec Schemas.

Lemma work_experience_end_date (re : WorkExperience.raw_t) (e : WorkExperience.t) :
  WorkExperience.validate re = Py.Ok e →
  ∃ s, WorkExperience.raw_end_date re = Value s
       ∧ WorkExperience.end_date e = if decide (s = "") then "Present" else s.
Proof.
  unfold WorkExperience.validate. intros H. bind_inv H. subst e. simpl.
  destruct (WorkExperience.raw_end_date re) as [| |s|] eqn:Hed; try done.
  injection E3 as <-. exists s. split; [done|].
  unfold WorkExperience.validate_end_date, Py.truthy_str.
  destruct (decide (s = "")) as [->|Hs]; [done|].
  by rewrite bool_decide_eq_true_2.
Qed.

End ValidationClaims.

(** ** Runs of the state-passing computations *)

Section Runs.
Import Sys.

Lemma bind_ok_inv {S A B} (m : St S A) (k : A → St S B) s b s' :
  bind m k s = (Py.Ok b, s') →
  ∃ a s1, m s = (Py.Ok a, s1) ∧ k a s1 = (Py.Ok b, s').
Proof.
  unfold bind. destruct (m s) as [[a|e] s1]; [|done].
  intros H. by exists a, s1.
Qed.

Lemma bind_run_ok {S A B} (m : St S A) (k : A → St S B) s a s1 :
  m s = (Py.Ok a, s1) → bind m k s = k a s1.
Proof. unfold bind. by intros ->. Qed.

Lemma bind_run_raise {S A B} (m : St S A) (k : A → St S B) s e s1 :
  m s = (Py.Raise e, s1) → bind m k s = (Py.Raise e, s1).
Proof. unfold bind. by intros ->. Qed.

End Runs.

(** ** The parser *)

Section ParserRuns.
Import Models Sys Spec.
Context (E : env).

(** Text extraction opens at most the file it is given and calls nothing
    else. *)
Lemma extract_text_log fp ft w res w1 :
  Parser.extract_text E fp ft w = (res, w1) →
  w1 = w ∨ w1 = add_log (FileRead fp) w.
Proof.
  unfold Parser.extract_text, Parser.extract_text_from_pdf,
    Parser.extract_text_from_docx, bind, modify, ret, raise.
  repeat case_bool_decide;
    [destruct (read_pdf E fp)|destruct (read_docx E fp)|];
    intros [= _ <-]; auto.
Qed.

Lemma llm_calls_add_file_read fp w :
  llm_calls (log (add_log (FileRead fp) w)) = llm_calls (log w).
Proof.
  unfold llm_calls, add_log. simpl.
  rewrite filter_app. simpl. by rewrite app_nil_r.
Qed.

(** A successful [parse_resume] returns what the output parser made of
    the model's answer. *)
Lemma parse_resume_ok_inv self fp ft use_simple w d w' :
  Parser.parse_resume E self fp ft use_simple w = (Py.Ok d, w') →
  ∃ text content,
    llm_answer E use_simple text = Py.Ok content
    ∧ Parser.parse_output E use_simple content = Py.Ok d.
Proof.
  unfold Parser.parse_resume. intros H.
  apply bind_ok_inv in H as (text & w1 & _ & H).
  destruct (negb _); [done|].
  apply bind_ok_inv in H as ([] & w2 & _ & H).
  apply bind_ok_inv in H as (content & w3 & Hllm & H).
  unfold of_result in Hllm. injection Hllm as Hllm _.
  exists text, content. split; [done|].
  unfold try_except, of_result, raise in H.
  destruct (Parser.parse_output E use_simple content); [|done].
  by injection H as -> _.
Qed.

(** A successful [parse_resume], step by step: the text is the one
    extracted from the file, the content is the model's answer to that
    text, and the result is what the output parser made of that content. *)
Lemma parse_resume_ok_run self fp ft use_simple w d w' :
  Parser.parse_resume E self fp ft use_simple w = (Py.Ok d, w') →
  ∃ text w1 content,
    Parser.extract_text E fp ft w = (Py.Ok text, w1)
    ∧ llm_answer E use_simple text = Py.Ok content
    ∧ Parser.parse_output E use_simple content = Py.Ok d
    ∧ w' = add_log (LlmInvoke use_simple text) w1.
Proof.
  unfold Parser.parse_resume. intros H.
  apply bind_ok_inv in H as (text & w1 & Hext & H).
  destruct (negb _); [done|].
  apply bind_ok_inv in H as ([] & w2 & Hlog & H).
  unfold modify in Hlog. injection Hlog as <-.
  apply bind_ok_inv in H as (content & w3 & Hllm & H).
  unfold of_result in Hllm. injection Hllm as Hllm <-.
  exists text, w1, content. split; [done|]. split; [done|].
  unfold try_except, of_result, raise in H.
  destruct (Parser.parse_output E use_simple content); [|done].
  by injection H as -> <-.
Qed.

End ParserRuns.

(** ** Claims about the parsed result *)

Section ParsedResult.
Import Models Sys Spec Schemas.

Lemma clean_field_supplied name r ys :
  list_field name ResumeParsedSchema.clean_skills r = Py.Ok ys →
  ys = ResumeParsedSchema.clean_skills (supplied r).
Proof. intros [->|[-> ->]]%list_field_supplied; done. Qed.

Lemma id_field_supplied {A} name r (ys : list A) :
  list_field name id r = Py.Ok ys → ys = supplied r.
Proof. intros [->|[-> ->]]%list_field_supplied; done. Qed.

(** The three skills lists of a validated rich result are the cleaned
    forms of the lists the model supplied. *)
Lemma rich_skills_cleaned r x :
  ResumeParsedSchema.validate r = Py.Ok x →
  cleaned_from (supplied (ResumeParsedSchema.raw_skills r))
    (ResumeParsedSchema.skills x)
  ∧ cleaned_from (supplied (ResumeParsedSchema.raw_technical_skills r))
      (ResumeParsedSchema.technical_skills x)
  ∧ cleaned_from (supplied (ResumeParsedSchema.raw_soft_skills r))
      (ResumeParsedSchema.soft_skills x).
Proof.
  unfold ResumeParsedSchema.validate. intros H. bind_inv H. subst x. simpl.
  apply clean_field_supplied in E7, E8, E9. subst.
  split; [|split]; apply clean_skills_cleaned.
Qed.

(** The simple schema returns the skills list as supplied. *)
Lemma simple_skills_unchanged r x :
  SimpleResumeParsedSchema.validate r = Py.Ok x →
  SimpleResumeParsedSchema.skills x
  = supplied (SimpleResumeParsedSchema.raw_skills r).
Proof.
  unfold SimpleResumeParsedSchema.validate. intros H. bind_inv H. subst x.
  simpl. by apply id_field_supplied in E4.
Qed.

(** C1, as the code has it.  For every result [parse_resume] returns for
    the rich schema, each of the three skills lists is the cleaned form of
    the list in the model's answer to the text extracted in this run:
    entries trimmed, none empty, no two equal up to letter case, in
    first-seen order and with the casing of the first occurrence, that
    is, the list [trimmed_first_seen] makes of the supplied one.  For the
    simple schema, which is the one [_process_resume] requests, the
    skills list is returned as the model supplied it; processing a record
    whose model answer has skills Python, python, SQL stores exactly
    these three entries and completes. *)
Theorem C1_skills_cleaned_by_rich_schema_only :
  (∀ E self fp ft w d w',
     Parser.parse_resume E self fp ft false w = (Py.Ok d, w') →
     ∃ text w1 content r sk ts ss,
       Parser.extract_text E fp ft w = (Py.Ok text, w1)
       ∧ llm_answer E false text = Py.Ok content
       ∧ json_rich E content = Some r
       ∧ Py.dict_lookup d "skills" = Some (Py.of_str_list sk)
       ∧ Py.dict_lookup d "technical_skills" = Some (Py.of_str_list ts)
       ∧ Py.dict_lookup d "soft_skills" = Some (Py.of_str_list ss)
       ∧ cleaned_from (supplied (ResumeParsedSchema.raw_skills r)) sk
       ∧ cleaned_from (supplied (ResumeParsedSchema.raw_technical_skills r)) ts
       ∧ cleaned_from (supplied (ResumeParsedSchema.raw_soft_skills r)) ss
       ∧ sk = trimmed_first_seen (supplied (ResumeParsedSchema.raw_skills r))
       ∧ ts = trimmed_first_seen
                (supplied (ResumeParsedSchema.raw_technical_skills r))
       ∧ ss = trimmed_first_seen
                (supplied (ResumeParsedSchema.raw_soft_skills r)))
  ∧ (∀ E self fp ft w d w',
       Parser.parse_resume E self fp ft true w = (Py.Ok d, w') →
       ∃ text w1 content r,
         Parser.extract_text E fp ft w = (Py.Ok text, w1)
         ∧ llm_answer E true text = Py.Ok content
         ∧ json_simple E content = Some r
         ∧ Py.dict_lookup d "skills"
           = Some (Py.of_str_list
                     (supplied (SimpleResumeParsedSchema.raw_skills r))))
  ∧ (let E := Scenario.env_of
                (Scenario.simple_answer "Ada Lovelace"
                   (Value ["Python"; "python"; "SQL"]) Absent)
                (Scenario.rich_answer Absent Absent) Scenario.accept_all in
     ∃ r w,
       Views._process_resume E (Scenario.uploaded, Scenario.world_of Scenario.ada)
       = (Py.Ok (), (r, w))
       ∧ stored_resume 1 w = Some r
       ∧ status r = completed
       ∧ skills r = ["Python"; "python"; "SQL"]).
Proof.
  split; [|split].
  - intros E self fp ft w d w' H.
    apply parse_resume_ok_run in H as (text & w1 & content & Hext & Hllm & H & _).
    unfold Parser.parse_output in H.
    destruct (json_rich E content) as [r|] eqn:Hjson; [|done].
    destruct (ResumeParsedSchema.validate r) as [x|e] eqn:Hval; [|done].
    injection H as <-.
    apply rich_skills_cleaned in Hval as (Hsk & Hts & Hss).
    exists text, w1, content, r, (ResumeParsedSchema.skills x),
      (ResumeParsedSchema.technical_skills x),
      (ResumeParsedSchema.soft_skills x).
    do 3 (split; [done|]). do 3 (split; [reflexivity|]).
    do 3 (split; [done|]).
    split; [apply Hsk|]. split; [apply Hts|apply Hss].
  - intros E self fp ft w d w' H.
    apply parse_resume_ok_run in H as (text & w1 & content & Hext & Hllm & H & _).
    unfold Parser.parse_output in H.
    destruct (json_simple E content) as [r|] eqn:Hjson; [|done].
    destruct (SimpleResumeParsedSchema.validate r) as [x|e] eqn:Hval; [|done].
    injection H as <-.
    apply simple_skills_unchanged in Hval.
    exists text, w1, content, r. do 3 (split; [done|]). simpl. by rewrite Hval.
  - eexists _, _. split; [vm_compute; reflexivity|]. vm_compute. done.
Qed.

(** A rich-schema run: the model supplies "  Python ", "python", "",
    "SQL" and the parser returns Python, SQL. *)
Lemma C1_witness :
  let E := Scenario.env_of
             (Scenario.simple_answer "Ada Lovelace" Absent Absent)
             (Scenario.rich_answer (Value ["  Python "; "python"; ""; "SQL"]) Absent)
             Scenario.accept_all in
  ∃ d w',
    Parser.parse_resume E {| Parser.api_key := Some "gsk_configured" |}
      "cv.pdf" "pdf" false (Scenario.world_of Scenario.ada) = (Py.Ok d, w')
    ∧ Py.dict_lookup d "skills" = Some (Py.of_str_list ["Python"; "SQL"])
    ∧ ∃ sk, Py.dict_lookup d "skills" = Some (Py.of_str_list sk)
            ∧ cleaned_from ["  Python "; "python"; ""; "SQL"] sk.
Proof.
  intros E.
  destruct (Parser.parse_resume E {| Parser.api_key := Some "gsk_configured" |}
              "cv.pdf" "pdf" false (Scenario.world_of Scenario.ada))
    as [[d|e] w'] eqn:Hrun; [|vm_compute in Hrun; discriminate].
  exists d, w'. split; [reflexivity|].
  split; [vm_compute in Hrun; injection Hrun as <- _; reflexivity|].
  destruct (proj1 C1_skills_cleaned_by_rich_schema_only E _ _ _ _ _ _ Hrun)
    as (text & w1 & content & r & sk & ts & ss & _ & _ & Hjson & Hsk & _ & _
        & Hclean & _).
  exists sk. split; [exact Hsk|].
  injection Hjson as <-. exact Hclean.
Defined.

(** C1 as stated fails: with the simple schema that processing uses, the
    stored skills list keeps both Python and python. *)
Lemma C1_counterexample :
  let E := Scenario.env_of
             (Scenario.simple_answer "Ada Lovelace"
                (Value ["Python"; "python"; "SQL"]) Absent)
             (Scenario.rich_answer Absent Absent) Scenario.accept_all in
  ∃ r w,
    Views._process_resume E (Scenario.uploaded, Scenario.world_of Scenario.ada)
    = (Py.Ok (), (r, w))
    ∧ status r = completed
    ∧ skills r ≠ ["Python"; "SQL"]
    ∧ ¬ NoDup (Py.lower <$> skills r).
Proof.
  eexists _, _. split; [vm_compute; reflexivity|].
  split; [done|]. split; [done|].
  simpl. intros Hnd. apply NoDup_cons in Hnd as [Hnotin _].
  apply Hnotin. vm_compute. left.
Qed.

(** C8, as the code has it.  Every work-experience entry of a validated
    rich result comes from a supplied entry whose end date is a string: the
    empty string is replaced by Present, any other string is returned
    unchanged.  (An entry without an end date is never part of a result.) *)
Theorem C8_empty_end_date_becomes_present r x :
  ResumeParsedSchema.validate r = Py.Ok x →
  Forall2
    (λ re e, ∃ s, WorkExperience.raw_end_date re = Value s
                  ∧ WorkExperience.end_date e
                    = if decide (s = "") then "Present" else s)
    (supplied (ResumeParsedSchema.raw_experience r))
    (ResumeParsedSchema.experience x).
Proof.
  unfold ResumeParsedSchema.validate. intros H. bind_inv H. subst x. simpl.
  apply model_list_Forall2 in E10.
  eapply Forall2_impl; [exact E10|].
  intros re e Hre. by apply work_experience_end_date.
Qed.

(** An entry supplied with an empty end date comes back with Present. *)
Lemma C8_witness :
  ∃ x e,
    ResumeParsedSchema.validate
      (Scenario.rich_answer Absent (Value [Scenario.job_entry (Value "")]))
    = Py.Ok x
    ∧ ResumeParsedSchema.experience x = [e]
    ∧ WorkExperience.end_date e = "Present".
Proof.
  destruct (ResumeParsedSchema.validate
              (Scenario.rich_answer Absent (Value [Scenario.job_entry (Value "")])))
    as [x|err] eqn:Hval; [|vm_compute in Hval; discriminate].
  pose proof (C8_empty_end_date_becomes_present _ _ Hval) as Hall.
  simpl in Hall.
  apply Forall2_cons_inv_l in Hall as (e & rest & (s & Hs & He) & Hrest & Hx).
  apply Forall2_nil_inv_l in Hrest as ->.
  exists x, e. split; [reflexivity|]. split; [exact Hx|].
  injection Hs as <-. exact He.
Defined.

(** C8 as stated fails: an entry extracted without an end date is
    rejected, and so is the whole answer; no entry with Present results. *)
Lemma C8_counterexample :
  WorkExperience.validate (Scenario.job_entry Absent)
  = Py.Raise (field_required "end_date")
  ∧ (¬ ∃ e, WorkExperience.validate (Scenario.job_entry Absent) = Py.Ok e
            ∧ WorkExperience.end_date e = "Present")
  ∧ (¬ ∃ x, ResumeParsedSchema.validate
              (Scenario.rich_answer Absent (Value [Scenario.job_entry Absent]))
            = Py.Ok x).
Proof.
  split; [reflexivity|]. split.
  - intros (e & He & _). vm_compute in He. discriminate.
  - intros (x & Hx). vm_compute in Hx. discriminate.
Qed.

End ParsedResult.

(** ** Claims about the parser *)

Section ParserClaims.
Import Models Sys Spec.

Lemma lstrip_all_space (s : string) : all_space s = true → Py.lstrip s = "".
Proof.
  induction s as [|c s IH]; simpl; [done|].
  intros [Hc Hs]%andb_true_iff. rewrite Hc. by apply IH.
Qed.

Lemma strip_all_space (s : string) : all_space s = true → Py.strip s = "".
Proof. intros H. unfold Py.strip. by rewrite lstrip_all_space. Qed.

(** C3.  When the text extracted from the file is empty or made of
    whitespace only, [parse_resume] raises the empty-document error
    (a [ValueError] saying that no text could be extracted) and the run
    makes no call to the language-model service. *)
Theorem C3_empty_document_no_model_call E self fp ft use_simple w text w1 :
  Parser.extract_text E fp ft w = (Py.Ok text, w1) →
  all_space text = true →
  ∃ w',
    Parser.parse_resume E self fp ft use_simple w
    = (Py.Raise (Py.ValueError "No text could be extracted from the resume"), w')
    ∧ llm_calls (log w') = llm_calls (log w).
Proof.
  intros Hext Hblank. exists w1. split.
  - unfold Parser.parse_resume.
    rewrite (bind_run_ok _ _ _ _ _ Hext).
    by rewrite (strip_all_space _ Hblank).
  - apply extract_text_log in Hext as [->| ->]; [done|].
    apply llm_calls_add_file_read.
Qed.

(** A PDF of blank pages: the error is raised, the model is not called. *)
Lemma C3_witness :
  ∃ w',
    Parser.parse_resume Scenario.blank_pdf_env
      {| Parser.api_key := Some "gsk_configured" |} "cv.pdf" "PDF" true
      (Scenario.world_of Scenario.ada)
    = (Py.Raise (Py.ValueError "No text could be extracted from the resume"), w')
    ∧ llm_calls (log w') = llm_calls (log (Scenario.world_of Scenario.ada)).
Proof.
  apply (C3_empty_document_no_model_call Scenario.blank_pdf_env _ "cv.pdf" "PDF"
           true (Scenario.world_of Scenario.ada) ""
           (add_log (FileRead "cv.pdf") (Scenario.world_of Scenario.ada)));
    reflexivity.
Defined.

(** C9.  Constructing the parser when neither the argument nor the
    settings give a credential raises the missing-credential error (a
    [ValueError]) and leaves the world as it was: no file is read and no
    model call is made.  A parser that was constructed holds a non-empty
    credential, and its construction had no effect either. *)
Theorem C9_missing_credential_fails_at_construction E key w :
  (no_credential key → no_credential (GROQ_API_KEY E) →
   Parser.init E key w
   = (Py.Raise (Py.ValueError
        "OpenAI API key not found. Please set GROQ_API_KEY in settings or .env"),
      w))
  ∧ (∀ p w', Parser.init E key w = (Py.Ok p, w') →
       w' = w ∧ ∃ k, Parser.api_key p = Some k ∧ k ≠ "").
Proof.
  unfold Parser.init, raise, ret. split.
  - intros [->| ->] [->| ->]; reflexivity.
  - intros p w'.
    destruct (Py.truthy_opt_str key) eqn:Hkey.
    + rewrite Hkey. simpl. intros [= <- <-]. split; [done|].
      destruct key as [k|]; [|done]. exists k. split; [done|].
      by apply bool_decide_eq_true in Hkey.
    + destruct (Py.truthy_opt_str (GROQ_API_KEY E)) eqn:Hset; simpl; [|done].
      intros [= <- <-]. split; [done|].
      destruct (GROQ_API_KEY E) as [k|]; [|done]. exists k. split; [done|].
      by apply bool_decide_eq_true in Hset.
Qed.

(** [ResumeParser()] with no key in the settings. *)
Lemma C9_witness :
  no_credential None ∧ no_credential (GROQ_API_KEY Scenario.no_key_env)
  ∧ Parser.init Scenario.no_key_env None (Scenario.world_of Scenario.ada)
    = (Py.Raise (Py.ValueError
         "OpenAI API key not found. Please set GROQ_API_KEY in settings or .env"),
       Scenario.world_of Scenario.ada).
Proof.
  split; [by left|]. split; [by left|].
  apply (proj1 (C9_missing_credential_fails_at_construction
                  Scenario.no_key_env None (Scenario.world_of Scenario.ada)));
    by left.
Defined.

End ParserClaims.

(** ** Claims about profile completion *)

Section Completion.
Import Models Sys Spec Schemas.

Lemma truthy_filter_Exists {A} (P : A → Prop) `{∀ x, Decision (P x)} (l : list A) :
  Py.truthy_list (filter P (reverse l)) = bool_decide (Exists P l).
Proof.
  rewrite filter_reverse.
  assert (∀ l' : list A, Py.truthy_list (reverse l') = Py.truthy_list l') as ->.
  { intros [|x l']; [done|]. rewrite reverse_cons. by destruct (reverse l'). }
  induction l as [|x l IH].
  - by rewrite bool_decide_eq_false_2 by (by intros ?%Exists_nil).
  - rewrite filter_cons. destruct (decide (P x)) as [Hx|Hx].
    + by rewrite bool_decide_eq_true_2 by (by left).
    + rewrite IH. apply bool_decide_ext. rewrite Exists_cons. tauto.
Qed.

Lemma head_completed_resumes uid w :
  head (Views.completed_resumes uid w) = most_recent_completed uid w.
Proof.
  unfold Views.completed_resumes, most_recent_completed.
  by rewrite filter_reverse, head_reverse.
Qed.

Lemma skill_count_positive r :
  bool_decide (0 < skill_count r) = bool_decide (skills r ≠ []).
Proof.
  unfold skill_count. destruct (skills r) as [|x l]; simpl;
    repeat case_bool_decide; try done; lia.
Qed.

Lemma truthy_both (a b : string) :
  Py.truthy_str a && Py.truthy_str b = bool_decide (a ≠ "" ∧ b ≠ "").
Proof.
  unfold Py.truthy_str. repeat case_bool_decide; simpl; tauto.
Qed.

Lemma truthy_completed_resumes uid w :
  Py.truthy_list (Views.completed_resumes uid w)
  = bool_decide (Exists (λ r, user r = uid ∧ status r = completed) (resumes w)).
Proof. unfold Views.completed_resumes. apply truthy_filter_Exists. Qed.

(** The whole effect of the recalculation is one upsert of the expected
    row. *)
Lemma calculate_is_upsert E u w :
  Views._calculate_profile_completion E u w
  = Views.db_write E (UpsertCompletion (user_id u) (expected_completion u w)) w.
Proof.
  unfold Views._calculate_profile_completion, expected_completion, signals_of.
  unfold bind, Views.query, ret. cbv beta.
  rewrite truthy_completed_resumes, truthy_both.
  unfold Py.truthy_str, expected_score, expected_missing, expected_suggestions,
    weight, unless. cbn [name_complete email_present has_completed_resume
                         resume_has_skills role_selected].
  destruct (bool_decide (Exists _ (resumes w))); cbv beta iota.
  - rewrite head_completed_resumes.
    destruct (most_recent_completed (user_id u) w) as [r|];
      [rewrite skill_count_positive; destruct (bool_decide (skills r ≠ []))|];
      destruct (bool_decide (first_name u ≠ "" ∧ last_name u ≠ ""));
      destruct (bool_decide (email u ≠ ""));
      destruct (bool_decide (role u ≠ "")); reflexivity.
  - destruct (bool_decide (first_name u ≠ "" ∧ last_name u ≠ ""));
      destruct (bool_decide (email u ≠ ""));
      destruct (bool_decide (role u ≠ "")); reflexivity.
Qed.

Lemma expected_completion_resumes u w w1 :
  resumes w1 = resumes w → expected_completion u w1 = expected_completion u w.
Proof.
  intros H. unfold expected_completion, signals_of, most_recent_completed.
  by rewrite H.
Qed.

(** C6, as the code has it.  The recalculation upserts, for the user, the
    score that is the sum of the weights 20 (first and last name set), 20
    (email set), 30 (a completed resume exists), 15 (a completed resume
    exists and the most recent one lists a skill), 15 (role set); the
    missing-field labels name, email, resume, role for those of these four
    conditions that are false, in this order; and one suggestion for each
    of these labels, plus the skills suggestion when a completed resume
    exists whose most recent instance lists no skill (this case adds no
    label).  A user with full name, email, a completed resume with three
    skills and a role scores 100 with no missing field; without the role
    the score is 85, role is the missing field and the role suggestion is
    given. *)
Theorem C6_profile_completion_weights E u w :
  Views._calculate_profile_completion E u w
  = Views.db_write E (UpsertCompletion (user_id u) (expected_completion u w)) w
  ∧ (db_reject E (UpsertCompletion (user_id u) (expected_completion u w)) = None →
     ∃ w', Views._calculate_profile_completion E u w = (Py.Ok (), w')
           ∧ completions w' !! user_id u = Some (expected_completion u w))
  ∧ (let E0 := Scenario.env_of
                 (Scenario.simple_answer "Ada Lovelace" Absent Absent)
                 (Scenario.rich_answer Absent Absent) Scenario.accept_all in
     let w0 := Scenario.world_with
                 [Scenario.completed_resume 1 ["Python"; "SQL"; "Go"]] in
     (∃ w', Views._calculate_profile_completion E0 Scenario.ada w0 = (Py.Ok (), w')
            ∧ completions w' !! 7
              = Some {| completion_score := 100; missing_fields := [];
                        Models.suggestions := [] |})
     ∧ (∃ w', Views._calculate_profile_completion E0 Scenario.ada_no_role w0
              = (Py.Ok (), w')
              ∧ completions w' !! 7
                = Some {| completion_score := 85; missing_fields := ["role"];
                          Models.suggestions :=
                            ["Select your role (Candidate/Recruiter)"] |})).
Proof.
  split; [apply calculate_is_upsert|]. split.
  - intros Hok. rewrite calculate_is_upsert. unfold Views.db_write. rewrite Hok.
    eexists. split; [reflexivity|]. simpl. apply lookup_insert_eq.
  - split; (eexists; split; [vm_compute; reflexivity|]);
      vm_compute; reflexivity.
Qed.

(** The recalculation for a user whose only completed resume has skills. *)
Lemma C6_witness :
  let E0 := Scenario.env_of
              (Scenario.simple_answer "Ada Lovelace" Absent Absent)
              (Scenario.rich_answer Absent Absent) Scenario.accept_all in
  let w0 := Scenario.world_with [Scenario.completed_resume 1 ["Python"]] in
  ∃ w', Views._calculate_profile_completion E0 Scenario.ada w0 = (Py.Ok (), w')
        ∧ completions w' !! 7 = Some (expected_completion Scenario.ada w0).
Proof.
  intros E0 w0.
  apply (proj1 (proj2 (C6_profile_completion_weights E0 Scenario.ada w0))).
  reflexivity.
Defined.

(** C6 as stated fails: with a completed resume that lists no skill, one
    condition of the table is false, one suggestion is added, but no
    missing-field label. *)
Lemma C6_counterexample :
  let E0 := Scenario.env_of
              (Scenario.simple_answer "Ada Lovelace" Absent Absent)
              (Scenario.rich_answer Absent Absent) Scenario.accept_all in
  let w0 := Scenario.world_with [Scenario.completed_resume 1 []] in
  ∃ w' c,
    Views._calculate_profile_completion E0 Scenario.ada w0 = (Py.Ok (), w')
    ∧ completions w' !! 7 = Some c
    ∧ c = {| completion_score := 85; missing_fields := [];
             Models.suggestions := ["Add more skills to your resume"] |}
    ∧ false_conditions (signals_of Scenario.ada w0) = 1
    ∧ length (missing_fields c) ≠ false_conditions (signals_of Scenario.ada w0).
Proof.
  eexists _, _. split; [vm_compute; reflexivity|].
  split; [vm_compute; reflexivity|].
  split; [reflexivity|]. split; [reflexivity|]. vm_compute. lia.
Qed.

(** C7.  Running the recalculation a second time on the state the first
    run left gives the same outcome and leaves the same profile-completion
    rows (score, missing fields and suggestions), and neither run touches
    the user's resumes. *)
Theorem C7_recalculation_is_idempotent E u w :
  let first := Views._calculate_profile_completion E u w in
  let second := Views._calculate_profile_completion E u (snd first) in
  fst second = fst first
  ∧ completions (snd second) = completions (snd first)
  ∧ completions (snd second) !! user_id u = completions (snd first) !! user_id u
  ∧ resumes (snd second) = resumes w.
Proof.
  cbv zeta.
  pose proof (calculate_is_upsert E u w) as Hfirst.
  unfold Views.db_write in Hfirst.
  destruct (db_reject E (UpsertCompletion (user_id u) (expected_completion u w)))
    as [e|] eqn:Hdb; rewrite Hfirst; cbn [fst snd].
  - by rewrite Hfirst.
  - set (w1 := add_log _ _) in *.
    rewrite calculate_is_upsert.
    rewrite (expected_completion_resumes u w w1) by reflexivity.
    unfold Views.db_write. rewrite Hdb. cbn.
    by rewrite insert_insert_eq.
Qed.

End Completion.

(** ** Status histories *)

Section Histories.
Import Models Sys Spec.
Context (E : env) (id : nat).

Lemma status_history_app l1 l2 :
  status_history id (l1 ++ l2) = status_history id l1 ++ status_history id l2.
Proof. unfold status_history. apply omap_app. Qed.

Lemma status_history_add_log e w :
  status_history id (log (add_log e w))
  = status_history id (log w) ++ status_history id [e].
Proof. unfold add_log. simpl. apply status_history_app. Qed.

Lemma quiet_ret {A} (a : A) : quiet id (ret a).
Proof. by intros w res w' [= _ <-]. Qed.

Lemma quiet_raise {A} e : quiet id (raise (A:=A) e).
Proof. by intros w res w' [= _ <-]. Qed.

Lemma quiet_of_result {A} (r : Py.result A) : quiet id (of_result r).
Proof. by intros w res w' [= _ <-]. Qed.

Lemma quiet_query {A} (f : world → A) : quiet id (Views.query f).
Proof. by intros w res w' [= _ <-]. Qed.

Lemma quiet_bind {A B} (m : M A) (k : A → M B) :
  quiet id m → (∀ a, quiet id (k a)) → quiet id (bind m k).
Proof.
  intros Hm Hk w res w'. unfold bind.
  destruct (m w) as [[a|e] w1] eqn:Hrun.
  - intros H. rewrite (Hk a _ _ _ H). by eapply Hm.
  - intros [= _ <-]. by eapply Hm.
Qed.

Lemma quiet_try_except {A} (m : M A) (h : Py.exn → M A) :
  quiet id m → (∀ e, quiet id (h e)) → quiet id (try_except m h).
Proof.
  intros Hm Hh w res w'. unfold try_except.
  destruct (m w) as [[a|e] w1] eqn:Hrun.
  - intros [= _ <-]. by eapply Hm.
  - intros H. rewrite (Hh e _ _ _ H). by eapply Hm.
Qed.

Lemma quiet_log e :
  status_history id [e] = [] → quiet id (modify (add_log e)).
Proof.
  intros He w res w' [= _ <-].
  by rewrite status_history_add_log, He, app_nil_r.
Qed.

Lemma quiet_db_write a :
  status_history id [DbWrite a] = [] → quiet id (Views.db_write E a).
Proof.
  intros Ha w res w'. unfold Views.db_write.
  destruct (db_reject E a); intros [= _ <-]; [done|].
  rewrite status_history_add_log, Ha, app_nil_r. by destruct a.
Qed.

Lemma quiet_init key : quiet id (Parser.init E key).
Proof.
  unfold Parser.init. destruct (negb _); [apply quiet_raise|apply quiet_ret].
Qed.

Lemma quiet_extract_text fp ft : quiet id (Parser.extract_text E fp ft).
Proof.
  unfold Parser.extract_text, Parser.extract_text_from_pdf,
    Parser.extract_text_from_docx.
  repeat case_bool_decide; try apply quiet_raise;
    (apply quiet_bind; [by apply quiet_log|intros _]).
  - destruct (read_pdf E fp); [apply quiet_ret|apply quiet_raise].
  - destruct (read_docx E fp); [apply quiet_ret|apply quiet_raise].
Qed.

Lemma quiet_parse_resume self fp ft use_simple :
  quiet id (Parser.parse_resume E self fp ft use_simple).
Proof.
  unfold Parser.parse_resume.
  apply quiet_bind; [apply quiet_extract_text|intros text].
  destruct (negb _); [apply quiet_raise|].
  apply quiet_bind; [by apply quiet_log|intros _].
  apply quiet_bind; [apply quiet_of_result|intros content].
  apply quiet_try_except; [apply quiet_of_result|intros e; apply quiet_raise].
Qed.

Lemma quiet_related_user uid : quiet id (Views.related_user uid).
Proof.
  intros w res w'. unfold Views.related_user.
  by destruct (filter _ (users w)); intros [= _ <-].
Qed.

Lemma quiet_update_user_profile u d : quiet id (Views._update_user_profile E u d).
Proof.
  unfold Views._update_user_profile.
  destruct (_ && _); [|apply quiet_ret].
  destruct (Py.split _); [apply quiet_ret|].
  apply quiet_bind; [by apply quiet_db_write|intros _; apply quiet_ret].
Qed.

Lemma quiet_calculate u : quiet id (Views._calculate_profile_completion E u).
Proof.
  intros w res w'. rewrite calculate_is_upsert. by apply quiet_db_write.
Qed.

End Histories.

Section ProcessHistories.
Import Models Sys Spec.
Context (E : env).

Lemma lift_run {A} (m : M A) r w :
  ∃ res w', Views.lift m (r, w) = (res, (r, w')) ∧ m w = (res, w').
Proof.
  unfold Views.lift. destruct (m w) as [res w']. by exists res, w'.
Qed.

Lemma save_self_run r w :
  (∃ e, Views.save_self E (r, w) = (Py.Raise e, (r, w)))
  ∨ (∃ w', Views.save_self E (r, w) = (Py.Ok (), (r, w'))
           ∧ status_history (pk r) (log w')
             = status_history (pk r) (log w) ++ [status r]).
Proof.
  unfold Views.save_self, Views.self, bind, Views.lift, Views.db_write. simpl.
  destruct (db_reject E (SaveResume r)) as [e|].
  - left. by exists e.
  - right. eexists. split; [reflexivity|].
    rewrite status_history_add_log. simpl.
    by rewrite bool_decide_eq_true_2.
Qed.

(** What the [try] block of [_process_resume] stores, and how it ends. *)
Lemma process_body_run r0 w0 resb rb wb :
  (Views.setattr (set_status processing);;
     Views.save_self E;;
     let* parser := Views.lift (Parser.init E None) in
     let* r := Views.self in
     let* resume_data :=
       Views.lift (Parser.parse_resume E parser (file_path r) (file_extension r) true) in
     Views.setattr (set_parsed_data resume_data);;
     Views.setattr (set_skills
                (Py.str_items (Py.dict_get resume_data "skills" (Py.PList []))));;
     Views.setattr (set_experience_years
                (Py.int_or_null
                   (Py.dict_get resume_data "total_experience_years" (Py.PInt 0))));;
     let education := Py.dict_get resume_data "education" (Py.PList []) in
     (if Py.truthy education
      then Views.setattr (set_education_level (Some (Views.education_label education)))
      else ret ());;
     Views.setattr (set_status completed);;
     Views.save_self E;;
     let* u := Views.lift (Views.related_user (user r)) in
     let* u := Views.lift (Views._update_user_profile E u resume_data) in
     Views.lift (Views._calculate_profile_completion E u)) (r0, w0) = (resb, (rb, wb)) →
  pk rb = pk r0
  ∧ ∃ hb, status_history (pk r0) (log wb) = status_history (pk r0) (log w0) ++ hb
      ∧ ((resb = Py.Ok () ∧ hb = [processing; completed] ∧ status rb = completed)
         ∨ ((∃ e, resb = Py.Raise e)
            ∧ (hb = [] ∨ hb = [processing] ∨ hb = [processing; completed]))).
Proof.
  intros Hbody.
  unfold bind at 1 in Hbody. unfold Views.setattr at 1, modify at 1 in Hbody.
  unfold bind at 1 in Hbody.
  destruct (save_self_run (set_status processing r0) w0)
    as [[e He] | [w1 [He Hh1]]]; rewrite He in Hbody.
  { injection Hbody as <- <- <-. split; [done|]. exists [].
    rewrite app_nil_r. split; [done|]. right. split; [by exists e|by left]. }
  simpl in Hh1.
  unfold bind at 1 in Hbody.
  destruct (lift_run (Parser.init E None) (set_status processing r0) w1)
    as (res2 & w2 & He2 & Hm2); rewrite He2 in Hbody.
  apply (quiet_init E (pk r0)) in Hm2.
  destruct res2 as [parser|e].
  2:{ injection Hbody as <- <- <-. split; [done|]. exists [processing].
      split; [congruence|]. right. split; [by exists e|]. right. by left. }
  unfold bind at 1 in Hbody. unfold Views.self at 1 in Hbody. cbn [fst] in Hbody.
  unfold bind at 1 in Hbody.
  match type of Hbody with
  | context [Views.lift ?m (?rc, ?wc)] =>
      destruct (lift_run m rc wc) as (res3 & w3 & He3 & Hm3); rewrite He3 in Hbody
  end.
  apply (quiet_parse_resume E (pk r0)) in Hm3.
  destruct res3 as [d|e].
  2:{ injection Hbody as <- <- <-. split; [done|]. exists [processing].
      split; [congruence|]. right. split; [by exists e|]. right. by left. }
  do 3 (unfold bind at 1 in Hbody;
        unfold Views.setattr at 1, modify at 1 in Hbody).
  unfold bind at 1 in Hbody.
  set (rd := set_experience_years _ _) in Hbody.
  assert (∃ rc, pk rc = pk r0 ∧
            (let (r, s') := Views.save_self E (set_status completed rc, w3) in
             match r with
             | Py.Ok _ =>
                 (let* u := Views.lift (Views.related_user (user (set_status processing r0))) in
                  let* u0 := Views.lift (Views._update_user_profile E u d) in
                  Views.lift (Views._calculate_profile_completion E u0)) s'
             | Py.Raise e => (Py.Raise e, s')
             end) = (resb, (rb, wb))) as (rc & Hpk & Hrest).
  { destruct (Py.truthy _).
    - exists (set_education_level
                (Some (Views.education_label (Py.dict_get d "education" (Py.PList []))))
                rd).
      split; [done|]. exact Hbody.
    - exists rd. split; [done|]. exact Hbody. }
  clear Hbody.
  destruct (save_self_run (set_status completed rc) w3)
    as [[e He4] | [w4 [He4 Hh4]]]; rewrite He4 in Hrest.
  { injection Hrest as <- <- <-. split; [done|]. exists [processing].
    split; [congruence|]. right. split; [by exists e|]. right. by left. }
  simpl in Hh4. rewrite Hpk in Hh4.
  assert (status_history (pk r0) (log w4)
          = status_history (pk r0) (log w0) ++ [processing; completed]) as Hh.
  { rewrite Hh4, Hm3, Hm2, Hh1. by rewrite <- app_assoc. }
  clear Hh4 Hm3 Hm2 Hh1 He He2 He3 He4.
  unfold bind at 1 in Hrest.
  match type of Hrest with
  | context [Views.lift ?m (?rc, ?wc)] =>
      destruct (lift_run m rc wc) as (res5 & w5 & He5 & Hm5); rewrite He5 in Hrest
  end.
  apply (quiet_related_user (pk r0)) in Hm5.
  destruct res5 as [u|e].
  2:{ injection Hrest as <- <- <-. split; [done|]. exists [processing; completed].
      split; [congruence|]. right. split; [by exists e|]. right. by right. }
  unfold bind at 1 in Hrest.
  match type of Hrest with
  | context [Views.lift ?m (?rc, ?wc)] =>
      destruct (lift_run m rc wc) as (res6 & w6 & He6 & Hm6); rewrite He6 in Hrest
  end.
  apply (quiet_update_user_profile E (pk r0)) in Hm6.
  destruct res6 as [u'|e].
  2:{ injection Hrest as <- <- <-. split; [done|]. exists [processing; completed].
      split; [congruence|]. right. split; [by exists e|]. right. by right. }
  match type of Hrest with
  | context [Views.lift ?m (?rc, ?wc)] =>
      destruct (lift_run m rc wc) as (res7 & w7 & He7 & Hm7); rewrite He7 in Hrest
  end.
  apply (quiet_calculate E (pk r0)) in Hm7.
  injection Hrest as <- <- <-. split; [done|]. exists [processing; completed].
  split; [congruence|].
  destruct res7 as [[]|e].
  - left. done.
  - right. split; [by exists e|]. right. by right.
Qed.

(** Every run of [_process_resume] stores, for its record, one of six
    sequences of statuses; none of them contains pending, and a run that
    returns stores processing then completed. *)
Lemma process_status_history r0 w0 res r w :
  Views._process_resume E (r0, w0) = (res, (r, w)) →
  ∃ h, status_history (pk r0) (log w) = status_history (pk r0) (log w0) ++ h
       ∧ h ∈ process_histories
       ∧ (pending ∉ h)
       ∧ (res = Py.Ok () → h = [processing; completed] ∧ status r = completed).
Proof.
  unfold Views._process_resume, try_except.
  destruct (bind _ _ (r0, w0)) as [resb [rb wb]] eqn:Hbody.
  apply process_body_run in Hbody as (Hpk & hb & Hh & Hcases).
  assert (∀ h : list Status, h ∈ process_histories → pending ∉ h) as Hnp.
  { intros h Hin Hp. unfold process_histories in Hin.
    repeat (apply elem_of_cons in Hin as [->|Hin];
            [by repeat (apply elem_of_cons in Hp as [?|Hp]; [done|]);
                apply elem_of_nil in Hp|]).
    by apply elem_of_nil in Hin. }
  destruct Hcases as [(-> & -> & Hst) | ((e & ->) & Hhb)].
  - intros [= <- <- <-]. exists [processing; completed].
    split; [done|]. split; [|split; [|done]].
    + unfold process_histories. do 4 right. left.
    + apply Hnp. unfold process_histories. do 4 right. left.
  - do 2 (unfold bind at 1; unfold Views.setattr at 1, modify at 1).
    unfold bind at 1.
    match goal with
    | |- context [Views.save_self E (?rc, ?wc)] =>
        destruct (save_self_run rc wc) as [[e' He] | [w' [He Hh']]]; rewrite He
    end.
    + intros [= <- <- <-]. exists hb. split; [done|].
      assert (hb ∈ process_histories) as Hin.
      { unfold process_histories.
        destruct Hhb as [->|[->| ->]];
          [left|do 2 right; left|do 4 right; left]. }
      split; [done|]. split; [by apply Hnp|done].
    + unfold raise. intros [= <- <- <-]. simpl in Hh'. rewrite Hpk in Hh'.
      exists (hb ++ [failed]). split; [by rewrite Hh', Hh, <- app_assoc|].
      assert (hb ++ [failed] ∈ process_histories) as Hin.
      { unfold process_histories.
        destruct Hhb as [->|[->| ->]]; simpl;
          [right; left|do 3 right; left|do 5 right; left]. }
      split; [done|]. split; [by apply Hnp|done].
Qed.

End ProcessHistories.

(** ** Claims about the record lifecycle *)

Section Lifecycle.
Import Models Sys Spec Schemas.

(** C2 fails on the code.  The steps that follow the completion of a
    record (profile auto-fill, profile completion) run inside the same
    [try] block: when one of them raises, the handler sets the record,
    already stored as completed, to failed.  Here the extracted name starts
    with a word of 256 letters, the user has no name yet, and the database
    refuses a first name above 255 characters: the statuses stored are
    processing, completed, failed, which the state machine does not
    permit.  (No run returns a record to pending, see
    [process_status_history].) *)
Theorem C2_completed_record_is_set_to_failed :
  let E := Scenario.env_of
             (Scenario.simple_answer (Scenario.letters 256 +:+ " Lovelace")
                (Value ["Python"]) Absent)
             (Scenario.rich_answer Absent Absent)
             Scenario.enforce_name_length in
  ∃ r w,
    Views._process_resume E
      (Scenario.uploaded, Scenario.world_of Scenario.anonymous)
    = (Py.Raise (Py.LibraryError "value too long for type character varying(255)"),
       (r, w))
    ∧ status_history 1 (log w) = [processing; completed; failed]
    ∧ ¬ follows pending (status_history 1 (log w))
    ∧ ¬ transition completed failed
    ∧ (status <$> stored_resume 1 w) = Some failed.
Proof.
  eexists _, _. split; [vm_compute; reflexivity|].
  assert (¬ transition completed failed) as Hno by (intros H; inversion H).
  split; [vm_compute; reflexivity|]. split; [|split; [exact Hno|]].
  - intros (_ & _ & H & _). by apply Hno.
  - vm_compute. reflexivity.
Qed.

(** The default of [.get] is never used: the key is always there. *)
Lemma experience_default_unused (x : SimpleResumeParsedSchema.t) :
  Py.dict_get (SimpleResumeParsedSchema.to_dict x) "total_experience_years"
    (Py.PInt 0)
  = Py.of_opt_int (SimpleResumeParsedSchema.total_experience_years x).
Proof. reflexivity. Qed.

(** C4 fails on the code.  The dictionary made by [.dict()] always has
    the key [total_experience_years], with value [None] when nothing was
    extracted, so the default 0 of [.get] is never used: the completed
    record stores a null experience. *)
Theorem C4_absent_experience_is_stored_as_null :
  let E := Scenario.env_of
             (Scenario.simple_answer "Ada Lovelace" (Value ["Python"]) Absent)
             (Scenario.rich_answer Absent Absent) Scenario.accept_all in
  ∃ r w,
    Views._process_resume E (Scenario.uploaded, Scenario.world_of Scenario.ada)
    = (Py.Ok (), (r, w))
    ∧ stored_resume 1 w = Some r
    ∧ status r = completed
    ∧ Py.dict_lookup (parsed_data r) "total_experience_years" = Some Py.PNone
    ∧ experience_years r = None
    ∧ experience_years r ≠ Some 0%Z.
Proof.
  eexists _, _. split; [vm_compute; reflexivity|].
  vm_compute. repeat split; done.
Qed.

End Lifecycle.


(** ** Claims about applications *)

Section Applications.
Import Models Sys Spec Schemas.

Lemma fresh_application_id_new w :
  Views.fresh_application_id w ∉ application_id <$> applications w.
Proof.
  unfold Views.fresh_application_id.
  assert (∀ (l : list nat) (n : nat), n ∈ l → (n ≤ foldr Nat.max 0 l)%nat) as Hmax.
  { induction l as [|m l IH]; intros n Hn; [by apply elem_of_nil in Hn|].
    simpl. apply elem_of_cons in Hn as [->|Hn]; [lia|].
    specialize (IH n Hn). lia. }
  intros Hin. apply Hmax in Hin. lia.
Qed.

Lemma upsert_row_new {A} (key : A → nat) x rows :
  key x ∉ key <$> rows → upsert_row key x rows = rows ++ [x].
Proof. intros H. unfold upsert_row. by rewrite bool_decide_eq_false_2. Qed.

Lemma upsert_row_last {A} (key : A → nat) x y rows :
  key x ∉ key <$> rows → key y = key x →
  upsert_row key y (rows ++ [x]) = rows ++ [y].
Proof.
  intros Hnew Hkey. unfold upsert_row. rewrite bool_decide_eq_true_2.
  - rewrite fmap_app. simpl. rewrite bool_decide_eq_true_2 by done.
    f_equal. rewrite Hkey. clear Hkey.
    induction rows as [|z rows IH]; [done|].
    rewrite fmap_cons in Hnew. apply not_elem_of_cons in Hnew as [Hz Hnew].
    simpl. rewrite bool_decide_eq_false_2 by done. f_equal. by apply IH.
  - rewrite fmap_app, Hkey. apply elem_of_app. right. simpl. left.
Qed.

Lemma apply_job_files E req slug_ w j r :
  files_application E req slug_ w j r →
  ∃ w', Views.apply_job E req slug_ w
        = (Py.Ok (Views.Redirect "resumes:my_applications"), w')
        ∧ applications w' = applications w ++ [filed w j req r]
        ∧ resumes w' = resumes w.
Proof.
  intros [Hjob Hrole Hfirst Hpost (id & Hid & Hres) Hdb].
  unfold Views.apply_job.
  rewrite (bind_run_ok _ _ _ _ _ Hjob).
  rewrite Hrole. rewrite bool_decide_eq_false_2 by (by intros H; apply H).
  unfold Views.query at 1. unfold bind at 1. rewrite Hfirst. cbn [Py.truthy_list].
  rewrite Hpost, Hid.
  unfold bind at 1. unfold bind at 1. rewrite Hres. unfold ret at 1.
  unfold bind at 1. unfold Views.query at 1.
  unfold bind at 1. unfold Views.db_write at 1. rewrite Hdb.
  fold (new_application w j req (Some r)).
  set (a0 := new_application w j req (Some r)).
  assert (application_id a0 ∉ application_id <$> applications w) as Hnew
    by apply fresh_application_id_new.
  unfold filed. fold a0.
  destruct (Py.truthy_list (skills r)).
  - unfold bind, Views.db_write, ret. rewrite !Hdb.
    eexists. split; [reflexivity|]. split; [|reflexivity].
    cbn. rewrite (upsert_row_new _ _ _ Hnew).
    by apply upsert_row_last.
  - unfold bind, Views.db_write, ret. rewrite !Hdb.
    eexists. split; [reflexivity|]. split; [|reflexivity].
    cbn. by rewrite (upsert_row_new _ _ _ Hnew).
Qed.

Lemma with_match_data_sets (sk required : list string) a :
  let a' := Views.with_match_data sk required a in
  (∀ s, s ∈ matching_skills a' ↔ s ∈ sk ∧ s ∈ required)
  ∧ NoDup (matching_skills a')
  ∧ (∀ s, s ∈ missing_skills a' ↔ s ∈ required ∧ s ∉ matching_skills a')
  ∧ NoDup (missing_skills a').
Proof.
  cbn. split; [|split; [apply NoDup_elements|split; [|apply NoDup_elements]]].
  - intros s. rewrite elem_of_elements, elem_of_intersection.
    by rewrite !elem_of_list_to_set.
  - intros s. rewrite !elem_of_elements, elem_of_difference, elem_of_intersection.
    rewrite !elem_of_list_to_set. tauto.
Qed.

(** For every ratio with at most 200 required skills the score the code
    computes is the float of a number of hundredths nearest to the exact
    ratio. *)
Lemma score_is_nearest_upto_200 :
  forallb (λ r, forallb (λ m, score_is_nearest m r) (seq 0 (S r)))
    (seq 1 200) = true.
Proof. vm_compute. reflexivity. Qed.

Lemma computed_score_is_nearest (m r : nat) :
  (m ≤ r)%nat → (1 ≤ r ≤ 200)%nat →
  nearest_score m r
    (Py.round2 (Py.float_of_nat m / Py.float_of_nat r * 100)%float).
Proof.
  intros Hm Hr.
  pose proof score_is_nearest_upto_200 as Hall.
  rewrite List.forallb_forall in Hall.
  specialize (Hall r ltac:(apply List.in_seq; lia)).
  rewrite List.forallb_forall in Hall.
  specialize (Hall m ltac:(apply List.in_seq; lia)).
  unfold score_is_nearest in Hall.
  apply List.existsb_exists in Hall as (n & _ & Hn).
  apply andb_prop in Hn as [Hh Heq].
  apply bool_decide_eq_true in Hh. apply FloatAxioms.Leibniz.eqb_spec in Heq.
  by exists n.
Qed.

(** There are no more matching skills than required skills. *)
Lemma matching_at_most_required (sk required : list string) a :
  (length (matching_skills (Views.with_match_data sk required a))
   ≤ length required)%nat.
Proof.
  cbn. apply submseteq_length, NoDup_submseteq; [apply NoDup_elements|].
  intros x. rewrite elem_of_elements, elem_of_intersection.
  rewrite !elem_of_list_to_set. tauto.
Qed.

(** C5, as the code has it.  When a candidate files an application with a
    completed resume whose skill list is not empty, the stored application
    has: as matching skills the
    skills that are both in the resume's list and in the job's required
    list, each once; as missing skills the required skills that are not
    matching, each once; and as match score the float
    [round(len(matching) / len(required) * 100, 2)] when the required
    list is not empty, and 0 when it is.  For up to 200 required skills
    that float is the float of a whole number of hundredths nearest to
    the exact ratio [100 * len(matching) / len(required)]; where the
    exact ratio lies half-way between two hundredths, either of them may
    be stored.  Skills Python, SQL, Go against required skills Python,
    Go, Rust give matching Python and Go, missing Rust and the score
    66.67. *)
Theorem C5_match_data :
  (∀ E req slug_ w j r,
     files_application E req slug_ w j r →
     skills r ≠ [] →
     ∃ w' a,
       Views.apply_job E req slug_ w
       = (Py.Ok (Views.Redirect "resumes:my_applications"), w')
       ∧ applications w' = applications w ++ [a]
       ∧ (∀ s, s ∈ matching_skills a ↔ s ∈ skills r ∧ s ∈ required_skills j)
       ∧ NoDup (matching_skills a)
       ∧ (∀ s, s ∈ missing_skills a
               ↔ s ∈ required_skills j ∧ s ∉ matching_skills a)
       ∧ NoDup (missing_skills a)
       ∧ (required_skills j ≠ [] →
          match_score a
          = Some (Py.round2
                    (Py.float_of_nat (length (matching_skills a))
                     / Py.float_of_nat (length (required_skills j)) * 100)%float))
       ∧ (required_skills j = [] → match_score a = Some 0%float)
       ∧ (required_skills j ≠ [] → (length (required_skills j) ≤ 200)%nat →
          ∃ s, match_score a = Some s
               ∧ nearest_score (length (matching_skills a))
                   (length (required_skills j)) s))
  ∧ (∃ w' a,
       Views.apply_job
         (Scenario.env_of (Scenario.simple_answer "Ada Lovelace" Absent Absent)
            (Scenario.rich_answer Absent Absent) Scenario.accept_all)
         (Scenario.form (Some 1)) "programmer-analytical-engines"
         (Scenario.world_applying
            [Scenario.completed_resume 1 ["Python"; "SQL"; "Go"]]
            (Scenario.posting ["Python"; "Go"; "Rust"]))
       = (Py.Ok (Views.Redirect "resumes:my_applications"), w')
       ∧ applications w' = [a]
       ∧ matching_skills a ≡ₚ ["Python"; "Go"]
       ∧ missing_skills a = ["Rust"]
       ∧ match_score a = Some 66.67%float).
Proof.
  split.
  - intros E req slug_ w j r Hfiles Hskills.
    destruct (apply_job_files _ _ _ _ _ _ Hfiles) as (w' & Hrun & Happs & _).
    exists w', (filed w j req r). split; [done|]. split; [done|].
    unfold filed. destruct (skills r) as [|s0 sk] eqn:Hsk; [done|].
    cbn [Py.truthy_list]. rewrite <- Hsk. clear Hsk Hskills.
    destruct (with_match_data_sets (skills r) (required_skills j)
                (new_application w j req (Some r))) as (H1 & H2 & H3 & H4).
    pose proof (matching_at_most_required (skills r) (required_skills j)
                  (new_application w j req (Some r))) as Hle.
    do 4 (split; [done|]).
    assert (required_skills j ≠ [] →
            match_score (Views.with_match_data (skills r) (required_skills j)
                           (new_application w j req (Some r)))
            = Some (Py.round2
                      (Py.float_of_nat
                         (length (matching_skills
                                    (Views.with_match_data (skills r)
                                       (required_skills j)
                                       (new_application w j req (Some r)))))
                       / Py.float_of_nat (length (required_skills j)) * 100)%float))
      as Hscore.
    { intros Hreq. cbn. by destruct (required_skills j). }
    split; [exact Hscore|]. split.
    + intros ->. reflexivity.
    + intros Hreq Hlen. eexists. split; [by apply Hscore|].
      apply computed_score_is_nearest; [done|].
      split; [|done]. destruct (required_skills j); [done|simpl; lia].
  - eexists _, _. split; [vm_compute; reflexivity|].
    split; [reflexivity|]. split; [apply perm_swap|]. split; reflexivity.
Qed.

(** The general statement at the scenario of the specification. *)
Lemma C5_witness :
  ∃ w' a,
    Views.apply_job
      (Scenario.env_of (Scenario.simple_answer "Ada Lovelace" Absent Absent)
         (Scenario.rich_answer Absent Absent) Scenario.accept_all)
      (Scenario.form (Some 1)) "programmer-analytical-engines"
      (Scenario.world_applying
         [Scenario.completed_resume 1 ["Python"; "SQL"; "Go"]]
         (Scenario.posting ["Python"; "Go"; "Rust"]))
    = (Py.Ok (Views.Redirect "resumes:my_applications"), w')
    ∧ (∀ s, s ∈ matching_skills a
            ↔ s ∈ ["Python"; "SQL"; "Go"] ∧ s ∈ ["Python"; "Go"; "Rust"])
    ∧ match_score a
      = Some (Py.round2
                (Py.float_of_nat (length (matching_skills a))
                 / Py.float_of_nat 3 * 100)%float)
    ∧ ∃ s, match_score a = Some s
           ∧ nearest_score (length (matching_skills a)) 3 s.
Proof.
  assert (files_application
            (Scenario.env_of (Scenario.simple_answer "Ada Lovelace" Absent Absent)
               (Scenario.rich_answer Absent Absent) Scenario.accept_all)
            (Scenario.form (Some 1)) "programmer-analytical-engines"
            (Scenario.world_applying
               [Scenario.completed_resume 1 ["Python"; "SQL"; "Go"]]
               (Scenario.posting ["Python"; "Go"; "Rust"]))
            (Scenario.posting ["Python"; "Go"; "Rust"])
            (Scenario.completed_resume 1 ["Python"; "SQL"; "Go"])) as Hfiles.
  { split; try reflexivity. exists 1. split; reflexivity. }
  destruct (proj1 C5_match_data _ _ _ _ _ _ Hfiles)
    as (w' & a & Hrun & _ & Hmatch & _ & _ & _ & Hscore & _ & Hnear); [done|].
  exists w', a. split; [exact Hrun|]. split; [exact Hmatch|].
  split; [by apply Hscore|]. apply Hnear; [done|simpl; lia].
Defined.

(** C5 as stated fails where the exact ratio lies half-way between two
    hundredths.  With 23 matching among 160 required skills the exact
    ratio is 14.375, which rounds to 14.38 hundredths whether ties go to
    the even hundredth or upwards; the code divides and multiplies in
    binary floating point, gets a value just below 14.375 and stores
    14.37. *)
Lemma C5_counterexample :
  ∃ w' a,
    Views.apply_job
      (Scenario.env_of (Scenario.simple_answer "Ada Lovelace" Absent Absent)
         (Scenario.rich_answer Absent Absent) Scenario.accept_all)
      (Scenario.form (Some 1)) "programmer-analytical-engines"
      (Scenario.world_applying
         [Scenario.completed_resume 1 (Cases.numbered_skills 23)]
         (Scenario.posting (Cases.numbered_skills 160)))
    = (Py.Ok (Views.Redirect "resumes:my_applications"), w')
    ∧ applications w' = [a]
    ∧ length (matching_skills a) = 23
    ∧ length (Cases.numbered_skills 160) = 160
    ∧ exact_half_even 23 160 = 1438%Z
    ∧ exact_half_up 23 160 = 1438%Z
    ∧ of_hundredths 1438 = 14.38%float
    ∧ match_score a = Some 14.37%float
    ∧ match_score a = Some (of_hundredths 1437)
    ∧ match_score a ≠ Some (of_hundredths 1438).
Proof.
  eexists _, _. split; [vm_compute; reflexivity|].
  split; [reflexivity|]. split; [vm_compute; reflexivity|].
  split; [vm_compute; reflexivity|]. split; [vm_compute; reflexivity|].
  split; [vm_compute; reflexivity|]. split; [vm_compute; reflexivity|].
  split; [vm_compute; reflexivity|]. split; [vm_compute; reflexivity|].
  intros H.
  apply (f_equal (λ o, match o with
                       | Some s => PrimFloat.Leibniz.eqb s (of_hundredths 1438)
                       | None => false
                       end)) in H.
  vm_compute in H. discriminate H.
Qed.

(** C10.  When a candidate files an application with a selected completed
    resume, the application is stored with that resume; if the resume's
    skill list is empty the stored application has a null match score and
    empty matching and missing lists, whatever the job requires; and a
    stored match score that is not null means the skill list was not
    empty. *)
Theorem C10_no_match_data_without_skills E req slug_ w j r :
  files_application E req slug_ w j r →
  ∃ w' a,
    Views.apply_job E req slug_ w
    = (Py.Ok (Views.Redirect "resumes:my_applications"), w')
    ∧ applications w' = applications w ++ [a]
    ∧ resume a = Some (pk r)
    ∧ (skills r = [] →
       match_score a = None ∧ matching_skills a = [] ∧ missing_skills a = [])
    ∧ (match_score a ≠ None → skills r ≠ []).
Proof.
  intros Hfiles.
  destruct (apply_job_files _ _ _ _ _ _ Hfiles) as (w' & Hrun & Happs & _).
  exists w', (filed w j req r). split; [done|]. split; [done|].
  unfold filed. destruct (skills r) as [|s0 sk]; cbn [Py.truthy_list].
  - split; [done|]. split; [done|]. intros H. by destruct H.
  - split; [done|]. split; [done|]. done.
Qed.

(** A resume without skills against a job that requires three. *)
Lemma C10_witness :
  ∃ w' a,
    Views.apply_job
      (Scenario.env_of (Scenario.simple_answer "Ada Lovelace" Absent Absent)
         (Scenario.rich_answer Absent Absent) Scenario.accept_all)
      (Scenario.form (Some 1)) "programmer-analytical-engines"
      (Scenario.world_applying [Scenario.completed_resume 1 []]
         (Scenario.posting ["Python"; "Go"; "Rust"]))
    = (Py.Ok (Views.Redirect "resumes:my_applications"), w')
    ∧ applications w' = [a]
    ∧ match_score a = None ∧ matching_skills a = [] ∧ missing_skills a = [].
Proof.
  assert (files_application
            (Scenario.env_of (Scenario.simple_answer "Ada Lovelace" Absent Absent)
               (Scenario.rich_answer Absent Absent) Scenario.accept_all)
            (Scenario.form (Some 1)) "programmer-analytical-engines"
            (Scenario.world_applying [Scenario.completed_resume 1 []]
               (Scenario.posting ["Python"; "Go"; "Rust"]))
            (Scenario.posting ["Python"; "Go"; "Rust"])
            (Scenario.completed_resume 1 [])) as Hfiles.
  { split; try reflexivity. exists 1. split; reflexivity. }
  destruct (C10_no_match_data_without_skills _ _ _ _ _ _ Hfiles)
    as (w' & a & Hrun & Happs & _ & Hnone & _).
  exists w', a. split; [exact Hrun|]. split; [exact Happs|].
  apply Hnone. reflexivity.
Defined.

End Applications.

(** * Further properties of the code *)

(** ** Text extraction and the parser *)

Section MoreStrings.
Import Spec.

Lemma lstrip_fixed (t : string) :
  (∀ c, first_char t = Some c → Py.isspace c = false) → Py.lstrip t = t.
Proof.
  destruct t as [|c t]; [done|]. simpl. intros H. by rewrite (H c).
Qed.

Lemma rstrip_fixed (t : string) :
  (∀ c, last_char t = Some c → Py.isspace c = false) → Py.rstrip t = t.
Proof.
  induction t as [|c t IH]; [done|]. intros H. simpl.
  destruct t as [|d t].
  - simpl. by rewrite (H c).
  - rewrite IH; [done|]. intros c' Hc'. apply H. exact Hc'.
Qed.

Lemma strip_idempotent (s : string) : Py.strip (Py.strip s) = Py.strip s.
Proof.
  destruct (strip_trimmed s) as (_ & Hfirst & Hlast).
  unfold Py.strip at 1. rewrite (lstrip_fixed _ Hfirst).
  by apply rstrip_fixed.
Qed.

Lemma length_prefix (n : nat) (s : string) :
  (String.length (Py.prefix n s) ≤ n)%nat.
Proof.
  unfold Py.prefix. revert s. induction n as [|n IH]; intros [|c s]; simpl;
    try lia. specialize (IH s). lia.
Qed.

Lemma prefix_is_prefix (n : nat) (s : string) :
  ∃ rest, s = Py.prefix n s +:+ rest.
Proof.
  unfold Py.prefix. revert s. induction n as [|n IH]; intros [|c s]; simpl.
  - by exists "".
  - by exists (String c s).
  - by exists "".
  - destruct (IH s) as [rest Hrest]. exists rest.
    rewrite append_cons. by f_equal.
Qed.

End MoreStrings.

Section Extraction.
Import Models Sys Spec Facts.

(** [extract_text] refuses every declared type other than pdf, docx and
    doc (compared without regard to letter case) with a [ValueError]
    that names the type, and opens no file. *)
Theorem extract_text_unsupported_type E fp ft w :
  Py.lower ft ∉ ["pdf"; "docx"; "doc"] →
  Parser.extract_text E fp ft w
  = (Py.Raise (Py.ValueError ("Unsupported file type: " +:+ ft)), w).
Proof.
  intros Hft. unfold Parser.extract_text.
  rewrite bool_decide_eq_false_2.
  - rewrite bool_decide_eq_false_2; [done|].
    intros Hin. apply Hft. by right.
  - intros Heq. apply Hft. rewrite Heq. left.
Qed.

Lemma extract_text_unsupported_type_witness :
  Parser.extract_text Scenario.blank_pdf_env "notes.TXT" "TXT"
    (Scenario.world_of Scenario.ada)
  = (Py.Raise (Py.ValueError "Unsupported file type: TXT"),
     Scenario.world_of Scenario.ada).
Proof.
  apply (extract_text_unsupported_type Scenario.blank_pdf_env "notes.TXT" "TXT"
           (Scenario.world_of Scenario.ada)).
  vm_compute. intros H. repeat (apply elem_of_cons in H as [H|H]; [done|]).
  by apply elem_of_nil in H.
Defined.

(** A text [extract_text] returns is a stripped text, of a supported
    type. *)
Lemma extract_text_ok_inv E fp ft w text w' :
  Parser.extract_text E fp ft w = (Py.Ok text, w') →
  (∃ s, text = Py.strip s) ∧ Py.lower ft ∈ ["pdf"; "docx"; "doc"].
Proof.
  intros Hrun.
  unfold Parser.extract_text, Parser.extract_text_from_pdf,
    Parser.extract_text_from_docx, bind, modify, ret, raise in Hrun.
  case_bool_decide as Hpdf; [|case_bool_decide as Hdoc; [|done]].
  - destruct (read_pdf E fp); [|done]. injection Hrun as <- _.
    split; [by eexists|]. rewrite Hpdf. left.
  - destruct (read_docx E fp); [|done]. injection Hrun as <- _.
    split; [by eexists|]. by right.
Qed.

Lemma extract_text_strip E fp ft w text w' :
  Parser.extract_text E fp ft w = (Py.Ok text, w') → Py.strip text = text.
Proof.
  intros [[s ->] _]%extract_text_ok_inv. apply strip_idempotent.
Qed.

(** X1.  The text [extract_text] returns has no surrounding whitespace: it is
    its own [strip], and it is blank only when it is empty. *)
Theorem extract_text_is_stripped E fp ft w text w' :
  Parser.extract_text E fp ft w = (Py.Ok text, w') →
  Py.strip text = text ∧ (all_space text = true → text = "").
Proof.
  intros Hrun.
  apply extract_text_ok_inv in Hrun as [[s ->] _].
  split; [apply strip_idempotent|].
  intros Hblank. apply strip_all_space in Hblank.
  by rewrite strip_idempotent in Hblank.
Qed.

Lemma extract_text_is_stripped_witness :
  ∃ text w',
    Parser.extract_text
      (Scenario.env_of (Scenario.simple_answer "Ada Lovelace" Schemas.Absent Schemas.Absent)
         (Scenario.rich_answer Schemas.Absent Schemas.Absent) Scenario.accept_all)
      "cv.pdf" "pdf" (Scenario.world_of Scenario.ada) = (Py.Ok text, w')
    ∧ Py.strip text = text.
Proof.
  destruct (Parser.extract_text
              (Scenario.env_of
                 (Scenario.simple_answer "Ada Lovelace" Schemas.Absent Schemas.Absent)
                 (Scenario.rich_answer Schemas.Absent Schemas.Absent)
                 Scenario.accept_all)
              "cv.pdf" "pdf" (Scenario.world_of Scenario.ada))
    as [[text|e] w'] eqn:Hrun; [|vm_compute in Hrun; discriminate].
  exists text, w'. split; [reflexivity|].
  exact (proj1 (extract_text_is_stripped _ _ _ _ _ _ Hrun)).
Defined.

(** X2.  When [extract_text] fails on a supported type, the error of the
    reader is wrapped: the exception is a plain [Exception] whose message
    is the reader's message after "Error reading PDF: " or "Error reading
    DOCX: "; the only other failure is the [ValueError] of an unsupported
    type. *)
Theorem extract_text_wraps_reader_errors E fp ft w e w' :
  Parser.extract_text E fp ft w = (Py.Raise e, w') →
((Py.lower ft ∉ ["pdf"; "docx"; "doc"])
   ∧ e = Py.ValueError ("Unsupported file type: " +:+ ft) ∧ w' = w)
  ∨ (∃ e0, Py.lower ft = "pdf" ∧ read_pdf E fp = Py.Raise e0
           ∧ e = Py.Exception ("Error reading PDF: " +:+ Py.str_exn e0)
           ∧ w' = logged [FileRead fp] w)
  ∨ (∃ e0, (Py.lower ft ∈ ["docx"; "doc"]) ∧ read_docx E fp = Py.Raise e0
           ∧ e = Py.Exception ("Error reading DOCX: " +:+ Py.str_exn e0)
           ∧ w' = logged [FileRead fp] w).
Proof.
  unfold Parser.extract_text, Parser.extract_text_from_pdf,
    Parser.extract_text_from_docx, bind, modify, ret, raise.
  repeat case_bool_decide.
  - destruct (read_pdf E fp) as [|e0] eqn:Hread; [done|].
    intros [= <- <-]. right. left. by exists e0.
  - destruct (read_docx E fp) as [|e0] eqn:Hread; [done|].
    intros [= <- <-]. right. right. by exists e0.
  - intros [= <- <-]. left. split; [|done].
    intros Hin. apply elem_of_cons in Hin as [Hin|Hin]; done.
Qed.

Lemma extract_text_wraps_reader_errors_witness :
  ∃ e w',
    Parser.extract_text Scenario.blank_pdf_env "cv.docx" "docx"
      (Scenario.world_of Scenario.ada) = (Py.Raise e, w')
    ∧ e = Py.Exception "Error reading DOCX: Package not found".
Proof.
  eexists _, _. split; [reflexivity|].
  destruct (extract_text_wraps_reader_errors Scenario.blank_pdf_env "cv.docx"
              "docx" (Scenario.world_of Scenario.ada) _ _ eq_refl)
    as [(Hno & _) | [(e0 & Hpdf & _) | (e0 & _ & Hread & He & _)]].
  - exfalso. apply Hno. vm_compute. right. left.
  - vm_compute in Hpdf. discriminate.
  - vm_compute in Hread. injection Hread as <-. exact He.
Defined.

End Extraction.

Section ParserEffects.
Import Models Sys Spec Facts.

Lemma logged_nil w : logged [] w = w.
Proof. destruct w. unfold logged. simpl. by rewrite app_nil_r. Qed.

Lemma logged_logged l1 l2 w : logged l2 (logged l1 w) = logged (l1 ++ l2) w.
Proof. unfold logged. simpl. by rewrite app_assoc. Qed.

Lemma add_log_logged e l w : add_log e (logged l w) = logged (l ++ [e]) w.
Proof. unfold add_log, logged. simpl. by rewrite app_assoc. Qed.

(** What [extract_text] does to the world: it opens the file, once, when
    the type is supported, and nothing else. *)
Lemma extract_text_effect E fp ft w :
  snd (Parser.extract_text E fp ft w)
  = if bool_decide (Py.lower ft ∈ ["pdf"; "docx"; "doc"])
    then logged [FileRead fp] w else w.
Proof.
  unfold Parser.extract_text, Parser.extract_text_from_pdf,
    Parser.extract_text_from_docx, bind, modify, ret, raise.
  destruct (decide (Py.lower ft = "pdf")) as [Hpdf|Hpdf].
  - rewrite (bool_decide_eq_true_2 _ Hpdf). rewrite Hpdf.
    rewrite bool_decide_eq_true_2 by left.
    by destruct (read_pdf E fp).
  - rewrite (bool_decide_eq_false_2 _ Hpdf).
    destruct (decide (Py.lower ft ∈ ["docx"; "doc"])) as [Hdoc|Hdoc].
    + rewrite (bool_decide_eq_true_2 _ Hdoc).
      rewrite bool_decide_eq_true_2 by (by right).
      by destruct (read_docx E fp).
    + rewrite (bool_decide_eq_false_2 _ Hdoc).
      rewrite bool_decide_eq_false_2; [done|].
      intros [?|?]%elem_of_cons; done.
Qed.

(** X3.  One call of [parse_resume] is a single attempt: it opens at most the
    one file, calls the model at most once, after the file was read, and
    leaves every table of the database as it was; when it returns a
    result, it has read the file and called the model exactly once. *)
Theorem parse_resume_single_attempt E self fp ft use_simple w :
  ∃ l,
    snd (Parser.parse_resume E self fp ft use_simple w) = logged l w
    ∧ (l = [] ∨ l = [FileRead fp]
       ∨ ∃ text, l = [FileRead fp; LlmInvoke use_simple text])
    ∧ (∀ d, fst (Parser.parse_resume E self fp ft use_simple w) = Py.Ok d →
         ∃ text, l = [FileRead fp; LlmInvoke use_simple text]).
Proof.
  unfold Parser.parse_resume, bind.
  pose proof (extract_text_effect E fp ft w) as Heff.
  destruct (Parser.extract_text E fp ft w) as [[text|e] w1] eqn:Hext.
  - simpl in Heff.
    assert (w1 = logged [FileRead fp] w) as ->.
    { case_bool_decide as Hft; [done|].
      by apply extract_text_ok_inv in Hext as [_ Hin]. }
    destruct (negb _).
    + exists [FileRead fp]. split; [done|]. split; [by right; left|done].
    + unfold modify, of_result, try_except, raise.
      exists [FileRead fp; LlmInvoke use_simple text].
      split; [|split; [right; right; by exists text|intros; by exists text]].
      rewrite add_log_logged.
      destruct (llm_answer E use_simple text) as [content|e]; [|done].
      by destruct (Parser.parse_output E use_simple content).
  - simpl in Heff. simpl. case_bool_decide.
    + exists [FileRead fp]. split; [done|]. split; [by right; left|done].
    + exists []. rewrite logged_nil. split; [done|]. split; [by left|done].
Qed.

(** X4.  An error of the model service leaves [parse_resume] as it is, without
    wrapping, after the one call. *)
Theorem parse_resume_model_error_unwrapped E self fp ft use_simple w text w1 e :
  Parser.extract_text E fp ft w = (Py.Ok text, w1) →
  text ≠ "" →
  llm_answer E use_simple text = Py.Raise e →
  Parser.parse_resume E self fp ft use_simple w
  = (Py.Raise e, logged [LlmInvoke use_simple text] w1).
Proof.
  intros Hext Htext Hllm. unfold Parser.parse_resume.
  rewrite (bind_run_ok _ _ _ _ _ Hext).
  rewrite (extract_text_strip _ _ _ _ _ _ Hext). unfold Py.truthy_str. rewrite bool_decide_eq_true_2 by done.
  simpl. unfold bind, modify, of_result. by rewrite Hllm.
Qed.

(** X5.  An answer the output parser rejects makes [parse_resume] raise a
    plain [Exception]; its message gives the parser's diagnostic and,
    after "Response: ", the beginning of the answer, at most 500
    characters of it. *)
Theorem parse_resume_wraps_output_error E self fp ft use_simple w text w1
    content e :
  Parser.extract_text E fp ft w = (Py.Ok text, w1) →
  text ≠ "" →
  llm_answer E use_simple text = Py.Ok content →
  Parser.parse_output E use_simple content = Py.Raise e →
  ∃ excerpt rest,
    Parser.parse_resume E self fp ft use_simple w
    = (Py.Raise (Py.Exception
         ("Error parsing LLM response: " +:+ Py.str_exn e +:+ Py.nl +:+ Py.nl
          +:+ "Response: " +:+ excerpt)),
       logged [LlmInvoke use_simple text] w1)
    ∧ content = excerpt +:+ rest
    ∧ (String.length excerpt ≤ 500)%nat.
Proof.
  intros Hext Htext Hllm Hout.
  destruct (prefix_is_prefix 500 content) as [rest Hrest].
  exists (Py.prefix 500 content), rest.
  split; [|split; [exact Hrest|apply length_prefix]].
  unfold Parser.parse_resume.
  rewrite (bind_run_ok _ _ _ _ _ Hext).
  rewrite (extract_text_strip _ _ _ _ _ _ Hext). unfold Py.truthy_str. rewrite bool_decide_eq_true_2 by done.
  simpl. unfold bind, modify, of_result, try_except, raise.
  by rewrite Hllm, Hout.
Qed.

Lemma parse_resume_model_error_unwrapped_witness :
  Parser.parse_resume Cases.llm_down_env
    {| Parser.api_key := Some "gsk_configured" |} "cv.pdf" "pdf" true
    (Scenario.world_of Scenario.ada)
  = (Py.Raise (Py.LibraryError "Connection error."),
     logged [LlmInvoke true "Ada Lovelace"]
       (logged [FileRead "cv.pdf"] (Scenario.world_of Scenario.ada))).
Proof.
  apply (parse_resume_model_error_unwrapped Cases.llm_down_env _ "cv.pdf" "pdf"
           true (Scenario.world_of Scenario.ada) "Ada Lovelace");
    [reflexivity|done|reflexivity].
Defined.

Lemma parse_resume_wraps_output_error_witness :
  ∃ excerpt rest,
    Parser.parse_resume Cases.prose_env
      {| Parser.api_key := Some "gsk_configured" |} "cv.pdf" "pdf" true
      (Scenario.world_of Scenario.ada)
    = (Py.Raise (Py.Exception
         ("Error parsing LLM response: " +:+ "Invalid json output" +:+ Py.nl
          +:+ Py.nl +:+ "Response: " +:+ excerpt)),
       logged [LlmInvoke true "Ada Lovelace"]
         (logged [FileRead "cv.pdf"] (Scenario.world_of Scenario.ada)))
    ∧ "Here is the parsed resume you asked for." = excerpt +:+ rest
    ∧ (String.length excerpt ≤ 500)%nat.
Proof.
  apply (parse_resume_wraps_output_error Cases.prose_env _ "cv.pdf" "pdf" true
           (Scenario.world_of Scenario.ada) "Ada Lovelace" _
           "Here is the parsed resume you asked for."
           (Py.ValidationError "Invalid json output"));
    [reflexivity|done|reflexivity|reflexivity].
Defined.

End ParserEffects.

(** ** The field validators *)

Section Validators.
Import Spec Facts Schemas.

Lemma chars_filter (p : ascii → bool) (s : string) :
  chars (Py.filter_chars p s) = filter (λ c, p c = true) (chars s).
Proof.
  unfold chars. induction s as [|c s IH]; [done|]. simpl.
  rewrite filter_cons. destruct (p c) eqn:Hp.
  - rewrite decide_True by done. simpl. by rewrite IH.
  - rewrite decide_False by done. exact IH.
Qed.

Lemma filter_chars_idempotent (p : ascii → bool) (s : string) :
  Py.filter_chars p (Py.filter_chars p s) = Py.filter_chars p s.
Proof.
  induction s as [|c s IH]; [done|]. simpl.
  destruct (p c) eqn:Hp; [|exact IH]. simpl. by rewrite Hp, IH.
Qed.

(** X6.  [clean_phone] keeps the digits of a phone number, in their order, and
    nothing else; a number without any digit becomes the empty string, not
    null; only a missing number stays null; cleaning twice changes
    nothing more. *)
Theorem clean_phone_keeps_digits (v : option string) :
  (∀ s, v = Some s →
     ∃ t, ResumeParsedSchema.clean_phone v = Some t
          ∧ chars t = filter (λ c, Py.isdigit c = true) (chars s))
  ∧ (ResumeParsedSchema.clean_phone v = None ↔ v = None)
  ∧ ResumeParsedSchema.clean_phone (ResumeParsedSchema.clean_phone v)
    = ResumeParsedSchema.clean_phone v.
Proof.
  unfold ResumeParsedSchema.clean_phone.
  destruct v as [s|]; simpl; [|split; [done|split; done]].
  unfold Py.truthy_str. case_bool_decide as Hs; simpl.
  - split; [|split; [done|]].
    + intros ? [= <-]. eexists. split; [done|]. apply chars_filter.
    + destruct (Py.truthy_str _); [|done]. by rewrite filter_chars_idempotent.
  - assert (s = "") as -> by (by destruct (decide (s = ""))).
    split; [|split; [done|]].
    + intros ? [= <-]. by exists "".
    + done.
Qed.

(** A list that is trimmed, free of empty entries and of entries that
    agree up to letter case goes through the loop unchanged. *)
Lemma clean_skills_loop_fixed (l : list string) :
  ∀ seen cleaned,
    (∀ e, e ∈ l → Py.strip e = e ∧ e ≠ "" ∧ Py.lower e ∉ seen) →
    NoDup (Py.lower <$> l) →
    ResumeParsedSchema.clean_skills_loop l seen cleaned = cleaned ++ l.
Proof.
  induction l as [|x l IH]; intros seen cleaned Hl Hnd; simpl.
  - by rewrite app_nil_r.
  - destruct (Hl x) as (Hx & Hne & Hseen); [left|].
    rewrite Hx. unfold Py.truthy_str.
    rewrite (bool_decide_eq_true_2 _ Hne), (bool_decide_eq_true_2 _ Hseen).
    simpl. rewrite fmap_cons in Hnd. apply NoDup_cons in Hnd as [Hnotin Hnd].
    rewrite IH; [by rewrite <- app_assoc| |done].
    intros e He. destruct (Hl e) as (He1 & He2 & He3); [by right|].
    split; [done|]. split; [done|].
    rewrite not_elem_of_union, not_elem_of_singleton. split; [|done].
    intros Heq. apply Hnotin. rewrite <- Heq. by apply list_elem_of_fmap_2.
Qed.

(** X7.  [clean_skills] is idempotent: a cleaned list is left as it is. *)
Theorem clean_skills_idempotent (v : list string) :
  ResumeParsedSchema.clean_skills (ResumeParsedSchema.clean_skills v)
  = ResumeParsedSchema.clean_skills v.
Proof.
  destruct (clean_skills_cleaned v) as (Hin & Hnd & Hsub & _).
  set (out := ResumeParsedSchema.clean_skills v) in *.
  unfold ResumeParsedSchema.clean_skills at 1.
  destruct out as [|x out'] eqn:Hout; [done|].
  cbn [Py.truthy_list]. rewrite <- Hout in *.
  rewrite clean_skills_loop_fixed; [done| |done].
  intros e He. split; [|split; [by apply Hin|apply not_elem_of_empty]].
  assert (e ∈ Py.strip <$> v) as (y & -> & _)%list_elem_of_fmap
    by (eapply elem_of_sublist; [exact He|exact Hsub]).
  apply strip_idempotent.
Qed.

End Validators.

(** ** The record lifecycle, case by case *)

Section ProcessCases.
Import Models Sys Spec Facts.
Context (E : env).

Lemma init_world key w : snd (Parser.init E key w) = w.
Proof. unfold Parser.init. by destruct (negb _). Qed.

Lemma save_self_eq r w :
  Views.save_self E (r, w)
  = match db_reject E (SaveResume r) with
    | Some e => (Py.Raise e, (r, w))
    | None => (Py.Ok (), (r, saved r w))
    end.
Proof.
  unfold Views.save_self, Views.self, bind, Views.lift, Views.db_write. simpl.
  by destruct (db_reject E (SaveResume r)).
Qed.

Lemma lift_eq {A} (m : M A) r w :
  Views.lift m (r, w) = (fst (m w), (r, snd (m w))).
Proof. unfold Views.lift. by destruct (m w). Qed.

Lemma handler_eq e rb wb :
  (Views.setattr (set_status failed);;
   Views.setattr (set_error_message (Some (Py.str_exn e)));;
   Views.save_self E;;
   raise e) (rb, wb)
  = handled E e rb wb.
Proof.
  unfold bind at 1. unfold Views.setattr at 1, modify at 1.
  unfold bind at 1. unfold Views.setattr at 1, modify at 1.
  unfold bind at 1. rewrite save_self_eq. unfold handled, marked_failed.
  by destruct (db_reject E _).
Qed.

(** The tail of the [try] block is [post_steps]. *)
Lemma post_steps_eq uid d r w :
  (let* u := Views.lift (Views.related_user uid) in
   let* u0 := Views.lift (Views._update_user_profile E u d) in
   Views.lift (Views._calculate_profile_completion E u0)) (r, w)
  = (fst (post_steps E uid d w), (r, snd (post_steps E uid d w))).
Proof.
  unfold post_steps, bind. rewrite lift_eq.
  destruct (Views.related_user uid w) as [[u|e] w1]; [|done]. cbn [fst snd].
  rewrite lift_eq.
  destruct (Views._update_user_profile E u d w1) as [[u'|e] w2]; [|done].
  cbn [fst snd]. by rewrite lift_eq.
Qed.

(** Every run of [_process_resume], traced through its [try] block. *)
Lemma process_run_cases (r0 : ParsedResume) (w0 : world) :
  let run := Views._process_resume E (r0, w0) in
  let r1 := set_status processing r0 in
  (∃ e, db_reject E (SaveResume r1) = Some e ∧ run = handled E e r1 w0)
  ∨ (db_reject E (SaveResume r1) = None
     ∧ ((∃ e, Parser.init E None (saved r1 w0) = (Py.Raise e, saved r1 w0)
              ∧ run = handled E e r1 (saved r1 w0))
        ∨ (∃ parser,
             Parser.init E None (saved r1 w0) = (Py.Ok parser, saved r1 w0)
             ∧ ((∃ e w3,
                   Parser.parse_resume E parser (file_path r0)
                     (file_extension r0) true (saved r1 w0) = (Py.Raise e, w3)
                   ∧ run = handled E e r1 w3)
                ∨ (∃ d w3,
                     Parser.parse_resume E parser (file_path r0)
                       (file_extension r0) true (saved r1 w0) = (Py.Ok d, w3)
                     ∧ let rc := set_status completed (filled d r1) in
                       ((∃ e, db_reject E (SaveResume rc) = Some e
                              ∧ run = handled E e rc w3)
                        ∨ (db_reject E (SaveResume rc) = None
                           ∧ ((∃ e w5,
                                 post_steps E (user r0) d (saved rc w3)
                                 = (Py.Raise e, w5)
                                 ∧ run = handled E e rc w5)
                              ∨ (∃ w5,
                                   post_steps E (user r0) d (saved rc w3)
                                   = (Py.Ok (), w5)
                                   ∧ run = (Py.Ok (), (rc, w5))))))))))).
Proof.
  cbv zeta. remember (Views._process_resume E (r0, w0)) as run eqn:Hrun.
  unfold Views._process_resume, try_except in Hrun.
  unfold bind at 1 in Hrun. unfold Views.setattr at 1, modify at 1 in Hrun.
  unfold bind at 1 in Hrun. rewrite save_self_eq in Hrun.
  destruct (db_reject E (SaveResume (set_status processing r0))) as [e|] eqn:Hs1.
  { left. exists e. split; [done|]. by rewrite Hrun, handler_eq. }
  right. split; [done|].
  unfold bind at 1 in Hrun. rewrite lift_eq in Hrun.
  pose proof (init_world None (saved (set_status processing r0) w0)) as Hiw.
  destruct (Parser.init E None (saved (set_status processing r0) w0))
    as [[parser|e] wi] eqn:Hinit; cbn [fst snd] in *; subst wi.
  2:{ left. exists e. split; [done|]. by rewrite Hrun, handler_eq. }
  right. exists parser. split; [done|].
  unfold bind at 1 in Hrun. unfold Views.self at 1 in Hrun. cbn [fst] in Hrun.
  unfold bind at 1 in Hrun. rewrite lift_eq in Hrun.
  change (file_path (set_status processing r0)) with (file_path r0) in Hrun.
  change (file_extension (set_status processing r0))
    with (file_extension r0) in Hrun.
  destruct (Parser.parse_resume E parser (file_path r0) (file_extension r0) true
              (saved (set_status processing r0) w0))
    as [[d|e] w3] eqn:Hparse; cbn [fst snd] in Hrun.
  2:{ left. exists e, w3. split; [done|]. by rewrite Hrun, handler_eq. }
  right. exists d, w3. split; [done|].
  do 3 (unfold bind at 1 in Hrun;
        unfold Views.setattr at 1, modify at 1 in Hrun).
  unfold bind at 1 in Hrun.
  assert (∀ k : unit → St (ParsedResume * world) unit,
            (let (r, s') :=
               (if Py.truthy (Py.dict_get d "education" (Py.PList []))
                then Views.setattr
                       (set_education_level
                          (Some (Views.education_label
                                   (Py.dict_get d "education" (Py.PList [])))))
                else ret ())
                 (set_experience_years
                    (Py.int_or_null
                       (Py.dict_get d "total_experience_years" (Py.PInt 0)))
                    (set_skills
                       (Py.str_items (Py.dict_get d "skills" (Py.PList [])))
                       (set_parsed_data d (set_status processing r0))), w3) in
             match r with
             | Py.Ok a => k a s'
             | Py.Raise e => (Py.Raise e, s')
             end)
            = k () (filled d (set_status processing r0), w3)) as Hfill.
  { intros k. unfold filled. by destruct (Py.truthy _). }
  rewrite Hfill in Hrun. clear Hfill.
  unfold bind at 1 in Hrun. unfold Views.setattr at 1, modify at 1 in Hrun.
  unfold bind at 1 in Hrun. rewrite save_self_eq in Hrun.
  destruct (db_reject E (SaveResume
              (set_status completed (filled d (set_status processing r0)))))
    as [e|] eqn:Hs2.
  { left. exists e. split; [done|]. by rewrite Hrun, handler_eq. }
  right. split; [done|].
  change (user (set_status processing r0)) with (user r0) in Hrun.
  rewrite post_steps_eq in Hrun.
  destruct (post_steps E (user r0) d _) as [[[]|e] w5] eqn:Hpost;
    cbn [fst snd] in Hrun.
  - right. by exists w5.
  - left. exists e, w5. split; [done|]. by rewrite Hrun, handler_eq.
Qed.

(** A saved record is the stored row of its key. *)
Lemma head_filter_upsert {A} (key : A → nat) (x : A) (rows : list A) :
  head (filter (λ y, key y = key x) (upsert_row key x rows)) = Some x.
Proof.
  unfold upsert_row. case_bool_decide as Hin.
  - induction rows as [|y rows IH]; [by apply elem_of_nil in Hin|].
    rewrite fmap_cons in Hin. rewrite fmap_cons, filter_cons.
    case_bool_decide as Hy.
    + by rewrite decide_True.
    + rewrite decide_False by done. apply IH.
      apply elem_of_cons in Hin as [Hin|Hin]; [congruence|done].
  - rewrite filter_app.
    assert (filter (λ y, key y = key x) rows = []) as ->.
    { induction rows as [|y rows IH]; [done|].
      rewrite fmap_cons in Hin. apply not_elem_of_cons in Hin as [Hy Hin].
      rewrite filter_cons, decide_False by congruence. by apply IH. }
    simpl. by rewrite filter_cons, decide_True.
Qed.

Lemma stored_saved r w : stored_resume (pk r) (saved r w) = Some r.
Proof. unfold stored_resume, saved. simpl. apply head_filter_upsert. Qed.

(** Writes other than the save of a resume leave the resumes table alone. *)
Lemma db_write_resumes a :
  (∀ r, a ≠ SaveResume r) → preserves resumes (Views.db_write E a).
Proof.
  intros Ha w res w'. unfold Views.db_write.
  destruct (db_reject E a); intros [= <- <-]; [done|].
  destruct a; try done. by destruct (Ha r).
Qed.

Lemma update_user_profile_resumes u d :
  preserves resumes (Views._update_user_profile E u d).
Proof.
  intros w res w'. unfold Views._update_user_profile.
  destruct (_ && _); [|by intros [= <- <-]].
  destruct (Py.split _) as [|first others]; [by intros [= <- <-]|].
  unfold bind, ret.
  destruct (Views.db_write E _ w) as [[[]|e] w2] eqn:Hw; intros [= <- <-];
    by apply db_write_resumes in Hw.
Qed.

Lemma post_steps_resumes uid d : preserves resumes (post_steps E uid d).
Proof.
  intros w res w'. unfold post_steps, bind.
  assert (Views.related_user uid w = (fst (Views.related_user uid w), w)) as ->.
  { unfold Views.related_user. by destruct (filter _ _). }
  destruct (fst (Views.related_user uid w)) as [u|e]; [|by intros [= <- <-]].
  destruct (Views._update_user_profile E u d w) as [[u'|e] w1] eqn:Hup;
    apply update_user_profile_resumes in Hup; [|by intros [= <- <-]].
  rewrite calculate_is_upsert, <- Hup. by apply db_write_resumes.
Qed.

Lemma marked_failed_fields e r :
  status (marked_failed e r) = failed
  ∧ error_message (marked_failed e r) = Some (Py.str_exn e)
  ∧ pk (marked_failed e r) = pk r.
Proof. done. Qed.

(** What a failed run leaves. *)
Lemma handled_outcome e0 rb wb e r w :
  handled E e0 rb wb = (Py.Raise e, (r, w)) →
  status r = failed ∧ pk r = pk rb
  ∧ error_message r = Some (Py.str_exn e0)
  ∧ ((db_reject E (SaveResume r) = Some e ∧ w = wb)
     ∨ (db_reject E (SaveResume r) = None ∧ e = e0 ∧ w = saved r wb)).
Proof.
  unfold handled.
  destruct (db_reject E (SaveResume (marked_failed e0 rb))) as [e'|] eqn:Hdb;
    intros [= <- <- <-]; (do 3 (split; [done|])); [left|right]; by rewrite Hdb.
Qed.

(** A run that raises went through the handler. *)
Lemma process_raises_inv r0 w0 e r w :
  Views._process_resume E (r0, w0) = (Py.Raise e, (r, w)) →
  ∃ e0 rb wb, handled E e0 rb wb = (Py.Raise e, (r, w)) ∧ pk rb = pk r0.
Proof.
  intros Hrun.
  pose proof (process_run_cases r0 w0) as Hc. cbv zeta in Hc.
  rewrite Hrun in Hc.
  destruct Hc as [(e0 & _ & H)|(_ & [(e0 & _ & H)|(parser & _ & [(e0 & w3 & _ & H)|(d & w3 & _ & [(e0 & _ & H)|(_ & [(e0 & w5 & _ & H)|(w5 & _ & H)])])])])];
    try (eexists _, _, _; split; [symmetry; exact H|];
         first [done | unfold filled; by destruct (Py.truthy _)]).
  done.
Qed.

(** A run that returns went through the whole [try] block. *)
Lemma process_returns_inv r0 w0 r w :
  Views._process_resume E (r0, w0) = (Py.Ok (), (r, w)) →
  ∃ parser d w3,
    Parser.parse_resume E parser (file_path r0) (file_extension r0) true
      (saved (set_status processing r0) w0) = (Py.Ok d, w3)
    ∧ r = set_status completed (filled d (set_status processing r0))
    ∧ post_steps E (user r0) d (saved r w3) = (Py.Ok (), w).
Proof.
  intros Hrun.
  pose proof (process_run_cases r0 w0) as Hc. cbv zeta in Hc.
  rewrite Hrun in Hc. unfold handled in Hc.
  destruct Hc as [(e0 & _ & H)|(_ & [(e0 & _ & H)|(parser & _ & [(e0 & w3 & _ & H)|(d & w3 & Hp & [(e0 & _ & H)|(_ & [(e0 & w5 & _ & H)|(w5 & Hpost & H)])])])])];
    try (by destruct (db_reject E _)).
  injection H as -> ->. by exists parser, d, w3.
Qed.

Lemma filled_fields d r :
  parsed_data (filled d r) = d
  ∧ skills (filled d r) = Py.str_items (Py.dict_get d "skills" (Py.PList []))
  ∧ error_message (filled d r) = error_message r
  ∧ pk (filled d r) = pk r.
Proof. unfold filled. by destruct (Py.truthy _). Qed.

(** The stored row after a run that returned, or that raised with the
    handler's save accepted, is the record the run leaves. *)
Lemma process_stores_record r0 w0 res r w :
  Views._process_resume E (r0, w0) = (res, (r, w)) →
  (∀ e, res = Py.Raise e → db_reject E (SaveResume r) = None) →
  stored_resume (pk r0) w = Some r.
Proof.
  intros Hrun Hdb. destruct res as [[]|e].
  - apply process_returns_inv in Hrun as (parser & d & w3 & _ & Hr & Hpost).
    apply post_steps_resumes in Hpost. unfold stored_resume. rewrite Hpost.
    assert (pk r0 = pk r) as ->; [|apply stored_saved].
    rewrite Hr. simpl. by destruct (filled_fields d (set_status processing r0))
      as (_ & _ & _ & ->).
  - specialize (Hdb e eq_refl).
    apply process_raises_inv in Hrun as (e0 & rb & wb & Hh & Hpk).
    apply handled_outcome in Hh as (_ & Hpk' & _ & [[Hrej _]|(_ & _ & ->)]);
      [congruence|].
    rewrite <- Hpk, <- Hpk'. apply stored_saved.
Qed.

(** X8.  A run of [_process_resume] that raises leaves the record failed.
    Unless the database refuses the handler's own save, the exception
    raised is the one of the [try] block, its text is the record's error
    message, and the stored row is the failed record. *)
Theorem process_failure_is_recorded r0 w0 e r w :
  Views._process_resume E (r0, w0) = (Py.Raise e, (r, w)) →
  status r = failed ∧ pk r = pk r0
  ∧ (∃ e0, error_message r = Some (Py.str_exn e0))
  ∧ (db_reject E (SaveResume r) = None →
     error_message r = Some (Py.str_exn e)
     ∧ stored_resume (pk r0) w = Some r).
Proof.
  intros Hrun.
  pose proof (process_stores_record _ _ _ _ _ Hrun) as Hstored.
  apply process_raises_inv in Hrun as (e0 & rb & wb & Hh & Hpk).
  apply handled_outcome in Hh as (Hst & Hpk' & Hmsg & Hcases).
  split; [done|]. split; [congruence|]. split; [by exists e0|].
  intros Hdb. split; [|by apply Hstored].
  destruct Hcases as [[Hrej _]|(_ & -> & _)]; [congruence|done].
Qed.

(** X9.  A run of [_process_resume] that returns has parsed the file of the
    record: the record holds what the parser returned, is completed, keeps
    the error message it had, and is the stored row. *)
Theorem process_success_is_stored r0 w0 r w :
  Views._process_resume E (r0, w0) = (Py.Ok (), (r, w)) →
  ∃ parser d w3,
    Parser.parse_resume E parser (file_path r0) (file_extension r0) true
      (saved (set_status processing r0) w0) = (Py.Ok d, w3)
    ∧ status r = completed
    ∧ parsed_data r = d
    ∧ skills r = Py.str_items (Py.dict_get d "skills" (Py.PList []))
    ∧ error_message r = error_message r0
    ∧ stored_resume (pk r0) w = Some r.
Proof.
  intros Hrun.
  pose proof (process_stores_record _ _ _ _ _ Hrun) as Hstored.
  apply process_returns_inv in Hrun as (parser & d & w3 & Hp & -> & _).
  exists parser, d, w3. split; [done|].
  destruct (filled_fields d (set_status processing r0)) as (H1 & H2 & H3 & H4).
  do 4 (split; [done|]). by apply Hstored.
Qed.

Lemma init_without_credential key w :
  no_credential key → no_credential (GROQ_API_KEY E) →
  Parser.init E key w
  = (Py.Raise (Py.ValueError
       "OpenAI API key not found. Please set GROQ_API_KEY in settings or .env"),
     w).
Proof.
  unfold Parser.init. by intros [->| ->] [->| ->].
Qed.

Lemma log_saved r w : log (saved r w) = log w ++ [DbWrite (SaveResume r)].
Proof. done. Qed.

(** X10.  Without a credential in the settings every run of [_process_resume]
    raises and leaves the record failed; it logs nothing but saves of the
    record, so no file is read and the model is not called.  When the
    database accepts the saves, the error message is that of the missing
    key. *)
Theorem process_without_credential r0 w0 res r w :
  no_credential (GROQ_API_KEY E) →
  Views._process_resume E (r0, w0) = (res, (r, w)) →
  (∃ e, res = Py.Raise e) ∧ status r = failed
  ∧ (∃ l, log w = log w0 ++ l
          ∧ Forall (λ ev, ∃ r', ev = DbWrite (SaveResume r') ∧ pk r' = pk r0) l)
  ∧ (db_reject E (SaveResume (set_status processing r0)) = None →
     error_message r
     = Some "OpenAI API key not found. Please set GROQ_API_KEY in settings or .env").
Proof.
  intros Hno Hrun.
  pose proof (process_run_cases r0 w0) as Hc. cbv zeta in Hc.
  rewrite Hrun in Hc.
  rewrite (init_without_credential None) in Hc by (done || by left).
  unfold handled in Hc.
  destruct Hc as [(e0 & Hrej & H)|(Hacc & [(e0 & [= <-] & H)|(parser & [=] & _)])].
  - destruct (db_reject E (SaveResume (marked_failed e0 _)));
      injection H as -> -> ->; (split; [by eexists|]); (split; [done|]);
      (split; [|congruence]).
    + exists []. by rewrite app_nil_r.
    + eexists. split; [apply log_saved|]. repeat constructor. by eexists.
  - destruct (db_reject E (SaveResume (marked_failed _ _)));
      injection H as -> -> ->; (split; [by eexists|]); (split; [done|]);
      (split; [|done]).
    + eexists. split; [apply log_saved|]. repeat constructor. by eexists.
    + eexists. split; [rewrite !log_saved, <- app_assoc; reflexivity|].
      repeat constructor; by eexists.
Qed.

End ProcessCases.

Section ProcessWitnesses.
Import Models Sys Spec Facts.

(** The model service is down: the record is stored as failed with the
    error of the service. *)
Lemma process_failure_is_recorded_witness :
  ∃ r w,
    Views._process_resume Cases.llm_down_env
      (Scenario.uploaded, Scenario.world_of Scenario.ada)
    = (Py.Raise (Py.LibraryError "Connection error."), (r, w))
    ∧ status r = failed
    ∧ error_message r = Some "Connection error."
    ∧ stored_resume 1 w = Some r.
Proof.
  eexists _, _. split; [vm_compute; reflexivity|].
  destruct (process_failure_is_recorded Cases.llm_down_env
              Scenario.uploaded (Scenario.world_of Scenario.ada) _ _ _
              ltac:(vm_compute; reflexivity)) as (Hst & _ & _ & Hacc).
  split; [exact Hst|]. apply Hacc. reflexivity.
Defined.

Lemma process_success_is_stored_witness :
  ∃ r w,
    Views._process_resume Cases.usual_env
      (Scenario.uploaded, Scenario.world_of Scenario.ada)
    = (Py.Ok (), (r, w))
    ∧ status r = completed
    ∧ skills r = ["Python"; "SQL"; "Go"]
    ∧ stored_resume 1 w = Some r.
Proof.
  eexists _, _. split; [vm_compute; reflexivity|].
  destruct (process_success_is_stored Cases.usual_env
              Scenario.uploaded (Scenario.world_of Scenario.ada) _ _
              ltac:(vm_compute; reflexivity))
    as (parser & d & w3 & _ & Hst & _ & _ & _ & Hstored).
  split; [exact Hst|]. split; [vm_compute; reflexivity|]. exact Hstored.
Defined.

Lemma process_without_credential_witness :
  ∃ res r w,
    Views._process_resume Scenario.no_key_env
      (Scenario.uploaded, Scenario.world_of Scenario.ada) = (res, (r, w))
    ∧ (∃ e, res = Py.Raise e) ∧ status r = failed
    ∧ error_message r
      = Some "OpenAI API key not found. Please set GROQ_API_KEY in settings or .env".
Proof.
  eexists _, _, _. split; [vm_compute; reflexivity|].
  destruct (process_without_credential Scenario.no_key_env
              Scenario.uploaded (Scenario.world_of Scenario.ada) _ _ _
              ltac:(by left) ltac:(vm_compute; reflexivity))
    as (Hres & Hst & _ & Hmsg).
  split; [exact Hres|]. split; [exact Hst|]. apply Hmsg. reflexivity.
Defined.

End ProcessWitnesses.

(** ** Uploading *)

Section Uploads.
Import Models Sys Spec Facts.
Context (E : env).

Lemma upload_accepted_eq storage req f w :
  Pages.up_method req = Views.POST → Pages.up_file req = Some f →
  accepted_upload f →
  Pages.upload_resume E storage req w
  = let r0 := created_record storage (Pages.up_user req) f w in
    match db_reject E (SaveResume r0) with
    | Some e => (Py.Raise e, w)
    | None =>
        match Views._process_resume E (r0, saved r0 w) with
        | (Py.Ok _, (_, w')) => (Py.Ok (Pages.Redirect "resumes:resume_detail"), w')
        | (Py.Raise _, (_, w')) =>
            (Py.Ok (Pages.Redirect "resumes:upload_resume"), w')
        end
    end.
Proof.
  intros Hm Hf (Hname & Hext & Hsize). unfold Pages.upload_resume.
  rewrite Hm, Hf. unfold Py.truthy_str.
  rewrite (bool_decide_eq_true_2 _ Hname), (bool_decide_eq_true_2 _ Hext).
  rewrite bool_decide_eq_false_2 by lia. cbn [negb].
  unfold bind, Views.query, Views.db_write. cbv zeta.
  fold (created_record storage (Pages.up_user req) f w).
  by destruct (db_reject E _).
Qed.

(** X11.  An upload that fails one of the three checks is answered with the
    upload form again: no record is created, no file is read, nothing is
    written. *)
Theorem upload_rejected_changes_nothing storage req w :
  Pages.up_method req = Views.POST →
  (∀ f, Pages.up_file req = Some f → ¬ accepted_upload f) →
  Pages.upload_resume E storage req w
  = (Py.Ok (Pages.Redirect "resumes:upload_resume"), w).
Proof.
  intros Hm Hno. unfold Pages.upload_resume. rewrite Hm.
  destruct (Pages.up_file req) as [f|]; [|done].
  specialize (Hno f eq_refl). unfold accepted_upload in Hno.
  unfold Py.truthy_str.
  case_bool_decide as Hname; [|done]. cbn [negb].
  case_bool_decide as Hext; [|done]. cbn [negb].
  case_bool_decide as Hsize; [done|].
  destruct Hno. split; [done|]. split; [done|]. lia.
Qed.

(** X12.  Once the record of an accepted upload is created, the view does not
    raise, whatever the processing does.  The key of the record is new;
    the view answers with the detail page exactly when the processing
    returned, and then the stored record is completed; otherwise the
    stored record is failed, unless the database refused that save. *)
Theorem upload_answers_by_outcome storage req f w :
  Pages.up_method req = Views.POST → Pages.up_file req = Some f →
  accepted_upload f →
  db_reject E (SaveResume (created_record storage (Pages.up_user req) f w)) = None →
  (Pages.fresh_resume_pk w ∉ pk <$> resumes w)
  ∧ ∃ to r w',
      Pages.upload_resume E storage req w = (Py.Ok (Pages.Redirect to), w')
      ∧ ((to = "resumes:resume_detail" ∧ status r = completed
          ∧ stored_resume (Pages.fresh_resume_pk w) w' = Some r)
         ∨ (to = "resumes:upload_resume" ∧ status r = failed
            ∧ (db_reject E (SaveResume r) = None →
               stored_resume (Pages.fresh_resume_pk w) w' = Some r))).
Proof.
  intros Hm Hf Hacc Hdb. split.
  { unfold Pages.fresh_resume_pk.
    assert (∀ (l : list nat) (n : nat), n ∈ l → (n ≤ foldr Nat.max 0 l)%nat)
      as Hmax.
    { induction l as [|m l IH]; intros n Hn; [by apply elem_of_nil in Hn|].
      simpl. apply elem_of_cons in Hn as [->|Hn]; [lia|].
      specialize (IH n Hn). lia. }
    intros Hin. apply Hmax in Hin. lia. }
  rewrite (upload_accepted_eq storage req f w Hm Hf Hacc). cbv zeta.
  rewrite Hdb.
  destruct (Views._process_resume E _) as [[[]|e] [r w']] eqn:Hrun.
  - exists "resumes:resume_detail", r, w'. split; [done|]. left.
    split; [done|].
    pose proof (process_stores_record E _ _ _ _ _ Hrun ltac:(done)) as Hst.
    apply process_returns_inv in Hrun as (_ & d & _ & _ & -> & _).
    by split.
  - exists "resumes:upload_resume", r, w'. split; [done|]. right.
    split; [done|].
    pose proof (process_stores_record E _ _ _ _ _ Hrun) as Hst.
    apply process_raises_inv in Hrun as (e0 & rb & wb & Hh & _).
    apply handled_outcome in Hh as (Hfailed & _).
    split; [done|]. intros Hok. apply Hst. by intros ? [= <-].
Qed.

(** X13.  The extension checked by [upload_resume] is the [file_extension] of
    the record it creates, and [extract_text] supports it: PDF files are
    read with the PDF reader, [docx] and [doc] files with the DOCX
    reader. *)
Theorem uploaded_type_is_supported storage u f w fp :
  accepted_upload f →
  let r0 := created_record storage u f w in
  file_extension r0 = Py.lower (Py.last_component "" (Pages.upload_name f))
  ∧ Parser.extract_text E fp (file_extension r0)
    = if bool_decide (file_extension r0 = "pdf")
      then Parser.extract_text_from_pdf E fp
      else Parser.extract_text_from_docx E fp.
Proof.
  intros (Hname & Hext & _) r0.
  assert (file_extension r0
          = Py.lower (Py.last_component "" (Pages.upload_name f))) as Hfe.
  { unfold file_extension, r0, created_record, Py.truthy_str. simpl.
    by rewrite bool_decide_eq_true_2. }
  split; [done|]. rewrite Hfe. unfold Parser.extract_text.
  repeat (apply elem_of_cons in Hext as [->|Hext]; [reflexivity|]).
  by apply elem_of_nil in Hext.
Qed.

End Uploads.

Section UploadWitnesses.
Import Models Sys Spec Facts.

Lemma upload_rejected_changes_nothing_witness :
  Pages.upload_resume Cases.usual_env Cases.media
    (Cases.upload_form (Some Cases.cv_txt)) Cases.fresh_world
  = (Py.Ok (Pages.Redirect "resumes:upload_resume"), Cases.fresh_world).
Proof.
  apply upload_rejected_changes_nothing; [reflexivity|].
  intros f [= <-]. vm_compute. intros (_ & H & _).
  repeat (apply elem_of_cons in H as [H|H]; [discriminate H|]).
  by apply elem_of_nil in H.
Defined.

Lemma upload_answers_by_outcome_witness :
  ∃ to r w',
    Pages.upload_resume Cases.usual_env Cases.media
      (Cases.upload_form (Some Cases.cv_pdf)) Cases.fresh_world
    = (Py.Ok (Pages.Redirect to), w')
    ∧ ((to = "resumes:resume_detail" ∧ status r = completed
        ∧ stored_resume 1 w' = Some r)
       ∨ (to = "resumes:upload_resume" ∧ status r = failed
          ∧ (db_reject Cases.usual_env (SaveResume r) = None →
             stored_resume 1 w' = Some r))).
Proof.
  apply (upload_answers_by_outcome Cases.usual_env Cases.media
           (Cases.upload_form (Some Cases.cv_pdf)) Cases.cv_pdf
           Cases.fresh_world); [reflexivity|reflexivity| |reflexivity].
  split; [done|]. split; [|vm_compute; discriminate].
  vm_compute. do 1 left.
Defined.

Lemma uploaded_type_is_supported_witness :
  Parser.extract_text Cases.usual_env "/media/resumes/2026/11/cv.final.PDF"
    (file_extension
       (created_record Cases.media Scenario.ada Cases.cv_pdf Cases.fresh_world))
  = Parser.extract_text_from_pdf Cases.usual_env
      "/media/resumes/2026/11/cv.final.PDF".
Proof.
  apply (uploaded_type_is_supported Cases.usual_env Cases.media Scenario.ada
           Cases.cv_pdf Cases.fresh_world).
  split; [done|]. split; [vm_compute; left|vm_compute; discriminate].
Defined.

End UploadWitnesses.

(** ** Filling in the user's name *)

Section Names.
Import Models Sys Spec Facts.

Lemma string_of_chars (s : string) : string_of_list_ascii (chars s) = s.
Proof. apply string_of_list_ascii_of_string. Qed.

Lemma chars_of_list (l : list ascii) : chars (string_of_list_ascii l) = l.
Proof. apply list_ascii_of_string_of_list_ascii. Qed.

Lemma flush_word (cur : list ascii) :
  cur ≠ [] → Forall (λ c, Py.isspace c = false) cur →
  word (string_of_list_ascii (reverse cur)).
Proof.
  intros Hne Hcur. split.
  - intros H. apply (f_equal chars) in H. rewrite chars_of_list in H.
    apply (f_equal reverse) in H. rewrite reverse_involutive in H. done.
  - rewrite chars_of_list. by apply Forall_reverse.
Qed.

(** [split] returns words. *)
Lemma split_go_words (s : string) (cur : list ascii) :
  Forall (λ c, Py.isspace c = false) cur → Forall word (Py.split_go cur s).
Proof.
  revert cur. induction s as [|c s IH]; intros cur Hcur; simpl.
  - destruct cur as [|c' cur']; [constructor|].
    constructor; [|constructor]. by apply flush_word.
  - destruct (Py.isspace c) eqn:Hc.
    + apply Forall_app. split; [|apply IH; constructor].
      destruct cur as [|c' cur']; [constructor|].
      constructor; [|constructor]. by apply flush_word.
    + apply IH. by constructor.
Qed.

Lemma split_go_word (x : string) (s : string) (cur : list ascii) :
  Forall (λ c, Py.isspace c = false) (chars x) →
  Py.split_go cur (x +:+ s) = Py.split_go (reverse (chars x) ++ cur) s.
Proof.
  revert cur. induction x as [|c x IH]; intros cur Hx.
  - by rewrite append_nil_l.
  - rewrite append_cons. unfold chars in *. simpl in *.
    apply Forall_cons in Hx as [Hc Hx]. rewrite Hc, IH by done.
    by rewrite reverse_cons, <- app_assoc.
Qed.

Lemma split_go_flush (x : string) (s : string) :
  word x →
  Py.split_go [] (x +:+ " " +:+ s) = x :: Py.split_go [] s.
Proof.
  intros [Hne Hx]. rewrite split_go_word by done. rewrite app_nil_r.
  simpl. destruct (reverse (chars x)) as [|c l] eqn:Hrev.
  - apply (f_equal reverse) in Hrev. rewrite reverse_involutive in Hrev.
    apply (f_equal string_of_list_ascii) in Hrev.
    rewrite string_of_chars in Hrev. done.
  - rewrite <- Hrev, reverse_involutive, string_of_chars. done.
Qed.

Lemma split_join (ws : list string) :
  Forall word ws → Py.split (Py.join_space ws) = ws.
Proof.
  unfold Py.split. induction ws as [|x ws IH]; intros Hws; [done|].
  apply Forall_cons in Hws as [Hx Hws].
  destruct ws as [|y ws].
  - simpl. pose proof (split_go_word x "" [] (proj2 Hx)) as H.
    rewrite append_nil_r in H. rewrite H.
    rewrite app_nil_r. simpl. destruct Hx as [Hne Hx].
    destruct (reverse (chars x)) as [|c l] eqn:Hrev.
    + apply (f_equal reverse) in Hrev. rewrite reverse_involutive in Hrev.
      apply (f_equal string_of_list_ascii) in Hrev.
      rewrite string_of_chars in Hrev. done.
    + by rewrite <- Hrev, reverse_involutive, string_of_chars.
  - change (Py.join_space (x :: y :: ws))
      with (x +:+ " " +:+ Py.join_space (y :: ws)).
    rewrite split_go_flush by done. by rewrite IH.
Qed.

(** Only whitespace: no word. *)
Lemma split_all_space (s : string) : all_space s = true → Py.split s = [].
Proof.
  unfold Py.split. induction s as [|c s IH]; [done|]. simpl.
  destruct (Py.isspace c); [|done]. intros H. by rewrite IH.
Qed.

(** X14.  When [_update_user_profile] returns for a user without a name and a
    dictionary whose name is the string [n], either [n] holds no word and
    nothing changes, or the user is saved with the first word of [n] as
    first name and, as last name, the other words of [n] joined by single
    spaces (the empty string when there is no other word); first and last
    name, put together, split into the words of [n]; the other columns
    are kept. *)
Theorem update_user_profile_splits_name E u d n w u' w' :
  first_name u = "" → last_name u = "" →
  Py.dict_lookup d "name" = Some (Py.PStr n) →
  Views._update_user_profile E u d w = (Py.Ok u', w') →
  (Py.split n = [] ∧ u' = u ∧ w' = w)
  ∨ (∃ first others,
       Py.split n = first :: others
       ∧ first_name u' = first
       ∧ last_name u' = Py.join_space others
       ∧ Forall word (first :: others)
       ∧ Py.split (last_name u') = others
       ∧ word (first_name u')
       ∧ Py.split (first_name u' +:+ " " +:+ last_name u') = Py.split n
       ∧ (user_id u', email u', role u') = (user_id u, email u, role u)
       ∧ w' = saved_user u' w).
Proof.
  intros Hf Hl Hd. unfold Views._update_user_profile, Py.dict_get.
  rewrite Hd, Hf, Hl. cbn [Py.truthy Py.as_str].
  destruct (Py.truthy_str n) eqn:Hn; cbn [andb orb negb].
  2:{ intros [= <- <-]. left. split; [|done].
      unfold Py.truthy_str in Hn. apply bool_decide_eq_false in Hn.
      destruct (decide (n = "")) as [->|]; [done|]. by destruct Hn. }
  change (Py.truthy_str "") with false. cbn [orb negb].
  pose proof (split_go_words n [] ltac:(constructor)) as Hwords.
  fold (Py.split n) in Hwords.
  destruct (Py.split n) as [|first others] eqn:Hsplit.
  { intros [= <- <-]. by left. }
  unfold bind, Views.db_write, ret.
  destruct (db_reject E _); intros [= <- <-]. right.
  exists first, others. split; [done|].
  pose proof Hwords as Hall.
  apply Forall_cons in Hwords as [Hfirst Hothers]. cbn.
  assert ((if bool_decide (1 < S (length others))
           then Py.join_space others else "") = Py.join_space others) as ->.
  { destruct others; [done|]. by rewrite bool_decide_eq_true_2 by (simpl; lia). }
  split; [done|]. split; [done|]. split; [done|].
  split; [by apply split_join|]. split; [done|]. split; [|done].
  rewrite split_go_flush by done. fold (Py.split (Py.join_space others)).
  by rewrite split_join.
Qed.

(** A user who has a first or a last name is left as they are: nothing is
    written. *)
Lemma update_user_profile_keeps_name E u d w :
  first_name u ≠ "" ∨ last_name u ≠ "" →
  Views._update_user_profile E u d w = (Py.Ok u, w).
Proof.
  intros H. unfold Views._update_user_profile, Py.truthy_str.
  assert (bool_decide (first_name u ≠ "") || bool_decide (last_name u ≠ "")
          = true) as ->; [|by rewrite andb_false_r].
  destruct H; repeat case_bool_decide; done.
Qed.

Lemma update_user_profile_splits_name_witness :
  ∃ u' w',
    Views._update_user_profile Cases.usual_env Scenario.anonymous
      [("name", Py.PStr "  Augusta Ada   King ")] Cases.fresh_world
    = (Py.Ok u', w')
    ∧ first_name u' = "Augusta" ∧ last_name u' = "Ada King"
    ∧ Py.split (first_name u' +:+ " " +:+ last_name u')
      = Py.split "  Augusta Ada   King ".
Proof.
  eexists _, _. split; [vm_compute; reflexivity|].
  split; [reflexivity|]. split; [reflexivity|].
  destruct (update_user_profile_splits_name Cases.usual_env Scenario.anonymous
              [("name", Py.PStr "  Augusta Ada   King ")] "  Augusta Ada   King "
              Cases.fresh_world _ _ eq_refl eq_refl eq_refl
              ltac:(vm_compute; reflexivity))
    as [(Hnil & _)|(first & others & _ & _ & _ & _ & _ & _ & Hsplit & _)];
    [discriminate Hnil|exact Hsplit].
Defined.

End Names.

(** ** The profile-completion row *)

Section CompletionRows.
Import Models Sys Spec Facts.

Lemma expected_completion_consistent (s : signals) :
  (0 ≤ expected_score s ≤ 100)%Z
  ∧ (expected_score s = 100%Z ↔ expected_suggestions s = [])
  ∧ (expected_missing s = [] → (85 ≤ expected_score s)%Z)
  ∧ (length (expected_missing s) ≤ length (expected_suggestions s)
     ≤ S (length (expected_missing s)))%nat
  ∧ (expected_score s
     = 100 - 20 * Z.of_nat (length (filter (λ x, x ∈ ["name"; "email"])
                                      (expected_missing s)))
       - 15 * Z.of_nat (length (filter (λ x, x = "role") (expected_missing s)))
       - 45 * Z.of_nat (length (filter (λ x, x = "resume") (expected_missing s)))
       - 15 * Z.of_nat
           (length (filter (λ x, x = "Add more skills to your resume")
                      (expected_suggestions s))))%Z.
Proof.
  destruct s as [[] [] [] [] []]; vm_compute;
    repeat split; intros; try lia; try done.
Qed.

(** X15.  The row a recalculation stores is consistent with itself: the score
    lies between 0 and 100; it is 100 exactly when there is no
    suggestion; without a missing field it is at least 85; there are as
    many suggestions as missing fields, or one more; and the score is 100
    less 20 for each of name and email missing, 15 for the role, 45 for
    the resume, 15 for the skills suggestion. *)
Theorem completion_row_consistent E u w w' :
  Views._calculate_profile_completion E u w = (Py.Ok (), w') →
  ∃ c, completions w' !! user_id u = Some c
    ∧ (0 ≤ completion_score c ≤ 100)%Z
    ∧ (completion_score c = 100%Z ↔ Models.suggestions c = [])
    ∧ (missing_fields c = [] → (85 ≤ completion_score c)%Z)
    ∧ (length (missing_fields c) ≤ length (Models.suggestions c)
       ≤ S (length (missing_fields c)))%nat
    ∧ (completion_score c
       = 100 - 20 * Z.of_nat (length (filter (λ x, x ∈ ["name"; "email"])
                                        (missing_fields c)))
         - 15 * Z.of_nat (length (filter (λ x, x = "role") (missing_fields c)))
         - 45 * Z.of_nat (length (filter (λ x, x = "resume") (missing_fields c)))
         - 15 * Z.of_nat
             (length (filter (λ x, x = "Add more skills to your resume")
                        (Models.suggestions c))))%Z.
Proof.
  rewrite calculate_is_upsert. unfold Views.db_write.
  destruct (db_reject E _); intros [= <-].
  exists (expected_completion u w). split; [apply lookup_insert_eq|].
  apply expected_completion_consistent.
Qed.

(** X16.  A recalculation writes one row: the other tables, and the rows of
    the other users, are as they were; when the database refuses the row,
    nothing changes. *)
Theorem calculate_writes_one_row E u w res w' :
  Views._calculate_profile_completion E u w = (res, w') →
  (resumes w', users w', jobs w', applications w')
  = (resumes w, users w, jobs w, applications w)
  ∧ (∀ uid, uid ≠ user_id u → completions w' !! uid = completions w !! uid)
  ∧ (∀ e, res = Py.Raise e → w' = w).
Proof.
  rewrite calculate_is_upsert. unfold Views.db_write.
  destruct (db_reject E _); intros [= <- <-]; [done|].
  split; [done|]. split; [|done].
  intros uid Huid. simpl. by rewrite lookup_insert_ne.
Qed.

Lemma completion_row_consistent_witness :
  let w' := snd (Views._calculate_profile_completion Cases.usual_env
                   Scenario.ada_no_role Cases.fresh_world) in
  ∃ c, completions w' !! 7 = Some c
    ∧ (0 ≤ completion_score c ≤ 100)%Z
    ∧ (completion_score c = 100%Z ↔ Models.suggestions c = [])
    ∧ (missing_fields c = [] → (85 ≤ completion_score c)%Z)
    ∧ (length (missing_fields c) ≤ length (Models.suggestions c)
       ≤ S (length (missing_fields c)))%nat
    ∧ (completion_score c
       = 100 - 20 * Z.of_nat (length (filter (λ x, x ∈ ["name"; "email"])
                                        (missing_fields c)))
         - 15 * Z.of_nat (length (filter (λ x, x = "role") (missing_fields c)))
         - 45 * Z.of_nat (length (filter (λ x, x = "resume") (missing_fields c)))
         - 15 * Z.of_nat
             (length (filter (λ x, x = "Add more skills to your resume")
                        (Models.suggestions c))))%Z.
Proof.
  apply (completion_row_consistent Cases.usual_env Scenario.ada_no_role
           Cases.fresh_world).
  vm_compute. reflexivity.
Defined.

Lemma calculate_writes_one_row_witness :
  let w := Scenario.world_with [Scenario.completed_resume 1 ["Python"]] in
  let w' := snd (Views._calculate_profile_completion Cases.usual_env
                   Scenario.ada w) in
  (resumes w', users w', jobs w', applications w')
  = (resumes w, users w, jobs w, applications w)
  ∧ (∀ uid, uid ≠ 7 → completions w' !! uid = completions w !! uid)
  ∧ (∀ e, Py.Ok () = Py.Raise e → w' = w).
Proof.
  apply (calculate_writes_one_row Cases.usual_env Scenario.ada
           (Scenario.world_with [Scenario.completed_resume 1 ["Python"]])).
  vm_compute. reflexivity.
Defined.

End CompletionRows.

(** ** What a processed record holds *)

Section ProcessedRecord.
Import Models Sys Spec Facts Schemas.

Lemma str_items_of_str_list (l : list string) :
  Py.str_items (Py.of_str_list l) = l.
Proof.
  unfold Py.str_items, Py.of_str_list. induction l as [|x l IH]; [done|].
  simpl. f_equal. apply IH.
Qed.

Lemma int_or_null_of_opt_int (o : option Z) :
  Py.int_or_null (Py.of_opt_int o) = o.
Proof. by destruct o. Qed.

(** The record built from the dictionary of a validated simple answer. *)
Lemma filled_simple (x : SimpleResumeParsedSchema.t) (r : ParsedResume) :
  let r' := filled (SimpleResumeParsedSchema.to_dict x) r in
  parsed_data r' = SimpleResumeParsedSchema.to_dict x
  ∧ skills r' = SimpleResumeParsedSchema.skills x
  ∧ experience_years r' = SimpleResumeParsedSchema.total_experience_years x
  ∧ education_level r'
    = match SimpleResumeParsedSchema.education x with
      | [] => education_level r
      | first :: _ => Some first
      end.
Proof.
  unfold filled.
  change (Py.dict_get (SimpleResumeParsedSchema.to_dict x) "skills" (Py.PList []))
    with (Py.of_str_list (SimpleResumeParsedSchema.skills x)).
  change (Py.dict_get (SimpleResumeParsedSchema.to_dict x)
            "total_experience_years" (Py.PInt 0))
    with (Py.of_opt_int (SimpleResumeParsedSchema.total_experience_years x)).
  change (Py.dict_get (SimpleResumeParsedSchema.to_dict x) "education"
            (Py.PList []))
    with (Py.of_str_list (SimpleResumeParsedSchema.education x)).
  rewrite str_items_of_str_list, int_or_null_of_opt_int.
  by destruct (SimpleResumeParsedSchema.education x) as [|first rest].
Qed.

(** X17.  A run of [_process_resume] that returns stores the answer of the
    model as the simple schema validated it: the skills as the model
    supplied them (not stripped, not de-duplicated), the experience
    figure, null included, and as education level the first education
    entry; with no education entry the level is left as it was.  The
    label [Not specified] of the code is never used. *)
Theorem process_stores_simple_answer E r0 w0 r w :
  Views._process_resume E (r0, w0) = (Py.Ok (), (r, w)) →
  ∃ text content raw_ x,
    llm_answer E true text = Py.Ok content
    ∧ json_simple E content = Some raw_
    ∧ SimpleResumeParsedSchema.validate raw_ = Py.Ok x
    ∧ parsed_data r = SimpleResumeParsedSchema.to_dict x
    ∧ skills r = supplied (SimpleResumeParsedSchema.raw_skills raw_)
    ∧ experience_years r = SimpleResumeParsedSchema.total_experience_years x
    ∧ education_level r
      = match SimpleResumeParsedSchema.education x with
        | [] => education_level r0
        | first :: _ => Some first
        end.
Proof.
  intros Hrun.
  apply process_returns_inv in Hrun as (parser & d & w3 & Hp & -> & _).
  apply parse_resume_ok_inv in Hp as (text & content & Hllm & Hout).
  unfold Parser.parse_output in Hout.
  destruct (json_simple E content) as [raw_|] eqn:Hjson; [|done].
  destruct (SimpleResumeParsedSchema.validate raw_) as [x|e] eqn:Hval; [|done].
  injection Hout as <-.
  exists text, content, raw_, x. do 3 (split; [done|]).
  destruct (filled_simple x (set_status processing r0)) as (H1 & H2 & H3 & H4).
  split; [done|]. split; [|split; [done|done]].
  cbn. rewrite H2. by apply simple_skills_unchanged.
Qed.

Lemma process_stores_simple_answer_witness :
  ∃ r w,
    Views._process_resume
      (Scenario.env_of
         (Scenario.simple_answer "Ada Lovelace"
            (Value ["Python "; "python"; ""]) Absent)
         (Scenario.rich_answer Absent Absent) Scenario.accept_all)
      (Scenario.uploaded, Scenario.world_of Scenario.ada) = (Py.Ok (), (r, w))
    ∧ skills r = ["Python "; "python"; ""]
    ∧ experience_years r = None
    ∧ education_level r = None.
Proof.
  eexists _, _. split; [vm_compute; reflexivity|].
  destruct (process_stores_simple_answer _ _ _ _ _
              (eq_refl :
                 Views._process_resume
                   (Scenario.env_of
                      (Scenario.simple_answer "Ada Lovelace"
                         (Value ["Python "; "python"; ""]) Absent)
                      (Scenario.rich_answer Absent Absent) Scenario.accept_all)
                   (Scenario.uploaded, Scenario.world_of Scenario.ada)
                 = (Py.Ok (), (_, _))))
    as (text & content & raw_ & x & _ & [= <-] & [= <-] & _ & Hsk & Hexp & Hed).
  split; [exact Hsk|]. split; [exact Hexp|exact Hed].
Defined.

End ProcessedRecord.

(** ** Applying and withdrawing *)

Section MoreApplications.
Import Models Sys Spec Facts.
Context (E : env).

(** The job with one application more. *)
Lemma apply_job_trace req slug_ w res w' :
  Views.apply_job E req slug_ w = (res, w') →
  (w' = w ∧ res ≠ Py.Ok (Views.Redirect "resumes:my_applications"))
  ∨ (∃ j a,
       Views.get_job_or_404 slug_ w = (Py.Ok j, w)
       ∧ filter (λ a, job a = job_id j
                      ∧ applicant a = user_id (Views.req_user req))
           (applications w) = []
       ∧ applications w' = applications w ++ [a]
       ∧ (application_id a, job a, applicant a, application_status a)
         = (Views.fresh_application_id w, job_id j,
            user_id (Views.req_user req), "pending")
       ∧ (resumes w', users w', completions w')
         = (resumes w, users w, completions w)
       ∧ ((jobs w' = jobs w ∧ ∃ e, res = Py.Raise e)
          ∨ (jobs w'
             = upsert_row job_id
                 {| job_id := job_id j; slug := slug j;
                    required_skills := required_skills j;
                    applications_count := applications_count j + 1 |}
                 (jobs w)
             ∧ res = Py.Ok (Views.Redirect "resumes:my_applications")))).
Proof.
  unfold Views.apply_job. unfold bind at 1.
  destruct (Views.get_job_or_404 slug_ w) as [[j|e] w1] eqn:Hjob.
  2:{ unfold Views.get_job_or_404 in Hjob. destruct (filter _ (jobs w));
        injection Hjob as <- <-; intros [= <- <-]; by left. }
  assert (w1 = w) as ->.
  { unfold Views.get_job_or_404 in Hjob.
    by destruct (filter _ (jobs w)); injection Hjob as _ <-. }
  case_bool_decide as Hrole; [intros [= <- <-]; by left|].
  unfold bind at 1. unfold Views.query at 1.
  destruct (filter _ (applications w)) as [|a0 l0] eqn:Hfirst;
    cbn [Py.truthy_list]; [|intros [= <- <-]; by left].
  destruct (Views.req_method req); [intros [= <- <-]; by left|].
  unfold bind at 1.
  set (resume_step := match Views.post_resume_id req with
                      | Some id => _ | None => _ end).
  assert (∃ res_, resume_step w = (res_, w)) as [res_ Hstep].
  { unfold resume_step. destruct (Views.post_resume_id req) as [id|];
      [|by eexists].
    unfold bind, Views.get_resume_or_404, ret.
    destruct (filter _ (resumes w)); by eexists. }
  rewrite Hstep. destruct res_ as [resume_|e]; [|intros [= <- <-]; by left].
  unfold bind at 1. unfold Views.query at 1.
  unfold bind at 1. unfold Views.db_write at 1.
  set (a0 := {| application_id := Views.fresh_application_id w |}).
  destruct (db_reject E (CreateApplication a0)); [intros [= <- <-]; by left|].
  assert (application_id a0 ∉ application_id <$> applications w) as Hnew
    by apply fresh_application_id_new.
  intros Hrun. right. exists j.
  set (w2 := add_log _ (apply_write (CreateApplication a0) w)) in Hrun.
  assert (applications w2 = applications w ++ [a0]) as Happ2.
  { unfold w2. cbn. by rewrite (upsert_row_new _ _ _ Hnew). }
  unfold bind at 1 in Hrun.
  set (match_step := match resume_ with Some r => _ | None => _ end) in Hrun.
  assert (∃ res3 w3 a,
            match_step w2 = (res3, w3)
            ∧ applications w3 = applications w ++ [a]
            ∧ (application_id a, job a, applicant a, application_status a)
              = (Views.fresh_application_id w, job_id j,
                 user_id (Views.req_user req), "pending")
            ∧ (resumes w3, users w3, completions w3, jobs w3)
              = (resumes w, users w, completions w, jobs w))
    as (res3 & w3 & a & Hm & Happ3 & Ha & Hrest).
  { unfold match_step. destruct resume_ as [r|]; [|by exists (Py.Ok ()), w2, a0].
    destruct (Py.truthy_list (skills r)); [|by exists (Py.Ok ()), w2, a0].
    unfold Views.db_write. destruct (db_reject E _);
      [by eexists _, w2, a0|].
    exists (Py.Ok ()), (add_log
                          (DbWrite (SaveApplication
                             (Views.with_match_data (skills r)
                                (required_skills j) a0)))
                          (apply_write
                             (SaveApplication
                                (Views.with_match_data (skills r)
                                   (required_skills j) a0)) w2)),
      (Views.with_match_data (skills r) (required_skills j) a0).
    split; [reflexivity|]. split; [|done].
    cbn. rewrite (upsert_row_new _ _ _ Hnew). by apply upsert_row_last. }
  rewrite Hm in Hrun. exists a. do 2 (split; [done|]).
  injection Hrest as Hr Hu Hc Hj.
  destruct res3 as [[]|e].
  2:{ injection Hrun as <- <-. do 2 (split; [done|]).
      split; [congruence|]. left. split; [done|]. by eexists. }
  unfold bind, Views.db_write, ret in Hrun.
  destruct (db_reject E (SaveJob _)); injection Hrun as <- <-.
  - do 2 (split; [done|]). split; [congruence|]. left. split; [done|].
    by eexists.
  - cbn. do 2 (split; [done|]). split; [congruence|]. right.
    split; [|done]. by rewrite Hj.
Qed.

(** X18.  Whenever [apply_job] answers with anything but the redirect to the
    list of applications, it has written nothing. *)
Theorem apply_job_refusal_writes_nothing req slug_ w p w' :
  Views.apply_job E req slug_ w = (Py.Ok p, w') →
  p ≠ Views.Redirect "resumes:my_applications" →
  w' = w.
Proof.
  intros Hrun Hp.
  apply apply_job_trace in Hrun as [[-> _]|(j & a & _ & _ & _ & _ & _ & Hres)];
    [done|].
  destruct Hres as [[_ [e [=]]]|[_ [= ->]]]. done.
Qed.

(** X19.  [apply_job] keeps the table of applications free of a second row
    for the same job and applicant, however the run ends. *)
Theorem apply_job_keeps_one_application_each req slug_ w res w' :
  one_application_each (applications w) →
  Views.apply_job E req slug_ w = (res, w') →
  one_application_each (applications w').
Proof.
  intros Hone Hrun.
  apply apply_job_trace in Hrun
    as [[-> _]|(j & a & _ & Hfirst & -> & Ha & _)]; [done|].
  injection Ha as _ Hjob Happ _.
  unfold one_application_each in *. rewrite fmap_app. apply NoDup_app.
  split; [done|]. split; [|apply NoDup_singleton].
  intros pair Hin Hpair. apply list_elem_of_singleton in Hpair as ->.
  apply list_elem_of_fmap in Hin as (b & Hb & Hin). injection Hb as Hb1 Hb2.
  assert (b ∈ filter (λ a, job a = job_id j
                           ∧ applicant a = user_id (Views.req_user req))
                (applications w)) as Hb.
  { apply list_elem_of_filter. split; [|done]. split; congruence. }
  rewrite Hfirst in Hb. by apply elem_of_nil in Hb.
Qed.

(** X20.  When [apply_job] files an application, the table has one row more,
    of the requesting user for the job, with a key no row had, and the
    count of the job is one higher. *)
Theorem apply_job_counts_the_application req slug_ w w' :
  Views.apply_job E req slug_ w
  = (Py.Ok (Views.Redirect "resumes:my_applications"), w') →
  ∃ j a,
    Views.get_job_or_404 slug_ w = (Py.Ok j, w)
    ∧ applications w' = applications w ++ [a]
    ∧ (application_id a ∉ application_id <$> applications w)
    ∧ (job a, applicant a) = (job_id j, user_id (Views.req_user req))
    ∧ Pages.related_job (job_id j) w'
      = (Py.Ok {| job_id := job_id j; slug := slug j;
                  required_skills := required_skills j;
                  applications_count := applications_count j + 1 |}, w').
Proof.
  intros Hrun.
  apply apply_job_trace in Hrun
    as [[_ Hne]|(j & a & Hjob & _ & Happ & Ha & _ & Hres)]; [done|].
  destruct Hres as [[_ [e [=]]]|[Hjobs _]].
  exists j, a. split; [done|]. split; [done|].
  injection Ha as Hid Hj Hu _.
  split; [rewrite Hid; apply fresh_application_id_new|].
  split; [congruence|].
  unfold Pages.related_job. rewrite Hjobs.
  set (j' := {| job_id := job_id j |}).
  pose proof (head_filter_upsert job_id j' (jobs w)) as Hhead.
  change (job_id j') with (job_id j) in Hhead.
  destruct (filter _ (upsert_row job_id j' (jobs w))); [done|].
  by injection Hhead as ->.
Qed.

Lemma elem_of_upsert_row {A} (key : A → nat) (x : A) (rows : list A) :
  x ∈ upsert_row key x rows.
Proof.
  pose proof (head_filter_upsert key x rows) as H.
  apply head_Some_elem_of, list_elem_of_filter in H. tauto.
Qed.

Lemma get_own_application_inv id uid w res w' :
  Pages.get_own_application_or_404 id uid w = (res, w') →
  w' = w
  ∧ match res with
    | Py.Ok a => a ∈ applications w ∧ application_id a = id ∧ applicant a = uid
    | Py.Raise e => e = Py.Http404
    end.
Proof.
  unfold Pages.get_own_application_or_404.
  destruct (filter _ (applications w)) as [|a l] eqn:Hf; intros [= <- <-];
    [done|].
  split; [done|].
  assert (a ∈ filter (λ a, application_id a = id ∧ applicant a = uid)
                (applications w)) as Ha by (rewrite Hf; left).
  apply list_elem_of_filter in Ha. tauto.
Qed.

Lemma related_job_world id w : snd (Pages.related_job id w) = w.
Proof. unfold Pages.related_job. by destruct (filter _ _). Qed.

(** Every run of [withdraw_application]. *)
Lemma withdraw_trace req id w res w' :
  Pages.withdraw_application E req id w = (res, w') →
  (w' = w ∧ res ≠ Py.Ok (Pages.Redirect "resumes:my_applications"))
  ∨ (∃ a,
       Pages.get_own_application_or_404 id (user_id (Views.req_user req)) w
       = (Py.Ok a, w)
       ∧ applications w' = upsert_row application_id (withdrawn a) (applications w)
       ∧ (resumes w', users w', completions w')
         = (resumes w, users w, completions w)
       ∧ ((jobs w' = jobs w ∧ ∃ e, res = Py.Raise e)
          ∨ (∃ j, Pages.related_job (job a) w = (Py.Ok j, w)
                  ∧ jobs w'
                    = upsert_row job_id
                        (with_count (Z.max 0 (applications_count j - 1)) j)
                        (jobs w)
                  ∧ res = Py.Ok (Pages.Redirect "resumes:my_applications")))).
Proof.
  unfold Pages.withdraw_application. unfold bind at 1.
  destruct (Pages.get_own_application_or_404 _ _ w) as [[a|e] w1] eqn:Hget;
    pose proof Hget as Hget0;
    apply get_own_application_inv in Hget as [-> Hget];
    [|intros [= <- <-]; by left].
  destruct (Views.req_method req); [intros [= <- <-]; by left|].
  fold (withdrawn a).
  unfold bind at 1. unfold Views.db_write at 1.
  destruct (db_reject E (SaveApplication _)); [intros [= <- <-]; by left|].
  set (w2 := add_log _ _).
  unfold bind at 1.
  pose proof (related_job_world (job (withdrawn a)) w2) as Hw.
  destruct (Pages.related_job (job (withdrawn a)) w2) as [[j|e] w3] eqn:Hjob;
    cbn [snd] in Hw; subst w3; intros Hrun; right; exists a;
    (split; [done|]).
  - assert (Pages.related_job (job a) w = (Py.Ok j, w)) as Hjob'.
    { revert Hjob. unfold Pages.related_job. cbn.
      by destruct (filter _ (jobs w)); intros [= <-]. }
    unfold bind, Views.db_write, ret in Hrun.
    fold (with_count (Z.max 0 (applications_count j - 1)) j) in Hrun.
    destruct (db_reject E (SaveJob _)); injection Hrun as <- <-;
      (split; [reflexivity|]); (split; [reflexivity|]).
    + left. split; [done|]. by eexists.
    + right. by exists j.
  - injection Hrun as <- <-. split; [reflexivity|]. split; [reflexivity|].
    left. split; [done|]. by eexists.
Qed.

Lemma upsert_row_unique {A} (key : A → nat) (x y : A) (rows : list A) :
  NoDup (key <$> rows) → x ∈ rows → key y = key x →
  Forall2 (λ b b', b' = b ∨ (b = x ∧ b' = y)) rows (upsert_row key y rows).
Proof.
  intros Hnd Hx Hkey. unfold upsert_row.
  rewrite bool_decide_eq_true_2
    by (rewrite Hkey; apply list_elem_of_fmap; by exists x).
  apply Forall2_fmap_r, Forall_Forall2_diag, Forall_forall.
  intros b Hb. unfold compose. cbv beta.
  case_bool_decide as Hbk; [|by left]. right. split; [|done].
  rewrite Hkey in Hbk.
  apply list_elem_of_lookup in Hb as [i Hi], Hx as [i' Hi'].
  assert (i = i') as ->; [|congruence].
  apply (NoDup_lookup (key <$> rows) i i' (key x)); [done| |];
    rewrite list_lookup_fmap; [by rewrite Hi; simpl; rewrite Hbk|by rewrite Hi'].
Qed.

(** X21.  [withdraw_application] deletes no row and changes only the row it was
    asked for, which belongs to the requesting user: that row keeps its
    job, applicant and resume and becomes withdrawn.  Every job row it
    writes has a count that is not negative. *)
Theorem withdraw_keeps_the_row req id w res w' :
  NoDup (application_id <$> applications w) →
  Pages.withdraw_application E req id w = (res, w') →
  Forall2 (λ b b', b' = b
                   ∨ (application_id b = id
                      ∧ applicant b = user_id (Views.req_user req)
                      ∧ b' = withdrawn b))
    (applications w) (applications w')
  ∧ Forall (λ j', j' ∈ jobs w ∨ (0 ≤ applications_count j')%Z) (jobs w').
Proof.
  intros Hnd Hrun.
  apply withdraw_trace in Hrun as [[-> _]|(a & Hget & -> & _ & Hjobs)].
  { split; [apply Forall_Forall2_diag|]; apply Forall_forall; intros; by left. }
  apply get_own_application_inv in Hget as (_ & Hin & Hid & Happ).
  split.
  - eapply Forall2_impl; [by apply (upsert_row_unique _ a (withdrawn a))|].
    intros b b' [->|[-> ->]]; [by left|by right].
  - destruct Hjobs as [[-> _]|(j & _ & -> & _)];
      [apply Forall_forall; intros; by left|].
    apply Forall_forall. intros j' Hj'. unfold upsert_row in Hj'.
    case_bool_decide.
    + apply list_elem_of_fmap in Hj' as (y & -> & Hy).
      case_bool_decide; [right; simpl; lia|by left].
    + apply elem_of_app in Hj' as [?|Hj']; [by left|].
      apply list_elem_of_singleton in Hj' as ->. right. simpl. lia.
Qed.

(** An application blocks applying again, whatever its status. *)
Lemma apply_job_once req slug_ w j b :
  Views.get_job_or_404 slug_ w = (Py.Ok j, w) →
  b ∈ applications w → job b = job_id j →
  applicant b = user_id (Views.req_user req) →
  Views.apply_job E req slug_ w = (Py.Ok (Views.Redirect "resumes:job_detail"), w).
Proof.
  intros Hjob Hb Hbj Hbu. unfold Views.apply_job.
  rewrite (bind_run_ok _ _ _ _ _ Hjob).
  case_bool_decide; [done|].
  unfold bind, Views.query, ret.
  destruct (filter _ (applications w)) as [|x l] eqn:Hf; [|done].
  assert (b ∈ filter (λ a, job a = job_id j
                           ∧ applicant a = user_id (Views.req_user req))
                (applications w)) as Hin by (by apply list_elem_of_filter).
  rewrite Hf in Hin. by apply elem_of_nil in Hin.
Qed.

(** X22.  A withdrawn application is kept, so it blocks applying again: after
    a withdrawal, [apply_job] of the same user for the job of the
    withdrawn application answers with the redirect to the job page and
    writes nothing. *)
Theorem withdrawn_application_blocks_reapplying req id w w1 a req' slug_ j :
  Pages.withdraw_application E req id w
  = (Py.Ok (Pages.Redirect "resumes:my_applications"), w1) →
  Pages.get_own_application_or_404 id (user_id (Views.req_user req)) w
  = (Py.Ok a, w) →
  Views.req_user req' = Views.req_user req →
  Views.get_job_or_404 slug_ w1 = (Py.Ok j, w1) → job_id j = job a →
  withdrawn a ∈ applications w1
  ∧ Views.apply_job E req' slug_ w1
    = (Py.Ok (Views.Redirect "resumes:job_detail"), w1).
Proof.
  intros Hrun Hget Huser Hjob Hja.
  apply withdraw_trace in Hrun as [[_ Hne]|(a' & Hget' & Happs & _)]; [done|].
  rewrite Hget in Hget'. injection Hget' as <-.
  apply get_own_application_inv in Hget as (_ & _ & _ & Happ).
  assert (withdrawn a ∈ applications w1) as Hin
    by (rewrite Happs; apply elem_of_upsert_row).
  split; [done|].
  apply (apply_job_once req' slug_ w1 j (withdrawn a)); [done|done|done|].
  by rewrite Huser.
Qed.

(** X23.  Applying and then withdrawing that application leaves the job with
    the count of applications it had, when that count was not negative. *)
Theorem apply_then_withdraw_restores_count req slug_ w w1 j req' w2 :
  Views.get_job_or_404 slug_ w = (Py.Ok j, w) →
  (0 ≤ applications_count j)%Z →
  Views.apply_job E req slug_ w
  = (Py.Ok (Views.Redirect "resumes:my_applications"), w1) →
  Views.req_user req' = Views.req_user req →
  Pages.withdraw_application E req' (Views.fresh_application_id w) w1
  = (Py.Ok (Pages.Redirect "resumes:my_applications"), w2) →
  Pages.related_job (job_id j) w1
  = (Py.Ok (with_count (applications_count j + 1) j), w1)
  ∧ Pages.related_job (job_id j) w2 = (Py.Ok j, w2).
Proof.
  intros Hjob Hcount Happly Huser Hwd.
  assert (∀ (j0 : Job) (rows : list Job) (w0 : world),
            jobs w0 = upsert_row job_id j0 rows →
            Pages.related_job (job_id j0) w0 = (Py.Ok j0, w0)) as Hrel.
  { intros j0 rows w0 Hw0. unfold Pages.related_job. rewrite Hw0.
    pose proof (head_filter_upsert job_id j0 rows) as Hhead.
    destruct (filter _ (upsert_row job_id j0 rows)); [done|].
    by injection Hhead as ->. }
  apply apply_job_trace in Happly
    as [[_ Hne]|(j0 & a & Hjob0 & _ & Happs & Ha & _ & Hres)]; [done|].
  rewrite Hjob in Hjob0. injection Hjob0 as <-.
  destruct Hres as [[_ [e [=]]]|[Hjobs _]].
  fold (with_count (applications_count j + 1) j) in Hjobs.
  pose proof (Hrel _ _ _ Hjobs) as Hrel1. split; [exact Hrel1|].
  apply withdraw_trace in Hwd as [[_ Hne]|(a' & Hget & _ & _ & Hres)]; [done|].
  destruct Hres as [[_ [e [=]]]|(j1 & Hj1 & Hjobs2 & _)].
  apply get_own_application_inv in Hget as (_ & Hin & Hid & _).
  assert (a' = a) as ->.
  { rewrite Happs in Hin. apply elem_of_app in Hin as [Hin|Hin].
    - destruct (fresh_application_id_new w). rewrite <- Hid.
      apply list_elem_of_fmap. by exists a'.
    - by apply list_elem_of_singleton in Hin. }
  injection Ha as _ Haj _ _. rewrite Haj in Hj1.
  change (job_id j) with (job_id (with_count (applications_count j + 1) j))
    in Hj1.
  rewrite Hrel1 in Hj1. injection Hj1 as <-.
  assert (with_count
            (Z.max 0 (applications_count
                        (with_count (applications_count j + 1) j) - 1))
            (with_count (applications_count j + 1) j) = j) as Hback.
  { destruct j as [i s r c]. unfold with_count. simpl in *. f_equal. lia. }
  rewrite Hback in Hjobs2. by apply (Hrel _ _ _ Hjobs2).
Qed.

End MoreApplications.

Section ApplicationWitnesses.
Import Models Sys Spec Facts.

Lemma apply_job_refusal_writes_nothing_witness :
  snd (Views.apply_job Cases.usual_env Cases.form_get
         "programmer-analytical-engines"
         (Scenario.world_applying [] (Scenario.posting ["Python"])))
  = Scenario.world_applying [] (Scenario.posting ["Python"]).
Proof.
  apply (apply_job_refusal_writes_nothing Cases.usual_env Cases.form_get
           "programmer-analytical-engines" _
           (Views.Render "resumes/apply_job.html"));
    [vm_compute; reflexivity|discriminate].
Defined.

Lemma apply_job_keeps_one_application_each_witness :
  one_application_each
    (applications
       (snd (Views.apply_job Cases.usual_env (Scenario.form None)
               "programmer-analytical-engines"
               (Scenario.world_applying [] (Scenario.posting ["Python"]))))).
Proof.
  apply (apply_job_keeps_one_application_each Cases.usual_env
           (Scenario.form None) "programmer-analytical-engines"
           (Scenario.world_applying [] (Scenario.posting ["Python"]))
           (Py.Ok (Views.Redirect "resumes:my_applications")));
    [apply NoDup_nil_2|vm_compute; reflexivity].
Defined.

Lemma apply_job_counts_the_application_witness :
  let w := Scenario.world_applying [] (Scenario.posting ["Python"]) in
  let w' := snd (Views.apply_job Cases.usual_env (Scenario.form None)
                   "programmer-analytical-engines" w) in
  ∃ j a,
    Views.get_job_or_404 "programmer-analytical-engines" w = (Py.Ok j, w)
    ∧ applications w' = applications w ++ [a]
    ∧ (application_id a ∉ application_id <$> applications w)
    ∧ (job a, applicant a) = (job_id j, 7)
    ∧ Pages.related_job (job_id j) w'
      = (Py.Ok {| job_id := job_id j; slug := slug j;
                  required_skills := required_skills j;
                  applications_count := applications_count j + 1 |}, w').
Proof.
  apply (apply_job_counts_the_application Cases.usual_env (Scenario.form None)
           "programmer-analytical-engines"
           (Scenario.world_applying [] (Scenario.posting ["Python"]))).
  vm_compute. reflexivity.
Defined.

Lemma withdraw_keeps_the_row_witness :
  let w' := snd (Pages.withdraw_application Cases.usual_env
                   (Scenario.form None) 5 Cases.applied_world) in
  Forall2 (λ b b', b' = b
                   ∨ (application_id b = 5 ∧ applicant b = 7
                      ∧ b' = withdrawn b))
    (applications Cases.applied_world) (applications w')
  ∧ Forall (λ j', j' ∈ jobs Cases.applied_world ∨ (0 ≤ applications_count j')%Z)
      (jobs w').
Proof.
  apply (withdraw_keeps_the_row Cases.usual_env (Scenario.form None) 5
           Cases.applied_world
           (Py.Ok (Pages.Redirect "resumes:my_applications")));
    [apply NoDup_singleton|vm_compute; reflexivity].
Defined.

Lemma withdrawn_application_blocks_reapplying_witness :
  let w1 := snd (Pages.withdraw_application Cases.usual_env
                   (Scenario.form None) 5 Cases.applied_world) in
  withdrawn Cases.ada_application ∈ applications w1
  ∧ Views.apply_job Cases.usual_env (Scenario.form None)
      "programmer-analytical-engines" w1
    = (Py.Ok (Views.Redirect "resumes:job_detail"), w1).
Proof.
  apply (withdrawn_application_blocks_reapplying Cases.usual_env
           (Scenario.form None) 5 Cases.applied_world _ Cases.ada_application
           (Scenario.form None) "programmer-analytical-engines"
           {| job_id := 3; slug := "programmer-analytical-engines";
              required_skills := ["Python"]; applications_count := 0 |});
    [vm_compute; reflexivity|vm_compute; reflexivity|reflexivity
    |vm_compute; reflexivity|reflexivity].
Defined.

Lemma apply_then_withdraw_restores_count_witness :
  let w := Scenario.world_applying [] (Scenario.posting ["Python"]) in
  let w1 := snd (Views.apply_job Cases.usual_env (Scenario.form None)
                   "programmer-analytical-engines" w) in
  let w2 := snd (Pages.withdraw_application Cases.usual_env
                   (Scenario.form None) 1 w1) in
  Pages.related_job 3 w1
  = (Py.Ok (with_count 1 (Scenario.posting ["Python"])), w1)
  ∧ Pages.related_job 3 w2 = (Py.Ok (Scenario.posting ["Python"]), w2).
Proof.
  apply (apply_then_withdraw_restores_count Cases.usual_env
           (Scenario.form None) "programmer-analytical-engines"
           (Scenario.world_applying [] (Scenario.posting ["Python"])) _
           (Scenario.posting ["Python"]) (Scenario.form None));
    [vm_compute; reflexivity|vm_compute; discriminate|vm_compute; reflexivity
    |reflexivity|vm_compute; reflexivity].
Defined.

End ApplicationWitnesses.

(** ** The profile-completion views *)

Section CompletionViews.
Import Models Sys Spec Facts.
Context (E : env).

Lemma get_or_create_eq uid w :
  Pages.get_or_create_completion E uid w
  = match completions w !! uid with
    | Some c => (Py.Ok (c, false), w)
    | None =>
        match db_reject E (UpsertCompletion uid zero_completion) with
        | Some e => (Py.Raise e, w)
        | None => (Py.Ok (zero_completion, true),
                   with_completion uid zero_completion w)
        end
    end.
Proof.
  unfold Pages.get_or_create_completion, bind, Views.query, Views.db_write, ret.
  destruct (completions w !! uid); [done|].
  fold zero_completion. by destruct (db_reject E _).
Qed.

(** X24.  [profile_completion] shows the stored row as it is when there is one
    and no refresh is asked for, and writes nothing; on the first visit,
    or when a refresh is asked for, it shows the row recalculated from
    the state of the database (with the database accepting the writes). *)
Theorem profile_completion_page req w :
  let u := Pages.pc_user req in
  (∀ c, completions w !! user_id u = Some c →
        Py.truthy_opt_str (Pages.pc_refresh req) = false →
        Pages.profile_completion E req w = (Py.Ok (Pages.RenderCompletion c), w))
  ∧ ((completions w !! user_id u = None
      ∨ Py.truthy_opt_str (Pages.pc_refresh req) = true) →
     (∀ a, db_reject E a = None) →
     ∃ w', Pages.profile_completion E req w
           = (Py.Ok (Pages.RenderCompletion (expected_completion u w)), w')
           ∧ completions w' !! user_id u = Some (expected_completion u w)).
Proof.
  cbv zeta. split.
  - intros c Hc Hr. unfold Pages.profile_completion. unfold bind at 1.
    rewrite get_or_create_eq, Hc. unfold bind at 1. cbn [fst snd].
    by rewrite Hr.
  - intros Hcase Hdb. unfold Pages.profile_completion. unfold bind at 1.
    rewrite get_or_create_eq.
    assert (∀ w1, resumes w1 = resumes w →
              ∃ w',
                (Views._calculate_profile_completion E (Pages.pc_user req);;
                 Pages.refresh_completion (user_id (Pages.pc_user req))) w1
                = (Py.Ok (expected_completion (Pages.pc_user req) w), w')
                ∧ completions w' !! user_id (Pages.pc_user req)
                  = Some (expected_completion (Pages.pc_user req) w)) as Hcalc.
    { intros w1 Hw1. unfold bind. rewrite calculate_is_upsert.
      unfold Views.db_write. rewrite Hdb.
      rewrite (expected_completion_resumes _ w w1 Hw1).
      unfold Pages.refresh_completion. cbn. rewrite lookup_insert_eq.
      eexists. split; [reflexivity|]. cbn. apply lookup_insert_eq. }
    destruct (completions w !! user_id (Pages.pc_user req)) as [c|] eqn:Hc.
    + destruct Hcase as [|Hr]; [done|]. unfold bind at 1. cbn [fst snd].
      rewrite Hr. cbn [orb].
      destruct (Hcalc w eq_refl) as (w' & Hrun & Hrow).
      exists w'. split; [|done]. by rewrite Hrun.
    + rewrite Hdb. unfold bind at 1. cbn [fst snd orb].
      destruct (Hcalc (with_completion (user_id (Pages.pc_user req))
                         zero_completion w) eq_refl) as (w' & Hrun & Hrow).
      exists w'. split; [|done]. by rewrite Hrun.
Qed.

(** X25.  [api_profile_score] never recalculates.  For a user without a row it
    stores and answers a score of 0 with no missing field and no
    suggestion, whatever the profile is; and the page
    [profile_completion], asked without a refresh after that, shows this
    row of zero. *)
Theorem api_profile_score_leaves_zero_row req w preq :
  completions w !! user_id (Views.req_user req) = None →
  db_reject E (UpsertCompletion (user_id (Views.req_user req)) zero_completion)
  = None →
  Pages.pc_user preq = Views.req_user req →
  Py.truthy_opt_str (Pages.pc_refresh preq) = false →
  let w1 := with_completion (user_id (Views.req_user req)) zero_completion w in
  Pages.api_profile_score E req w = (Py.Ok (Pages.JsonScore 0 [] []), w1)
  ∧ Pages.profile_completion E preq w1
    = (Py.Ok (Pages.RenderCompletion zero_completion), w1).
Proof.
  intros Hnone Hdb Hu Hr w1. split.
  - unfold Pages.api_profile_score, bind. by rewrite get_or_create_eq, Hnone, Hdb.
  - unfold Pages.profile_completion. unfold bind at 1.
    rewrite get_or_create_eq, Hu.
    assert (completions w1 !! user_id (Views.req_user req)
            = Some zero_completion) as -> by apply lookup_insert_eq.
    unfold bind at 1. cbn [fst snd]. by rewrite Hr.
Qed.

End CompletionViews.

Section CompletionViewWitnesses.
Import Models Sys Spec Facts.

Lemma profile_completion_page_witness :
  ∃ w', Pages.profile_completion Cases.usual_env Cases.completion_page
          Cases.fresh_world
        = (Py.Ok (Pages.RenderCompletion
                    (expected_completion Scenario.ada Cases.fresh_world)), w')
        ∧ completions w' !! 7
          = Some (expected_completion Scenario.ada Cases.fresh_world).
Proof.
  apply (proj2 (profile_completion_page Cases.usual_env Cases.completion_page
                  Cases.fresh_world)); [by left|reflexivity].
Defined.

Lemma api_profile_score_leaves_zero_row_witness :
  let w1 := with_completion 7 zero_completion Cases.fresh_world in
  Pages.api_profile_score Cases.usual_env Cases.form_get Cases.fresh_world
  = (Py.Ok (Pages.JsonScore 0 [] []), w1)
  ∧ Pages.profile_completion Cases.usual_env Cases.completion_page w1
    = (Py.Ok (Pages.RenderCompletion zero_completion), w1).
Proof.
  apply (api_profile_score_leaves_zero_row Cases.usual_env Cases.form_get
           Cases.fresh_world Cases.completion_page); reflexivity.
Defined.

End CompletionViewWitnesses.

(** ** Reading and deleting a resume *)

Section OwnResumes.
Import Models Sys Spec Facts.
Context (E : env).

Lemma get_own_resume_inv id uid w res w' :
  Pages.get_own_resume_or_404 id uid w = (res, w') →
  w' = w
  ∧ match res with
    | Py.Ok r => r ∈ resumes w ∧ pk r = id ∧ user r = uid
    | Py.Raise e =>
        e = Py.Http404 ∧ ∀ r, r ∈ resumes w → pk r = id → user r ≠ uid
    end.
Proof.
  unfold Pages.get_own_resume_or_404.
  destruct (filter _ (resumes w)) as [|r l] eqn:Hf; intros [= <- <-].
  - split; [done|]. split; [done|]. intros r Hr Hpk Hu.
    assert (r ∈ filter (λ r, pk r = id ∧ user r = uid) (resumes w)) as Hin
      by (by apply list_elem_of_filter).
    rewrite Hf in Hin. by apply elem_of_nil in Hin.
  - split; [done|].
    assert (r ∈ filter (λ r, pk r = id ∧ user r = uid) (resumes w)) as Hr
      by (rewrite Hf; left).
    apply list_elem_of_filter in Hr. tauto.
Qed.

(** X26.  The two views that show a resume answer only about a resume of the
    requesting user, and write nothing: for a key that no resume of the
    user has, both raise [Http404]; otherwise the status document holds
    the status and the error message of that resume, and says completed
    exactly when the status is completed. *)
Theorem resume_views_owner_only req id w :
  let uid := user_id (Views.req_user req) in
  (∀ res w', Pages.resume_detail req id w = (res, w') →
     w' = w
     ∧ match res with
       | Py.Ok p => ∃ r, r ∈ resumes w ∧ pk r = id ∧ user r = uid
                         ∧ p = Pages.RenderResume "resume_detail.html" r
       | Py.Raise e => e = Py.Http404
       end)
  ∧ (∀ res w', Pages.api_resume_status req id w = (res, w') →
       w' = w
       ∧ match res with
         | Py.Ok p => ∃ r, r ∈ resumes w ∧ pk r = id ∧ user r = uid
                           ∧ p = Pages.JsonStatus (status r) (error_message r)
                                   (bool_decide (status r = completed))
         | Py.Raise e => e = Py.Http404
         end)
  ∧ ((∀ r, r ∈ resumes w → pk r = id → user r ≠ uid) →
     Pages.resume_detail req id w = (Py.Raise Py.Http404, w)
     ∧ Pages.api_resume_status req id w = (Py.Raise Py.Http404, w)).
Proof.
  cbv zeta. unfold Pages.resume_detail, Pages.api_resume_status, bind, ret.
  split; [|split].
  - intros res w'.
    destruct (Pages.get_own_resume_or_404 _ _ w) as [[r|e] w1] eqn:Hget;
      apply get_own_resume_inv in Hget as [-> Hget]; intros [= <- <-];
      (split; [done|]); [|by destruct Hget].
    destruct Hget as (? & ? & ?). by exists r.
  - intros res w'.
    destruct (Pages.get_own_resume_or_404 _ _ w) as [[r|e] w1] eqn:Hget;
      apply get_own_resume_inv in Hget as [-> Hget]; intros [= <- <-];
      (split; [done|]); [|by destruct Hget].
    destruct Hget as (? & ? & ?). by exists r.
  - intros Hnone.
    destruct (Pages.get_own_resume_or_404 _ _ w) as [[r|e] w1] eqn:Hget;
      apply get_own_resume_inv in Hget as [-> Hget].
    + destruct Hget as (Hin & Hpk & Hu). by destruct (Hnone r).
    + by destruct Hget as [-> _].
Qed.

Context (path_exists : string → bool).
Context (os_remove : string → option Py.exn).
Context (reject_delete : ParsedResume → option Py.exn).

(** X27.  When [delete_resume] answers with a redirect, the rows with the key
    are gone from the resumes; no application is deleted: those that named
    the resume name none, the others are as they were; and the
    completion row of the user is the one recalculated from the resumes
    that are left.  For a [GET], and when the file cannot be removed,
    nothing is deleted. *)
Theorem delete_resume_effects req id w res w' :
  Pages.delete_resume E path_exists os_remove reject_delete req id w
  = (res, w') →
  (∀ to, res = Py.Ok (Pages.Redirect to) →
     resumes w' = filter (λ r, pk r ≠ id) (resumes w)
     ∧ applications w' = Pages.set_resume_null id <$> applications w
     ∧ Forall (λ a, resume a ≠ Some id) (applications w')
     ∧ (application_id <$> applications w') = (application_id <$> applications w)
     ∧ completions w' !! user_id (Views.req_user req)
       = Some (expected_completion (Views.req_user req) w'))
  ∧ (Views.req_method req = Views.GET → w' = w)
  ∧ (∀ r e, Pages.get_own_resume_or_404 id (user_id (Views.req_user req)) w
            = (Py.Ok r, w) →
            file_path r ≠ "" → path_exists (file_path r) = true →
            os_remove (file_path r) = Some e →
            Views.req_method req = Views.POST →
            res = Py.Raise e ∧ w' = w).
Proof.
  unfold Pages.delete_resume. unfold bind at 1.
  destruct (Pages.get_own_resume_or_404 _ _ w) as [[r|e] w1] eqn:Hget;
    pose proof Hget as Hget0;
    apply get_own_resume_inv in Hget as [-> Hget].
  2:{ intros [= <- <-]. split; [done|]. split; [done|]. by intros. }
  destruct (Views.req_method req) eqn:Hm.
  { intros [= <- <-]. split; [done|]. split; [done|]. by intros. }
  unfold bind at 1.
  destruct (Py.truthy_str (file_path r) && path_exists (file_path r)
            && bool_decide (is_Some (os_remove (file_path r)))) eqn:Hfail.
  - apply andb_prop in Hfail as [Hfail Hrm]. rewrite Hfail.
    apply bool_decide_eq_true in Hrm as [e Hrm]. rewrite Hrm.
    intros [= <- <-]. split; [done|]. split; [done|].
    intros r' e' [= <-] _ _ Hrm' _. split; [congruence|done].
  - assert ((if Py.truthy_str (file_path r) && path_exists (file_path r)
             then match os_remove (file_path r) with
                  | Some e => raise e
                  | None => ret ()
                  end
             else ret ()) w = (Py.Ok (), w)) as ->.
    { destruct (Py.truthy_str (file_path r) && path_exists (file_path r))
        eqn:Hboth; [|done].
      cbn in Hfail. apply bool_decide_eq_false in Hfail.
      destruct (os_remove (file_path r)); [|done]. by destruct Hfail. }
    intros Hrun.
    assert (∀ r' e', (Py.Ok r, w) = (Py.Ok r', w) →
              file_path r' ≠ "" → path_exists (file_path r') = true →
              os_remove (file_path r') = Some e' → False) as Hno.
    { intros r' e' [= <-] Hp Hex Hrm. unfold Py.truthy_str in Hfail.
      rewrite bool_decide_eq_true_2, Hex, Hrm in Hfail by done.
      by rewrite bool_decide_eq_true_2 in Hfail. }
    split; [|split; [done|intros r' e' H1 H2 H3 H4 _; by destruct (Hno r' e')]].
    intros to ->. clear Hfail Hno. revert Hrun. unfold bind at 1.
    unfold Pages.resume_delete.
    destruct (reject_delete r); [done|].
    unfold bind at 1. rewrite calculate_is_upsert. unfold Views.db_write.
    destruct (db_reject E _); [done|]. intros [= _ <-].
    destruct Hget as (_ & <- & _). cbn.
    split; [done|]. split; [done|]. split; [|split].
    + apply Forall_forall. intros a Ha.
      apply list_elem_of_fmap in Ha as (b & -> & _).
      unfold Pages.set_resume_null. case_bool_decide; simpl; done.
    + rewrite <- list_fmap_compose. apply list_fmap_ext. intros i b _.
      simpl. unfold Pages.set_resume_null. by case_bool_decide.
    + by rewrite lookup_insert_eq.
Qed.

End OwnResumes.

Section OwnResumeWitnesses.
Import Models Sys Spec Facts.

Lemma resume_views_owner_only_witness :
  Pages.resume_detail Cases.form_get 2 Cases.library_world
  = (Py.Raise Py.Http404, Cases.library_world)
  ∧ Pages.api_resume_status Cases.form_get 2 Cases.library_world
    = (Py.Raise Py.Http404, Cases.library_world).
Proof.
  apply (proj2 (proj2 (resume_views_owner_only Cases.form_get 2
                         Cases.library_world))).
  intros r Hr Hpk. apply list_elem_of_singleton in Hr as ->. discriminate Hpk.
Defined.

Lemma delete_resume_effects_witness :
  let w' := snd (Pages.delete_resume Cases.usual_env Cases.every_path
                   Cases.removes Cases.deletes (Scenario.form None) 1
                   Cases.library_world) in
  resumes w' = []
  ∧ Forall (λ a, resume a ≠ Some 1) (applications w')
  ∧ completions w' !! 7 = Some (expected_completion Scenario.ada w').
Proof.
  destruct (proj1 (delete_resume_effects Cases.usual_env Cases.every_path
                     Cases.removes Cases.deletes (Scenario.form None) 1
                     Cases.library_world _ _ ltac:(vm_compute; reflexivity))
              "resumes:resume_list" eq_refl)
    as (Hres & _ & Happ & _ & Hrow).
  split; [exact Hres|]. split; [exact Happ|exact Hrow].
Defined.

End OwnResumeWitnesses.

(** ** The slug of a job *)

Section Slugs.
Import Models Sys Spec Facts.

Lemma candidate_inj (base_slug : string) : Inj (=) (=) (Pages.candidate base_slug).
Proof.
  assert (∀ n, Pages.candidate base_slug 0 ≠ Pages.candidate base_slug (S n))
    as Hzero.
  { intros n H. unfold Pages.candidate in H.
    rewrite <- (append_nil_r base_slug) in H at 1.
    apply String.app_inj in H. by rewrite append_cons in H. }
  intros [|n] [|m] H; [done|by destruct (Hzero m)|by destruct (Hzero n)|].
  unfold Pages.candidate in H. apply String.app_inj in H.
  rewrite !append_cons, !append_nil_l in H. injection H as H.
  by apply pretty_nat_inj in H.
Qed.

(** The loop, started at the [k]-th candidate with the earlier ones
    taken, ends at the first free candidate, or runs out of fuel with all
    candidates up to [k + fuel] taken. *)
Lemma slug_loop_from (taken : list string) (base_slug : string) (fuel k : nat) :
  (∀ i, (i < k)%nat → Pages.candidate base_slug i ∈ taken) →
  (∃ n, (k ≤ n ≤ k + fuel)%nat
        ∧ Pages.slug_loop fuel taken base_slug (Pages.candidate base_slug k) (S k)
          = Some (Pages.candidate base_slug n)
        ∧ (Pages.candidate base_slug n ∉ taken)
        ∧ ∀ i, (i < n)%nat → Pages.candidate base_slug i ∈ taken)
  ∨ (Pages.slug_loop fuel taken base_slug (Pages.candidate base_slug k) (S k)
     = None
     ∧ ∀ i, (i ≤ k + fuel)%nat → Pages.candidate base_slug i ∈ taken).
Proof.
  revert k. induction fuel as [|fuel IH]; intros k Hk.
  - simpl. case_bool_decide as Hin.
    + right. split; [done|]. intros i Hi.
      destruct (decide (i = k)) as [->|]; [done|]. apply Hk. lia.
    + left. exists k. split; [lia|]. by split.
  - simpl. case_bool_decide as Hin.
    + destruct (IH (S k)) as [(n & Hn & Hrun & Hfree & Hbefore)|[Hrun Hall]].
      * intros i Hi. destruct (decide (i = k)) as [->|]; [done|].
        apply Hk. lia.
      * left. exists n. split; [lia|]. by split.
      * right. split; [done|]. intros i Hi. apply Hall. lia.
    + left. exists k. split; [lia|]. by split.
Qed.

(** The [while] loop of [Job.save] ends within as many iterations as
    there are jobs: it returns the first of the slugs [base],
    [base-1], [base-2], ... that no job has. *)
Lemma slug_loop_finds (taken : list string) (base_slug : string) :
  ∃ n, (n ≤ length taken)%nat
       ∧ Pages.slug_loop (length taken) taken base_slug base_slug 1
         = Some (Pages.candidate base_slug n)
       ∧ (Pages.candidate base_slug n ∉ taken)
       ∧ ∀ i, (i < n)%nat → Pages.candidate base_slug i ∈ taken.
Proof.
  destruct (slug_loop_from taken base_slug (length taken) 0)
    as [(n & Hn & Hrun & Hfree & Hbefore)|[_ Hall]]; [lia| |].
  - exists n. split; [lia|]. by split.
  - exfalso.
    assert (Pages.candidate base_slug <$> seq 0 (S (length taken)) ⊆+ taken)
      as Hsub.
    { apply NoDup_submseteq.
      - apply NoDup_fmap_2; [apply candidate_inj|apply NoDup_seq].
      - intros x Hx. apply list_elem_of_fmap in Hx as (i & -> & Hi).
        apply elem_of_seq in Hi. apply Hall. lia. }
    apply submseteq_length in Hsub. rewrite length_fmap, length_seq in Hsub.
    lia.
Qed.

(** X28.  A job saved without a slug gets a slug that no stored job has: the
    first free one of [base], [base-1], [base-2], ...; a job that has a
    slug keeps it. *)
Theorem job_save_gives_free_slug E (base_slug : string) (j j' : Job) w w' :
  Pages.job_save E base_slug j w = (Py.Ok j', w') →
  j' ∈ jobs w'
  ∧ (job_id j', required_skills j', applications_count j')
    = (job_id j, required_skills j, applications_count j)
  ∧ if decide (slug j = "")
    then (slug j' ∉ slug <$> jobs w)
         ∧ ∃ n, slug j' = Pages.candidate base_slug n
                ∧ ∀ i, (i < n)%nat →
                       Pages.candidate base_slug i ∈ slug <$> jobs w
    else slug j' = slug j.
Proof.
  unfold Pages.job_save, Py.truthy_str.
  destruct (decide (slug j = "")) as [Hs|Hs].
  - rewrite bool_decide_eq_false_2 by (by intros H; apply H). cbn [negb].
    unfold bind at 1. unfold bind at 1. unfold Views.query at 1.
    destruct (slug_loop_finds (slug <$> jobs w) base_slug)
      as (n & _ & -> & Hfree & Hbefore).
    unfold ret at 1. unfold bind, Views.db_write, ret.
    destruct (db_reject E _); intros [= <- <-]. cbn.
    split; [apply elem_of_upsert_row|]. split; [done|]. split; [done|].
    by exists n.
  - rewrite bool_decide_eq_true_2 by done. cbn [negb].
    unfold bind, Views.db_write, ret.
    destruct (db_reject E _); intros [= <- <-]. cbn.
    split; [apply elem_of_upsert_row|]. done.
Qed.

Lemma job_save_gives_free_slug_witness :
  let j := {| job_id := 4; slug := "";
              required_skills := ["Go"]; applications_count := 0 |} in
  let run := Pages.job_save Cases.usual_env "programmer-analytical-engines" j
               Cases.library_world in
  ∃ j', fst run = Py.Ok j'
        ∧ slug j' = "programmer-analytical-engines-1"
        ∧ (slug j' ∉ slug <$> jobs Cases.library_world).
Proof.
  eexists. split; [vm_compute; reflexivity|]. split; [reflexivity|].
  apply (job_save_gives_free_slug Cases.usual_env
           "programmer-analytical-engines"
           {| job_id := 4; slug := "";
              required_skills := ["Go"]; applications_count := 0 |} _
           Cases.library_world _ ltac:(vm_compute; reflexivity)).
Defined.

End Slugs.

(** ** The extension of a file name *)

Section Extensions.
Import Models Sys Spec Facts.

Lemma lower_char_idempotent (c : ascii) :
  Py.lower_char (Py.lower_char c) = Py.lower_char c.
Proof. destruct c as [[] [] [] [] [] [] [] []]; reflexivity. Qed.

Lemma lower_char_dot (c : ascii) : Py.lower_char c = "."%char → c = "."%char.
Proof. destruct c as [[] [] [] [] [] [] [] []]; vm_compute; congruence. Qed.

Lemma lower_idempotent (s : string) : Py.lower (Py.lower s) = Py.lower s.
Proof.
  induction s as [|c s IH]; [done|]. simpl.
  by rewrite lower_char_idempotent, IH.
Qed.

Lemma chars_lower_dot (s : string) :
  "."%char ∈ chars (Py.lower s) → "."%char ∈ chars s.
Proof.
  unfold chars. induction s as [|c s IH]; [done|]. simpl.
  intros [H|H]%elem_of_cons; [|right; by apply IH].
  symmetry in H. apply lower_char_dot in H as ->. left.
Qed.

Lemma chars_app (s t : string) : chars (s +:+ t) = chars s ++ chars t.
Proof.
  unfold chars. induction s as [|c s IH]; [by rewrite append_nil_l|].
  rewrite append_cons. simpl. by rewrite IH.
Qed.

Lemma last_component_no_dot (s cur : string) :
  ("."%char ∉ chars cur) → "."%char ∉ chars (Py.last_component cur s).
Proof.
  revert cur. induction s as [|c s IH]; intros cur Hcur; [done|]. simpl.
  case_bool_decide as Hc; [apply IH, not_elem_of_nil|]. apply IH.
  rewrite chars_app. intros [H|H]%elem_of_app; [done|].
  apply list_elem_of_singleton in H. by destruct Hc.
Qed.

Lemma last_component_whole (s cur : string) :
  ("."%char ∉ chars s) → Py.last_component cur s = cur +:+ s.
Proof.
  revert cur. induction s as [|c s IH]; intros cur Hs;
    [by rewrite append_nil_r|].
  simpl. unfold chars in Hs. simpl in Hs.
  apply not_elem_of_cons in Hs as [Hc Hs].
  rewrite bool_decide_eq_false_2 by congruence.
  rewrite IH by done. by rewrite append_assoc, append_cons, append_nil_l.
Qed.

(** X29.  The [file_extension] of a record holds no dot and is in lower case,
    so that the lower-casing of [extract_text] leaves it as it is; and a
    file name without a dot is, lower-cased, its own extension. *)
Theorem file_extension_normal (r : ParsedResume) :
  ("."%char ∉ chars (file_extension r))
  ∧ Py.lower (file_extension r) = file_extension r
  ∧ (("."%char ∉ chars (original_filename r)) →
     file_extension r = Py.lower (original_filename r)).
Proof.
  unfold file_extension, Py.truthy_str.
  case_bool_decide as Hname.
  - split; [|split].
    + intros H%chars_lower_dot. revert H.
      apply last_component_no_dot, not_elem_of_nil.
    + apply lower_idempotent.
    + intros Hdot. by rewrite last_component_whole, append_nil_l.
  - split; [by intros H%elem_of_nil|]. split; [done|].
    intros _. destruct (decide (original_filename r = "")) as [->|]; [done|].
    by destruct Hname.
Qed.

End Extensions.

(** ** Bookmarks *)

Section Bookmarks.
Import Models Sys Spec Facts.

Lemma filter_eq_nil_not_in (key : Pages.SavedJob) (b : list Pages.SavedJob) :
  filter (λ s, s = key) b = [] ↔ key ∉ b.
Proof.
  split.
  - intros Hf Hin.
    assert (key ∈ filter (λ s, s = key) b) as H
      by (by apply list_elem_of_filter).
    rewrite Hf in H. by apply elem_of_nil in H.
  - intros Hnot. induction b as [|x b IH]; [done|].
    apply not_elem_of_cons in Hnot as [Hx Hnot].
    rewrite filter_cons, decide_False by done. by apply IH.
Qed.

Lemma filter_ne_not_in (key : Pages.SavedJob) (b : list Pages.SavedJob) :
  key ∉ b → filter (λ s, s ≠ key) b = b.
Proof.
  intros Hnot. induction b as [|x b IH]; [done|].
  apply not_elem_of_cons in Hnot as [Hx Hnot].
  rewrite filter_cons, decide_True by done. by rewrite IH.
Qed.

(** X30.  [save_job] is a switch.  For a job that is not saved it adds the
    bookmark and says saved; called again it removes the bookmark, says
    not saved, and the table is as it was.  For a job that is saved, in
    one row, it removes that row and leaves the other rows as they
    were. *)
Theorem save_job_toggles req slug_ w j (b : list Pages.SavedJob) :
  Views.get_job_or_404 slug_ w = (Py.Ok j, w) →
  let key := {| Pages.saved_user := user_id (Views.req_user req);
                Pages.saved_job := job_id j |} in
  ((key ∉ b) →
   Pages.save_job req slug_ (w, b)
   = (Py.Ok (Pages.JsonSaved true "Job saved successfully"), (w, b ++ [key]))
   ∧ Pages.save_job req slug_ (w, b ++ [key])
     = (Py.Ok (Pages.JsonSaved false "Job removed from saved"), (w, b)))
  ∧ (key ∈ b → NoDup b →
     Pages.save_job req slug_ (w, b)
     = (Py.Ok (Pages.JsonSaved false "Job removed from saved"),
        (w, filter (λ s, s ≠ key) b))
     ∧ (key ∉ filter (λ s, s ≠ key) b)
     ∧ ∀ s, s ≠ key → s ∈ filter (λ s, s ≠ key) b ↔ s ∈ b).
Proof.
  intros Hjob key.
  assert (∀ b0, Pages.save_job req slug_ (w, b0)
                = match filter (λ s, s = key) b0 with
                  | [] => (Py.Ok (Pages.JsonSaved true "Job saved successfully"),
                           (w, b0 ++ [key]))
                  | [s] => (Py.Ok (Pages.JsonSaved false "Job removed from saved"),
                            (w, filter (λ x, x ≠ s) b0))
                  | _ => (Py.Raise (Py.LibraryError
                            "get() returned more than one SavedJob"), (w, b0))
                  end) as Hrun.
  { intros b0. unfold Pages.save_job. unfold bind at 1.
    unfold Pages.on_world. rewrite Hjob. unfold bind at 1.
    unfold Pages.get_or_create_saved. fold key.
    destruct (filter (λ s, s = key) b0) as [|s [|s' l]]; done. }
  split.
  - intros Hnot. rewrite !Hrun.
    rewrite (proj2 (filter_eq_nil_not_in key b) Hnot). split; [done|].
    rewrite filter_app, (proj2 (filter_eq_nil_not_in key b) Hnot).
    rewrite filter_cons, decide_True by done. rewrite filter_nil. cbn [app].
    rewrite filter_app, filter_ne_not_in by done.
    rewrite filter_cons, decide_False by (by intros H; apply H). simpl.
    by rewrite app_nil_r.
  - intros Hin Hnd. rewrite Hrun.
    assert (filter (λ s, s = key) b = [key]) as ->.
    { clear Hrun. induction b as [|x b IH]; [by apply elem_of_nil in Hin|].
      apply NoDup_cons in Hnd as [Hx Hnd]. rewrite filter_cons.
      destruct (decide (x = key)) as [->|Hne].
      - by rewrite (proj2 (filter_eq_nil_not_in key b) Hx).
      - apply IH; [|done]. by apply elem_of_cons in Hin as [->|Hin]. }
    split; [done|]. split.
    + intros [H _]%list_elem_of_filter. by apply H.
    + intros s Hs. rewrite list_elem_of_filter. tauto.
Qed.

Lemma save_job_toggles_witness :
  let key := {| Pages.saved_user := 7; Pages.saved_job := 3 |} in
  Pages.save_job (Scenario.form None) "programmer-analytical-engines"
    (Cases.library_world, [])
  = (Py.Ok (Pages.JsonSaved true "Job saved successfully"),
     (Cases.library_world, [key]))
  ∧ Pages.save_job (Scenario.form None) "programmer-analytical-engines"
      (Cases.library_world, [key])
    = (Py.Ok (Pages.JsonSaved false "Job removed from saved"),
       (Cases.library_world, [])).
Proof.
  apply (proj1 (save_job_toggles (Scenario.form None)
                  "programmer-analytical-engines" Cases.library_world
                  (Scenario.posting ["Python"]) [] eq_refl)).
  apply not_elem_of_nil.
Defined.

End Bookmarks.
